(** * Discover India: the ranking and retrieval engine of [app.py]

    A shallow embedding of the recommendation, search, autocomplete and
    feed functions of [src/app.py], and the properties of the
    specification that concern them.

    Conventions of the embedding.
    - A pandas [DataFrame] is a list of rows, each row carrying its index
      label (its position in the catalog) next to its column values.
    - Text cells are [option string]: [None] is a missing cell (NaN).
      Strings are byte strings; [lower] acts on the ASCII letters.
    - Numeric cells ([Google review rating], [Number of google review in
      lakhs], [popularity_score], cosine similarities) are real numbers:
      the functions below only compare them, and [np.log1p] is [ln (1 + x)].
    - [int(n_recommendations * 0.6)] is the one place where the rounding of
      binary64 arithmetic decides the result; it is embedded with the
      IEEE 754 operations of [SpecFloat].
    - Python integers are [Z]; slices and [head] follow Python and pandas
      for negative arguments.
    - An exception caught by an [except] clause is a [None] taken to the
      handler's branch.
    - [DataFrame.nlargest] with a bound at or over the number of rows
      sorts with the library's default sort, which is not stable; the
      functions that call it take that sort as their argument
      [sort_values], and the theorems assume of it only that it returns
      the rows it is given by descending score. *)

From Stdlib Require Import List Bool Arith ZArith Lia String Ascii.
From Stdlib Require Import Reals Lra Permutation Sorted.
From Stdlib Require Import Floats.SpecFloat.
Import ListNotations.

Open Scope string_scope.
Open Scope Z_scope.

(** ** Python strings *)

Module PyStr.

(** [c.lower()] on one ASCII character. *)
Definition lower_ascii (c : ascii) : ascii :=
  let k := N_of_ascii c in
  if ((65 <=? k) && (k <=? 90))%N then ascii_of_N (k + 32) else c.

(** [s.lower()] *)
Fixpoint lower (s : string) : string :=
  match s with
  | EmptyString => EmptyString
  | String c s' => String (lower_ascii c) (lower s')
  end.

(** [s.startswith(p)] *)
Fixpoint startswith (p s : string) : bool :=
  match p, s with
  | EmptyString, _ => true
  | String _ _, EmptyString => false
  | String a p', String b s' => Ascii.eqb a b && startswith p' s'
  end.

(** [sub in s]: literal substring containment, as
    [Series.str.contains(sub, regex=False)] applies it to one cell. *)
Fixpoint contains (sub s : string) : bool :=
  startswith sub s ||
  match s with
  | EmptyString => false
  | String _ s' => contains sub s'
  end.

(** The characters removed by [str.strip()] with no argument. *)
Definition is_space (c : ascii) : bool :=
  let k := N_of_ascii c in
  ((k =? 32) || ((9 <=? k) && (k <=? 13)) || ((28 <=? k) && (k <=? 31)))%N.

Fixpoint lstrip (s : string) : string :=
  match s with
  | EmptyString => EmptyString
  | String c s' => if is_space c then lstrip s' else s
  end.

Fixpoint rstrip (s : string) : string :=
  match s with
  | EmptyString => EmptyString
  | String c s' =>
      match rstrip s' with
      | EmptyString => if is_space c then EmptyString else String c EmptyString
      | r => String c r
      end
  end.

(** [s.strip()] *)
Definition strip (s : string) : string := rstrip (lstrip s).

End PyStr.

(** ** Python sequences *)

Module PySeq.

Section Slices.
Context {A : Type}.

(** A slice bound clipped to [0 .. len], negative bounds counted from
    the end, as [slice.indices] does for a step of one. *)
Definition clip (len : nat) (i : Z) : nat :=
  if i <? 0 then Z.to_nat (Z.max 0 (Z.of_nat len + i))
  else Nat.min len (Z.to_nat i).

(** [l[start:stop]] *)
Definition slice (start stop : Z) (l : list A) : list A :=
  let a := clip (List.length l) start in
  let b := clip (List.length l) stop in
  firstn (b - a) (skipn a l).

(** [l[:n]], which is also [DataFrame.head(n)]: the first [n] rows, and
    for a negative [n] all rows but the last [-n]. *)
Definition head (n : Z) (l : list A) : list A :=
  firstn (clip (List.length l) n) l.

(** [list(enumerate(l))] *)
Definition enumerate (l : list A) : list (nat * A) :=
  combine (seq 0 (List.length l)) l.

End Slices.

Section Sorting.
Context {A : Type}.
(** [before a b]: [a] has to come strictly before [b]. *)
Variable before : A -> A -> bool.

Fixpoint insert (x : A) (l : list A) : list A :=
  match l with
  | [] => [x]
  | y :: l' => if before y x then y :: insert x l' else x :: y :: l'
  end.

(** A stable sort: elements that [before] does not order keep the order
    they have in the input.  This is [sorted(l, key=..., reverse=True)],
    [DataFrame.sort_values] on several columns and the order
    [DataFrame.nlargest(n, keep='first')] gives to the rows it selects
    when [n] is below the number of rows. *)
Definition stable_sort (l : list A) : list A :=
  fold_right insert [] l.

(** The order of the output of the sort on an input whose rows are at
    the positions [label]: [before] first, the position in the input
    among the rows [before] leaves unordered. *)
Definition stable_order (label : A -> nat) (a b : A) : Prop :=
  before a b = true \/ (before b a = false /\ (label a < label b)%nat).

End Sorting.

Section Dedup.
Context {A K : Type}.
Variable key : A -> K.
Variable key_eqb : K -> K -> bool.

(** Keep the first row of every key, in the order of the input:
    [drop_duplicates(keep='first')] and the [seen] loop of the
    autocomplete. *)
Fixpoint dedup_seen (seen : list K) (l : list A) : list A :=
  match l with
  | [] => []
  | x :: l' =>
      if existsb (key_eqb (key x)) seen then dedup_seen seen l'
      else x :: dedup_seen (key x :: seen) l'
  end.

Definition drop_duplicates (l : list A) : list A := dedup_seen [] l.

End Dedup.

End PySeq.

(** ** Python floats *)

Module PyFloat.

(** binary64 *)
Definition prec : Z := 53.
Definition emax : Z := 1024.

(** The conversion of a Python [int] operand to [float]: the nearest
    double, ties to even; [None] is the [OverflowError] raised for an
    integer too large to convert. *)
Definition of_int (n : Z) : option spec_float :=
  match binary_normalize prec emax n 0 false with
  | S754_infinity _ => None
  | f => Some f
  end.

(** The literal [0.6], the double [0x3FE3333333333333]. *)
Definition lit_0_6 : spec_float := S754_finite false 5404319552844595 (-53).

Definition mul : spec_float -> spec_float -> spec_float := SFmul prec emax.

(** [int(x)] on a float: truncation toward zero; [None] is the exception
    raised on an infinity or a NaN. *)
Definition to_int (x : spec_float) : option Z :=
  match x with
  | S754_zero _ => Some 0
  | S754_finite s m e =>
      Some (cond_Zopp s
              (match e with
               | Zneg k => Z.pos m / 2 ^ Z.pos k
               | _ => Z.pos m * 2 ^ e
               end))
  | S754_infinity _ | S754_nan => None
  end.

(** [int(n * 0.6)] for a Python [int] [n]. *)
Definition int_mul_0_6 (n : Z) : option Z :=
  match of_int n with
  | Some x => to_int (mul x lit_0_6)
  | None => None
  end.

End PyFloat.

(** ** The catalog *)

(** One row of [data/places_clean.csv] after [load_data] has coerced and
    imputed the two numeric columns. *)
Record Place := {
  State : option string;
  City : option string;
  Name : option string;
  Google_review_rating : R;
  Number_of_google_review_in_lakhs : R;
  Best_Time_to_visit : option string;
  image_url : option string
}.

(** [Series.fillna('')] on one cell. *)
Definition fillna (c : option string) : string :=
  match c with Some s => s | None => "" end.

(** [str(c)] and [f"{c}"] on one cell: a missing cell prints as [nan]. *)
Definition str (c : option string) : string :=
  match c with Some s => s | None => "nan" end.

(** The two columns [load_data] derives. *)
Definition popularity_score (p : Place) : R :=
  (Google_review_rating p * ln (1 + Number_of_google_review_in_lakhs p))%R.

Definition combined_text (p : Place) : string :=
  fillna (State p) ++ " " ++ fillna (City p) ++ " " ++ fillna (Name p)
    ++ " " ++ fillna (Best_Time_to_visit p).

(** A row of a frame: its index label and its cells. *)
Definition Row : Type := nat * Place.
Definition DataFrame : Type := list Row.

Definition Rltb (x y : R) : bool := if Rlt_dec x y then true else false.
Definition Reqb (x y : R) : bool := if Req_dec_T x y then true else false.

Definition cell_eqb (a b : option string) : bool :=
  match a, b with
  | Some x, Some y => String.eqb x y
  | None, None => true
  | _, _ => false
  end.

(** Equality of all the cells of two rows, as [drop_duplicates()] with no
    subset compares them (missing cells are equal to each other). *)
Definition place_eqb (p q : Place) : bool :=
  cell_eqb (State p) (State q) && cell_eqb (City p) (City q)
  && cell_eqb (Name p) (Name q)
  && Reqb (Google_review_rating p) (Google_review_rating q)
  && Reqb (Number_of_google_review_in_lakhs p)
          (Number_of_google_review_in_lakhs q)
  && cell_eqb (Best_Time_to_visit p) (Best_Time_to_visit q)
  && cell_eqb (image_url p) (image_url q).

(** [Series.str.contains(q, regex=False, na=False)] on one cell. *)
Definition str_contains (q : string) (c : option string) : bool :=
  match c with Some s => PyStr.contains q s | None => false end.

(** [Series.str.lower()] on one cell. *)
Definition str_lower (c : option string) : option string :=
  match c with Some s => Some (PyStr.lower s) | None => None end.

(** [Series.str.lower() == q] on one cell. *)
Definition str_equals (q : string) (c : option string) : bool :=
  match c with Some s => String.eqb s q | None => false end.

(** [mask.idxmax()]: the label of the first [True], the first label when
    there is none. *)
Fixpoint first_true (mask : list bool) : nat :=
  match mask with
  | [] => 0
  | b :: m => if b then 0 else S (first_true m)
  end.

Definition idxmax (mask : list bool) : nat :=
  if existsb (fun b => b) mask then first_true mask else 0%nat.

(** [frame.iloc[positions]]; [None] is the [IndexError] of a position out
    of bounds. *)
Fixpoint iloc (fr : DataFrame) (positions : list nat) : option DataFrame :=
  match positions with
  | [] => Some []
  | i :: rest =>
      match nth_error fr i, iloc fr rest with
      | Some r, Some rs => Some (r :: rs)
      | _, _ => None
      end
  end.

(** The order of [nlargest(_, 'popularity_score')]. *)
Definition by_popularity (a b : Row) : bool :=
  Rltb (popularity_score (snd b)) (popularity_score (snd a)).

(** [frame.nlargest(n, 'popularity_score')].  For [0 < n < len(frame)]
    pandas selects the [n] largest scores and orders them with a stable
    sort: rows of equal score keep the order of the frame.  For
    [n >= len(frame)] it returns
    [frame.sort_values(ascending=False).head(n)] on the score, sorted with
    the default [kind='quicksort'], which is not stable: [sort_values] is
    that sort, and the order it gives to rows of equal score is the
    library's. *)
Definition nlargest (sort_values : DataFrame -> DataFrame) (n : Z)
    (fr : DataFrame) : DataFrame :=
  if n <=? 0 then []
  else if Z.of_nat (List.length fr) <=? n then
    firstn (Z.to_nat n) (sort_values fr)
  else firstn (Z.to_nat n) (PySeq.stable_sort by_popularity fr).

(** The order of [sorted(sim_scores, key=lambda x: x[1], reverse=True)]. *)
Definition by_similarity (a b : nat * R) : bool := Rltb (snd b) (snd a).

(** ** The engine *)

Section Engine.

(** The module-level [df = load_data()]. *)
Variable df : list Place.

(** [TfidfVectorizer(stop_words='english', max_features=1000)
    .fit_transform(texts)] followed by [cosine_similarity] of the matrix
    with itself: the entry at [i], [j] of the similarity matrix.  [None] is
    the exception the vectorizer raises (on an empty vocabulary). *)
Variable tfidf_cosine : list string -> option (nat -> nat -> R).

(** [Series.sort_values(ascending=False)] on the popularity score with the
    default [kind='quicksort'], the sort [nlargest] falls back to. *)
Variable sort_values : DataFrame -> DataFrame.

(** [df] as a frame: the labels are the positions ([RangeIndex]). *)
Definition frame : DataFrame := PySeq.enumerate df.

Definition content_based_recommendations
    (place_name : option string) (n_recommendations : Z) : DataFrame :=
  match place_name with
  | None =>
      (* [place_name.lower()] raises on a missing name: [except] branch *)
      PySeq.head n_recommendations frame
  | Some place_name =>
      let place_mask :=
        map (fun p => str_contains (PyStr.lower place_name)
                        (str_lower (Name p))) df in
      if negb (existsb (fun b => b) place_mask) then
        PySeq.head n_recommendations frame
      else
        let place_idx := idxmax place_mask in
        match tfidf_cosine (map combined_text df) with
        | None => PySeq.head n_recommendations frame
        | Some cosine_sim =>
            let sim_scores :=
              PySeq.enumerate
                (map (cosine_sim place_idx) (seq 0 (List.length df))) in
            let sim_scores := PySeq.stable_sort by_similarity sim_scores in
            let sim_scores :=
              PySeq.slice 1 (n_recommendations + 1) sim_scores in
            let place_indices := map fst sim_scores in
            match iloc frame place_indices with
            | Some similar => similar
            | None => PySeq.head n_recommendations frame
            end
        end
  end.

Definition collaborative_recommendations (n_recommendations : Z)
    : DataFrame :=
  nlargest sort_values n_recommendations frame.

(** The content-based part of the blend: the rows similar to the ten most
    popular places, without repeated rows, cut to [content_count]. *)
Definition hybrid_content_recs (content_count : Z) : DataFrame :=
  let top_places := nlargest sort_values 10 frame in
  let content_recs :=
    filter (fun similar => negb (Nat.eqb (List.length similar) 0))
      (map (fun place : Row =>
              content_based_recommendations (Name (snd place)) 2)
         top_places) in
  match content_recs with
  | [] => []
  | _ =>
      PySeq.head content_count
        (PySeq.drop_duplicates (@snd nat Place) place_eqb
           (List.concat content_recs))
  end.

(** [combined]: the two parts put together, one row a name. *)
Definition hybrid_combined (collab_recs content_recs : DataFrame)
    : DataFrame :=
  match content_recs with
  | [] => collab_recs
  | _ =>
      PySeq.drop_duplicates (fun r : Row => Name (snd r)) cell_eqb
        (collab_recs ++ content_recs)%list
  end.

(** The body of the [try] of [hybrid_recommendations] once
    [collab_count] is known. *)
Definition hybrid_blend (n_recommendations collab_count : Z) : DataFrame :=
  let collab_recs := collaborative_recommendations collab_count in
  let content_count := n_recommendations - collab_count in
  let content_recs := hybrid_content_recs content_count in
  let combined := hybrid_combined collab_recs content_recs in
  nlargest sort_values n_recommendations combined.

Definition hybrid_recommendations (n_recommendations : Z) : DataFrame :=
  match PyFloat.int_mul_0_6 n_recommendations with
  | Some collab_count => hybrid_blend n_recommendations collab_count
  | None =>
      (* [OverflowError] of [n_recommendations * 0.6]: [except] branch *)
      collaborative_recommendations n_recommendations
  end.

(** The mask of [search_places] on one row; [query] is already in lower
    case. *)
Definition search_mask (query : string) (p : Place) : bool :=
  str_contains query (str_lower (Name p))
  || str_contains query (str_lower (City p))
  || str_contains query (str_lower (State p))
  || str_contains query (str_lower (Best_Time_to_visit p)).

(** The column [relevance_score] of one row of [results]. *)
Definition relevance_score (query : string) (p : Place) : Z :=
  let exact_name := str_equals query (str_lower (Name p)) in
  let exact_city := str_equals query (str_lower (City p)) in
  let exact_state := str_equals query (str_lower (State p)) in
  let partial_name := str_contains query (str_lower (Name p)) in
  let partial_city := str_contains query (str_lower (City p)) in
  let partial_state := str_contains query (str_lower (State p)) in
  (if exact_name then 10 else 0) + (if exact_city then 8 else 0)
  + (if exact_state then 6 else 0) + (if partial_name then 5 else 0)
  + (if partial_city then 3 else 0) + (if partial_state then 2 else 0).

(** The order of [sort_values(['relevance_score', 'popularity_score'],
    ascending=[False, False])] on rows paired with their relevance. *)
Definition by_relevance_popularity (a b : Row * Z) : bool :=
  (snd b <? snd a)
  || ((snd a =? snd b)
      && Rltb (popularity_score (snd (fst b)))
              (popularity_score (snd (fst a)))).

(** The rows [df[mask]] of [search_places]. *)
Definition search_matches (query : string) : DataFrame :=
  filter (fun r : Row => search_mask (PyStr.lower query) (snd r)) frame.

Definition search_places (query : string) (n_results : Z)
    : list (Row * Z) :=
  let query := PyStr.lower query in
  let results := filter (fun r : Row => search_mask query (snd r)) frame in
  match results with
  | [] => []
  | _ =>
      let results :=
        map (fun r : Row => (r, relevance_score query (snd r))) results in
      let results := PySeq.stable_sort by_relevance_popularity results in
      PySeq.head n_results results
  end.

(** One dictionary of [suggestions]. *)
Record Suggestion := {
  type : string;
  text : string;
  location : string;
  rating : R;
  suggestion_relevance_score : Z
}.

Definition name_suggestions (query : string) : list Suggestion :=
  flat_map (fun place : Row =>
    match Name (snd place) with
    | Some name =>
        if PyStr.contains query name then
          [{| type := "name"; text := name;
              location := str (City (snd place)) ++ ", "
                            ++ str (State (snd place));
              rating := Google_review_rating (snd place);
              suggestion_relevance_score := 100 |}]
        else []
    | None => []
    end) frame.

Definition city_suggestions (query : string) : list Suggestion :=
  flat_map (fun place : Row =>
    match City (snd place) with
    | Some city =>
        if PyStr.contains query city then
          [{| type := "city"; text := city;
              location := str (State (snd place));
              rating := Google_review_rating (snd place);
              suggestion_relevance_score := 50 |}]
        else []
    | None => []
    end) frame.

Definition state_suggestions (query : string) : list Suggestion :=
  flat_map (fun place : Row =>
    match State (snd place) with
    | Some state =>
        if PyStr.contains query state then
          [{| type := "state"; text := state;
              location := "State";
              rating := Google_review_rating (snd place);
              suggestion_relevance_score := 25 |}]
        else []
    | None => []
    end) frame.

(** The key [f"{suggestion['type']}_{suggestion['text']}"]. *)
Definition suggestion_key (s : Suggestion) : string :=
  type s ++ "_" ++ text s.

Definition by_suggestion_relevance (a b : Suggestion) : bool :=
  suggestion_relevance_score b <? suggestion_relevance_score a.

Definition get_autocomplete_suggestions (query : string)
    (max_suggestions : Z) : list Suggestion :=
  if (String.length query =? 0)%nat
     || (String.length (PyStr.strip query) <? 2)%nat then []
  else
    let query := PyStr.strip query in
    let suggestions :=
      (name_suggestions query ++ city_suggestions query
         ++ state_suggestions query)%list in
    let unique_suggestions :=
      PySeq.drop_duplicates suggestion_key String.eqb suggestions in
    let unique_suggestions :=
      PySeq.stable_sort by_suggestion_relevance unique_suggestions in
    PySeq.head max_suggestions unique_suggestions.

(** One dictionary of [places] in the answer of [/feed]. *)
Record PlaceJson := {
  json_name : string;
  json_location : string;
  json_rating : R;
  json_reviews : R;
  json_best_time : string;
  json_image_url : string;
  json_popularity_score : R
}.

Definition place_json (place : Row) : PlaceJson :=
  let p := snd place in
  {| json_name := str (Name p);
     json_location := str (City p) ++ ", " ++ str (State p);
     json_rating := Google_review_rating p;
     json_reviews := Number_of_google_review_in_lakhs p;
     json_best_time := str (Best_Time_to_visit p);
     json_image_url := fillna (image_url p);
     json_popularity_score := popularity_score p |}.

(** The JSON object [/feed] answers with. *)
Record FeedResponse := {
  success : bool;
  places : list PlaceJson;
  page_number : Z;
  has_more : bool
}.

(** The rows [/feed] ranks before it cuts the page out of them. *)
Definition feed_recommendations (page limit : Z) : DataFrame :=
  let offset := (page - 1) * limit in
  let recommendations := hybrid_recommendations (limit + offset) in
  match recommendations with
  | [] => collaborative_recommendations (limit + offset)
  | _ => recommendations
  end.

(** The rows of the page. *)
Definition feed_page_results (page limit : Z) : DataFrame :=
  let offset := (page - 1) * limit in
  PySeq.slice offset (offset + limit) (feed_recommendations page limit).

Definition feed (page limit : Z) : FeedResponse :=
  let places := map place_json (feed_page_results page limit) in
  {| success := true;
     places := places;
     page_number := page;
     has_more := Z.of_nat (List.length places) =? limit |}.

End Engine.

(** ** The catalogs of the scenarios *)

(** The three rows of the scenario of the specification. *)
Definition place_A : Place :=
  {| State := Some "Uttar Pradesh"; City := Some "Agra";
     Name := Some "Taj Mahal";
     Google_review_rating := 4.8; Number_of_google_review_in_lakhs := 50;
     Best_Time_to_visit := None; image_url := None |}.

Definition place_B : Place :=
  {| State := Some "Delhi"; City := Some "Delhi";
     Name := Some "Red Fort";
     Google_review_rating := 4.5; Number_of_google_review_in_lakhs := 30;
     Best_Time_to_visit := None; image_url := None |}.

Definition place_C : Place :=
  {| State := Some "Goa"; City := Some "Panaji";
     Name := Some "Goa Beach";
     Google_review_rating := 4.2; Number_of_google_review_in_lakhs := 40;
     Best_Time_to_visit := None; image_url := None |}.

Definition scenario : list Place := [place_A; place_B; place_C].

(** Two rows with the same words in [combined_text], whose names differ:
    [Goa Panaji Baga Beach] for both. *)
Definition place_beach : Place :=
  {| State := Some "Goa"; City := Some "Panaji Baga";
     Name := Some "Beach";
     Google_review_rating := 4.5; Number_of_google_review_in_lakhs := 10;
     Best_Time_to_visit := None; image_url := None |}.

Definition place_baga_beach : Place :=
  {| State := Some "Goa"; City := Some "Panaji";
     Name := Some "Baga Beach";
     Google_review_rating := 4.4; Number_of_google_review_in_lakhs := 12;
     Best_Time_to_visit := None; image_url := None |}.

Definition baga_catalog : list Place := [place_beach; place_baga_beach].

(** The similarity matrix of a catalog all of whose rows have the same
    text: all the TF-IDF vectors are one and the same unit vector. *)
Definition same_text_cosine : list string -> option (nat -> nat -> R) :=
  fun _ => Some (fun _ _ => 1%R).

(** A catalog of one row whose text has no token of two characters or
    more: the vocabulary is empty and [fit_transform] raises
    [ValueError]. *)
Definition place_x : Place :=
  {| State := None; City := None; Name := Some "X";
     Google_review_rating := 4; Number_of_google_review_in_lakhs := 1;
     Best_Time_to_visit := None; image_url := None |}.

Definition one_letter_catalog : list Place := [place_x].

Definition empty_vocabulary : list string -> option (nat -> nat -> R) :=
  fun _ => None.

(** A catalog of one row. *)
Definition taj_catalog : list Place := [place_A].

(** One place listed twice, with two ratings. *)
Definition marine_drive_1 : Place :=
  {| State := Some "Maharashtra"; City := Some "Mumbai";
     Name := Some "Marine Drive";
     Google_review_rating := 4.5; Number_of_google_review_in_lakhs := 2;
     Best_Time_to_visit := None; image_url := None |}.

Definition marine_drive_2 : Place :=
  {| State := Some "Maharashtra"; City := Some "Mumbai";
     Name := Some "Marine Drive";
     Google_review_rating := 4.4; Number_of_google_review_in_lakhs := 2;
     Best_Time_to_visit := None; image_url := None |}.

Definition twice_listed_catalog : list Place :=
  [marine_drive_1; marine_drive_2].

(** ** The orders and conditions the specification names *)

(** Descending popularity, ascending catalog position among equal scores. *)
Definition popularity_order (a b : Row) : Prop :=
  (popularity_score (snd b) < popularity_score (snd a))%R
  \/ (popularity_score (snd a) = popularity_score (snd b)
      /\ (fst a < fst b)%nat).



(** The resolution of a name query: the rows whose name holds the query,
    both in lower case. *)
Definition name_matches (name_query : string) (p : Place) : bool :=
  str_contains (PyStr.lower name_query) (str_lower (Name p)).

(** The query resolves to a row of the catalog. *)
Definition resolves (df : list Place) (name_query : string) : Prop :=
  exists p, In p df /\ name_matches name_query p = true.

(** The position of the resolved row: the first match in catalog order. *)
Definition resolved_index (df : list Place) (name_query : string) : nat :=
  first_true (map (name_matches name_query) df).

(** The ranking of the rows by their similarity to the row at [idx]:
    [sim_scores] after [sorted]. *)
Definition similarity_ranking (df : list Place)
    (cosine_sim : nat -> nat -> R) (idx : nat) : list (nat * R) :=
  PySeq.stable_sort by_similarity
    (PySeq.enumerate (map (cosine_sim idx) (seq 0 (List.length df)))).

(** ** The steps of the rounding of binary64 *)

Module PyFloatRounding.

(** What [k] steps of [shr_1] have made of the mantissa [m]: the
    quotient, the round bit and the sticky bit. *)
Definition shifted (m : Z) (k : Z) (mrs : shr_record) : Prop :=
  exists u, 2 * m = (2 * shr_m mrs + Z.b2z (shr_r mrs)) * 2 ^ k + u
            /\ 0 <= u < 2 ^ k
            /\ (shr_s mrs = true <-> 0 < u)
            /\ 0 <= shr_m mrs.

(** The result of rounding [m * 2^e] when the rounded mantissa is [m']
    and its last kept digit has the weight [2^e']: the mantissa [2^53] is
    renormalized, an exponent over [971] is an infinity. *)
Definition rounded (m' e' : Z) : spec_float :=
  if m' <? 2 ^ 53 then
    if e' <=? 971 then S754_finite false (Z.to_pos m') e'
    else S754_infinity false
  else
    if e' + 1 <=? 971 then S754_finite false (Z.to_pos (2 ^ 52)) (e' + 1)
    else S754_infinity false.

End PyFloatRounding.

(** ** Loading the catalog *)

(** One row of the file after [pd.to_numeric(..., errors='coerce')]: a
    numeric cell that holds no number is missing. *)
Record RawPlace := {
  raw_State : option string;
  raw_City : option string;
  raw_Name : option string;
  raw_rating : option R;
  raw_reviews : option R;
  raw_Best_Time_to_visit : option string;
  raw_image_url : option string
}.

(** The numbers of a column. *)
Definition present (column : list (option R)) : list R :=
  flat_map (fun c : option R => match c with Some x => [x] | None => [] end)
    column.

Definition Rsum (xs : list R) : R := fold_right Rplus 0%R xs.

(** [column.mean()]: the mean of the numbers of the column, missing (NaN)
    when it has none. *)
Definition column_mean (column : list (option R)) : option R :=
  match present column with
  | [] => None
  | xs => Some (Rsum xs / INR (List.length xs))%R
  end.

(** [df.loc[column.isna(), column] = column_mean]. *)
Definition fill_missing (column : list (option R)) : list (option R) :=
  let mean := column_mean column in
  map (fun c : option R => match c with Some x => Some x | None => mean end)
    column.

(** The rows of [load_data] from the raw rows and the two filled columns;
    [None] when a cell is still missing: the scores of such a frame are
    NaN, it is no catalog of the engine. *)
Fixpoint load_rows (raw : list RawPlace) (ratings reviews : list (option R))
    : option (list Place) :=
  match raw, ratings, reviews with
  | [], _, _ => Some []
  | r :: raw', Some rating :: ratings', Some review :: reviews' =>
      match load_rows raw' ratings' reviews' with
      | Some rows =>
          Some ({| State := raw_State r; City := raw_City r;
                   Name := raw_Name r;
                   Google_review_rating := rating;
                   Number_of_google_review_in_lakhs := review;
                   Best_Time_to_visit := raw_Best_Time_to_visit r;
                   image_url := raw_image_url r |} :: rows)
      | None => None
      end
  | _, _, _ => None
  end.

Definition load_data (raw : list RawPlace) : option (list Place) :=
  let rating_mean_filled := fill_missing (map raw_rating raw) in
  let review_mean_filled := fill_missing (map raw_reviews raw) in
  load_rows raw rating_mean_filled review_mean_filled.

(** ** The routes *)

(** The answer of a route: its JSON body, or an error status and
    message. *)
Inductive Response (A : Type) : Type :=
| Ok (body : A)
| Error (status : Z) (error : string).

Arguments Ok {A} body.
Arguments Error {A} status error.

(** One dictionary of [places] in the answer of [/search]: the text cells
    as they are in the frame. *)
Record SearchPlaceJson := {
  sp_name : option string;
  sp_location : string;
  sp_rating : R;
  sp_reviews : R;
  sp_best_time : option string;
  sp_image_url : option string;
  sp_popularity_score : R
}.

Definition search_place_json (place : Row) : SearchPlaceJson :=
  let p := snd place in
  {| sp_name := Name p;
     sp_location := str (City p) ++ ", " ++ str (State p);
     sp_rating := Google_review_rating p;
     sp_reviews := Number_of_google_review_in_lakhs p;
     sp_best_time := Best_Time_to_visit p;
     sp_image_url := image_url p;
     sp_popularity_score := popularity_score p |}.

Record SearchBody := {
  search_result_places : list SearchPlaceJson;
  search_result_query : string;
  total_results : nat
}.

(** One dictionary of [similar_places] in the answer of [/place]. *)
Record SimilarJson := {
  similar_name : string;
  similar_location : string;
  similar_rating : R;
  similar_image_url : string
}.

Definition similar_json (place : Row) : SimilarJson :=
  let p := snd place in
  {| similar_name := str (Name p);
     similar_location := str (City p) ++ ", " ++ str (State p);
     similar_rating := Google_review_rating p;
     similar_image_url := fillna (image_url p) |}.

Record PlaceDetails := {
  place_data : PlaceJson;
  similar_places : list SimilarJson
}.

Record AutocompleteBody := {
  suggestions : list Suggestion;
  autocomplete_query : option string
}.

Section Routes.

Variable df : list Place.
Variable tfidf_cosine : list string -> option (nat -> nat -> R).

(** [/search]; the argument is [request.args.get('query')], missing when
    the request has no such parameter. *)
Definition search (query_arg : option string) : Response SearchBody :=
  let query := PyStr.strip (fillna query_arg) in
  if (String.length query =? 0)%nat then
    Error 400 "Query parameter is required"
  else
    let results := search_places df query 20 in
    let places := map (fun r : Row * Z => search_place_json (fst r)) results in
    Ok {| search_result_places := places;
          search_result_query := query;
          total_results := List.length places |}.

(** [/autocomplete] *)
Definition autocomplete (query_arg : option string) : AutocompleteBody :=
  let query := PyStr.strip (fillna query_arg) in
  if (String.length query =? 0)%nat || (String.length query <? 2)%nat then
    {| suggestions := []; autocomplete_query := None |}
  else
    {| suggestions := get_autocomplete_suggestions df query 8;
       autocomplete_query := Some query |}.

(** [/place/<place_name>] *)
Definition get_place_details (place_name : string)
    : Response PlaceDetails :=
  let place :=
    filter (fun r : Row =>
              str_contains (PyStr.lower place_name)
                (str_lower (Name (snd r)))) (frame df) in
  match place with
  | [] => Error 404 "Place not found"
  | place :: _ =>
      let similar :=
        content_based_recommendations df tfidf_cosine
          (Name (snd place)) 5 in
      Ok {| place_data := place_json place;
            similar_places := map similar_json similar |}
  end.

End Routes.

(** ** Conditions the properties of the engine name *)

(** [r] is a row of the catalog: its cells are those at its label. *)
Definition is_row_of (df : list Place) (r : Row) : Prop :=
  nth_error df (fst r) = Some (snd r).

(** Descending popularity, whatever the positions. *)
Definition popularity_descending (a b : Row) : Prop :=
  (popularity_score (snd b) <= popularity_score (snd a))%R.

(** What is known of [sort_values]: it returns the rows it is given, by
    descending score.  Nothing is known of the order of rows of equal
    score. *)
Definition sorts_by_popularity (sort_values : DataFrame -> DataFrame)
    : Prop :=
  forall fr : DataFrame,
    Permutation (sort_values fr) fr
    /\ StronglySorted popularity_descending (sort_values fr).

(** One such sort: ascending and stable, then reversed, which puts rows
    of equal score in the reverse of the order they come in. *)
Definition by_popularity_ascending (a b : Row) : bool :=
  Rltb (popularity_score (snd a)) (popularity_score (snd b)).

Definition reversed_ties_sort (fr : DataFrame) : DataFrame :=
  rev (PySeq.stable_sort by_popularity_ascending fr).

(** No two rows of the catalog have the same popularity score. *)
Definition no_ties (df : list Place) : Prop :=
  NoDup (map popularity_score df).

(** A catalog with ties: two rows of one score, then two rows of one
    higher score. *)
Definition place_low_1 : Place :=
  {| State := Some "Goa"; City := Some "Panaji"; Name := Some "Miramar Beach";
     Google_review_rating := 4; Number_of_google_review_in_lakhs := 10;
     Best_Time_to_visit := Some "November to February";
     image_url := None |}.

Definition place_low_2 : Place :=
  {| State := Some "Goa"; City := Some "Panaji"; Name := Some "Dona Paula";
     Google_review_rating := 4; Number_of_google_review_in_lakhs := 10;
     Best_Time_to_visit := Some "November to February";
     image_url := None |}.

Definition place_high_1 : Place :=
  {| State := Some "Goa"; City := Some "Calangute";
     Name := Some "Calangute Beach";
     Google_review_rating := 4.5; Number_of_google_review_in_lakhs := 10;
     Best_Time_to_visit := Some "November to February";
     image_url := None |}.

Definition place_high_2 : Place :=
  {| State := Some "Goa"; City := Some "Candolim";
     Name := Some "Fort Aguada";
     Google_review_rating := 4.5; Number_of_google_review_in_lakhs := 10;
     Best_Time_to_visit := Some "November to February";
     image_url := None |}.

Definition tied_catalog : list Place :=
  [place_low_1; place_low_2; place_high_1; place_high_2].

(** The three rows of the scenario of the specification with a text in
    the column [Best Time to visit], which the scenario leaves out and
    the search reads. *)
Definition place_A_season : Place :=
  {| State := Some "Uttar Pradesh"; City := Some "Agra";
     Name := Some "Taj Mahal";
     Google_review_rating := 4.8; Number_of_google_review_in_lakhs := 50;
     Best_Time_to_visit := Some "October to March"; image_url := None |}.

Definition place_B_season : Place :=
  {| State := Some "Delhi"; City := Some "Delhi";
     Name := Some "Red Fort";
     Google_review_rating := 4.5; Number_of_google_review_in_lakhs := 30;
     Best_Time_to_visit := Some "October to March"; image_url := None |}.

Definition place_C_season : Place :=
  {| State := Some "Goa"; City := Some "Panaji";
     Name := Some "Goa Beach";
     Google_review_rating := 4.2; Number_of_google_review_in_lakhs := 40;
     Best_Time_to_visit := Some "November to February";
     image_url := None |}.

Definition scenario_season : list Place :=
  [place_A_season; place_B_season; place_C_season].

(** What a suggestion says of a row: its text is the cell of the column
    its type names, its relevance is the priority of that column, its
    rating is the rating of the row. *)
Definition suggests (s : Suggestion) (p : Place) : Prop :=
  rating s = Google_review_rating p
  /\ ((type s = "name" /\ Name p = Some (text s)
       /\ suggestion_relevance_score s = 100)
      \/ (type s = "city" /\ City p = Some (text s)
          /\ suggestion_relevance_score s = 50)
      \/ (type s = "state" /\ State p = Some (text s)
          /\ suggestion_relevance_score s = 25)).

(** ** A file with missing numbers *)

(** Row A of the scenario as it is in the file, and a row whose rating
    is not a number. *)
Definition raw_A : RawPlace :=
  {| raw_State := Some "Uttar Pradesh"; raw_City := Some "Agra";
     raw_Name := Some "Taj Mahal";
     raw_rating := Some 4.8%R; raw_reviews := Some 50%R;
     raw_Best_Time_to_visit := None; raw_image_url := None |}.

Definition raw_unrated : RawPlace :=
  {| raw_State := Some "Goa"; raw_City := Some "Panaji";
     raw_Name := Some "Goa Beach";
     raw_rating := None; raw_reviews := Some 40%R;
     raw_Best_Time_to_visit := None; raw_image_url := None |}.

Definition raw_file : list RawPlace := [raw_A; raw_unrated].

(** The row [load_data] makes of [raw_unrated] in [raw_file]: its
    rating is the mean of the one rating of the file. *)
Definition place_unrated : Place :=
  {| State := Some "Goa"; City := Some "Panaji";
     Name := Some "Goa Beach";
     Google_review_rating := (Rsum [4.8%R] / INR 1)%R;
     Number_of_google_review_in_lakhs := 40;
     Best_Time_to_visit := None; image_url := None |}.

(** A row of the catalog keeps the cells of the raw row: the text cells
    as they are, a number where there is one, the mean of the column
    where there is none. *)
Definition loaded_from (rating_mean review_mean : option R)
    (r : RawPlace) (p : Place) : Prop :=
  State p = raw_State r /\ City p = raw_City r /\ Name p = raw_Name r
  /\ Best_Time_to_visit p = raw_Best_Time_to_visit r
  /\ image_url p = raw_image_url r
  /\ Some (Google_review_rating p)
     = match raw_rating r with Some x => Some x | None => rating_mean end
  /\ Some (Number_of_google_review_in_lakhs p)
     = match raw_reviews r with Some x => Some x | None => review_mean end.

(** The similarity matrix of a catalog no two rows of which share a word,
    as the three rows of the scenario: the TF-IDF vectors are unit
    vectors orthogonal to each other. *)
Definition distinct_text_cosine : list string -> option (nat -> nat -> R) :=
  fun _ => Some (fun i j => if (i =? j)%nat then 1%R else 0%R).

(** The cell of the column a suggestion type names. *)
Definition suggested_cell (ty : string) (p : Place) : option string :=
  if String.eqb ty "name" then Name p
  else if String.eqb ty "city" then City p
  else if String.eqb ty "state" then State p
  else None.

(** ** Facts on the sequence operations *)

Module PySeqFacts.
Import PySeq.

Section SortFacts.
Context {A : Type}.
Variable before : A -> A -> bool.

Lemma insert_perm (x : A) (l : list A) :
  Permutation (insert before x l) (x :: l).
Proof.
  induction l as [|y l IH]; simpl.
  - reflexivity.
  - destruct (before y x).
    + rewrite IH. apply perm_swap.
    + reflexivity.
Qed.

Lemma stable_sort_perm (l : list A) : Permutation (stable_sort before l) l.
Proof.
  induction l as [|x l IH]; simpl.
  - constructor.
  - rewrite insert_perm. now constructor.
Qed.

Lemma stable_sort_length (l : list A) :
  List.length (stable_sort before l) = List.length l.
Proof. apply Permutation_length, stable_sort_perm. Qed.

(** [before] is a strict weak order. *)
Hypothesis before_asym : forall a b, before a b = true -> before b a = false.
Hypothesis before_negtrans :
  forall a b c, before a c = true -> before a b = true \/ before b c = true.

(** The position of a row in the input. *)
Variable label : A -> nat.


Lemma insert_sorted (x : A) (l : list A) :
  StronglySorted (stable_order before label) l ->
  Forall (fun y => (label x < label y)%nat) l ->
  StronglySorted (stable_order before label) (insert before x l).
Proof.
  induction l as [|y l IH]; simpl; intros Hs Hl.
  - repeat constructor.
  - inversion Hs as [|? ? Hs' Hy]; subst.
    inversion Hl as [|? ? Hxy Hl']; subst.
    destruct (before y x) eqn:Hyx.
    + constructor.
      * now apply IH.
      * eapply Permutation_Forall; [symmetry; apply insert_perm|].
        constructor; [now left | assumption].
    + constructor; [assumption|].
      constructor; [now right|]. unfold stable_order in *.
      rewrite Forall_forall in *. intros z Hz.
      right. split; [|now apply Hl'].
      destruct (before z x) eqn:Hzx; [|reflexivity].
      destruct (before_negtrans z y x Hzx) as [Hzy|Hyx']; [|congruence].
      destruct (Hy z Hz) as [Hyz|[Hzy' _]]; [|congruence].
      apply before_asym in Hyz. congruence.
Qed.

Lemma stable_sort_sorted (l : list A) :
  StronglySorted (fun a b => (label a < label b)%nat) l ->
  StronglySorted (stable_order before label) (stable_sort before l).
Proof.
  induction l as [|x l IH]; simpl; intros Hs.
  - constructor.
  - inversion Hs as [|? ? Hs' Hx]; subst.
    apply insert_sorted; [now apply IH|].
    eapply Permutation_Forall; [symmetry; apply stable_sort_perm|].
    assumption.
Qed.

End SortFacts.

Section SliceFacts.
Context {A : Type}.

Lemma clip_le (len : nat) (i : Z) : (clip len i <= len)%nat.
Proof. unfold clip. destruct (i <? 0) eqn:E; lia. Qed.

Lemma clip_nonneg (len : nat) (i : Z) :
  0 <= i -> clip len i = Nat.min len (Z.to_nat i).
Proof. unfold clip. intros H. destruct (i <? 0) eqn:E; lia. Qed.

Lemma head_nonneg (n : Z) (l : list A) :
  0 <= n -> head n l = firstn (Z.to_nat n) l.
Proof.
  intros H. unfold head. rewrite clip_nonneg by assumption.
  destruct (Nat.le_ge_cases (List.length l) (Z.to_nat n)) as [Hle|Hge].
  - rewrite Nat.min_l by assumption.
    now rewrite !firstn_all2 by lia.
  - now rewrite Nat.min_r by assumption.
Qed.

Lemma head_nil (n : Z) : head n (@nil A) = [].
Proof. unfold head. now rewrite firstn_nil. Qed.

Lemma slice_length (a b : Z) (l : list A) :
  List.length (slice a b l)
  = (clip (List.length l) b - clip (List.length l) a)%nat.
Proof.
  unfold slice. rewrite length_firstn, length_skipn.
  pose proof (clip_le (List.length l) a).
  pose proof (clip_le (List.length l) b). lia.
Qed.

Lemma firstn_incl (k : nat) (l : list A) : incl (firstn k l) l.
Proof.
  intros x Hx. rewrite <- (firstn_skipn k l). apply in_or_app. now left.
Qed.

Lemma skipn_incl (k : nat) (l : list A) : incl (skipn k l) l.
Proof.
  intros x Hx. rewrite <- (firstn_skipn k l). apply in_or_app. now right.
Qed.

Lemma slice_incl (a b : Z) (l : list A) : incl (slice a b l) l.
Proof.
  unfold slice. intros x Hx.
  apply firstn_incl in Hx. now apply skipn_incl in Hx.
Qed.

Lemma enumerate_length (l : list A) :
  List.length (enumerate l) = List.length l.
Proof. unfold enumerate. rewrite length_combine, length_seq. lia. Qed.

Lemma enumerate_fst (l : list A) :
  map fst (enumerate l) = seq 0 (List.length l).
Proof.
  unfold enumerate. generalize 0%nat.
  induction l as [|x l IH]; intros k; simpl; [reflexivity|].
  now rewrite IH.
Qed.

Lemma enumerate_snd (l : list A) : map snd (enumerate l) = l.
Proof.
  unfold enumerate. generalize 0%nat.
  induction l as [|x l IH]; intros k; simpl; [reflexivity|].
  now rewrite IH.
Qed.

Lemma enumerate_nth_error (l : list A) (i : nat) (x : A) :
  nth_error (enumerate l) i = Some (i, x) <-> nth_error l i = Some x.
Proof.
  unfold enumerate.
  assert (G : forall k, nth_error (combine (seq k (List.length l)) l) i
                        = Some ((k + i)%nat, x) <-> nth_error l i = Some x).
  { revert i. induction l as [|y l IH]; intros i k; simpl.
    - destruct i; simpl; split; discriminate.
    - destruct i; simpl.
      + rewrite Nat.add_0_r. split; intros H; inversion H; reflexivity.
      + rewrite <- (IH i (S k)). now rewrite Nat.add_succ_r. }
  apply (G 0%nat).
Qed.

Lemma enumerate_sorted (l : list A) :
  StronglySorted (fun a b : nat * A => (fst a < fst b)%nat) (enumerate l).
Proof.
  unfold enumerate. generalize 0%nat.
  induction l as [|x l IH]; intros k; simpl.
  - constructor.
  - constructor; [apply IH|].
    rewrite Forall_forall. intros [j y] Hin. simpl.
    apply in_combine_l in Hin. apply in_seq in Hin. lia.
Qed.

End SliceFacts.

End PySeqFacts.

(** ** Facts on the comparisons of scores *)

Lemma Rltb_true (x y : R) : Rltb x y = true <-> (x < y)%R.
Proof. unfold Rltb. destruct (Rlt_dec x y); split; intros; congruence || tauto. Qed.

Lemma Rltb_false (x y : R) : Rltb x y = false <-> (y <= x)%R.
Proof.
  unfold Rltb. destruct (Rlt_dec x y); split; intros; try congruence; lra.
Qed.

Lemma Rltb_asym (x y : R) : Rltb x y = true -> Rltb y x = false.
Proof. rewrite Rltb_true, Rltb_false. lra. Qed.

Lemma Rltb_negtrans (x y z : R) :
  Rltb x z = true -> Rltb x y = true \/ Rltb y z = true.
Proof.
  rewrite !Rltb_true. intros H.
  destruct (Rlt_dec x y); [now left | right; lra].
Qed.

Lemma by_popularity_asym (a b : Row) :
  by_popularity a b = true -> by_popularity b a = false.
Proof. apply Rltb_asym. Qed.

Lemma by_popularity_negtrans (a b c : Row) :
  by_popularity a c = true ->
  by_popularity a b = true \/ by_popularity b c = true.
Proof.
  unfold by_popularity. intros H.
  destruct (Rltb_negtrans _ (popularity_score (snd b)) _ H); tauto.
Qed.

(** *** The popularity scores of the scenario *)

Lemma ln_pow_lt (a b : Z) (i j : nat) :
  0 < a -> 0 < b -> a ^ Z.of_nat i < b ^ Z.of_nat j ->
  (INR i * ln (IZR a) < INR j * ln (IZR b))%R.
Proof.
  intros Ha Hb H.
  rewrite <- !ln_pow by (now apply IZR_lt).
  apply ln_increasing.
  - apply pow_lt. now apply IZR_lt.
  - rewrite !pow_IZR. now apply IZR_lt.
Qed.

Lemma popularity_A : popularity_score place_A = (4.8 * ln 51)%R.
Proof.
  unfold popularity_score, place_A.
  cbn [Google_review_rating Number_of_google_review_in_lakhs].
  replace (1 + 50)%R with 51%R by lra. reflexivity.
Qed.

Lemma popularity_B : popularity_score place_B = (4.5 * ln 31)%R.
Proof.
  unfold popularity_score, place_B.
  cbn [Google_review_rating Number_of_google_review_in_lakhs].
  replace (1 + 30)%R with 31%R by lra. reflexivity.
Qed.

Lemma popularity_C : popularity_score place_C = (4.2 * ln 41)%R.
Proof.
  unfold popularity_score, place_C.
  cbn [Google_review_rating Number_of_google_review_in_lakhs].
  replace (1 + 40)%R with 41%R by lra. reflexivity.
Qed.

Lemma popularity_B_lt_C :
  (popularity_score place_B < popularity_score place_C)%R.
Proof.
  rewrite popularity_B, popularity_C.
  pose proof (ln_pow_lt 31 41 15 14 ltac:(lia) ltac:(lia) ltac:(reflexivity)) as H.
  simpl INR in H. lra.
Qed.

Lemma popularity_C_lt_A :
  (popularity_score place_C < popularity_score place_A)%R.
Proof.
  rewrite popularity_C, popularity_A.
  pose proof (ln_pow_lt 41 51 7 8 ltac:(lia) ltac:(lia) ltac:(reflexivity)) as H.
  simpl INR in H. lra.
Qed.

(** ** The rounding of binary64 *)

Module PyFloatFacts.
Import PyFloat PyFloatRounding.

(** *** The number of binary digits *)

Lemma digits2_pos_size (p : positive) : digits2_pos p = Pos.size p.
Proof. induction p; simpl; congruence. Qed.

Lemma digits2_bounds (p : positive) :
  2 ^ (Z.pos (digits2_pos p) - 1) <= Z.pos p < 2 ^ Z.pos (digits2_pos p).
Proof.
  rewrite digits2_pos_size.
  pose proof (Pos.size_gt p) as Hgt. pose proof (Pos.size_le p) as Hle.
  apply Pos2Z.pos_lt_pos in Hgt. apply Pos2Z.pos_le_pos in Hle.
  rewrite Pos2Z.inj_pow in Hgt, Hle.
  replace (Z.pos (Pos.size p)) with (Z.pos (Pos.size p) - 1 + 1) in Hle by lia.
  rewrite Z.pow_add_r in Hle by lia.
  change (Z.pos p~0) with (2 * Z.pos p) in Hle. lia.
Qed.

(** The number of digits is determined by the bounds. *)
Lemma digits2_unique (p : positive) (d : Z) :
  2 ^ (d - 1) <= Z.pos p < 2 ^ d -> Z.pos (digits2_pos p) = d.
Proof.
  intros [Hlo Hhi]. pose proof (digits2_bounds p) as [Hlo' Hhi'].
  assert (Hd : 0 < d).
  { destruct (Z_lt_le_dec 0 d) as [|Hle]; [assumption|].
    destruct (Z.eq_dec d 0) as [->|Hne].
    - simpl in Hhi. lia.
    - rewrite Z.pow_neg_r in Hhi by lia. lia. }
  destruct (Z.lt_trichotomy (Z.pos (digits2_pos p)) d) as [Hlt|[Heq|Hgt]].
  - assert (2 ^ Z.pos (digits2_pos p) <= 2 ^ (d - 1))
      by (apply Z.pow_le_mono_r; lia). lia.
  - assumption.
  - assert (2 ^ d <= 2 ^ (Z.pos (digits2_pos p) - 1))
      by (apply Z.pow_le_mono_r; lia). lia.
Qed.

(** *** Shifting a mantissa to the right *)

Lemma shr_1_shifted (m k : Z) (mrs : shr_record) :
  0 <= k -> shifted m k mrs -> shifted m (k + 1) (shr_1 mrs).
Proof.
  intros Hk [u [H1 [H2 [H3 H4]]]].
  destruct mrs as [q r s]. cbn [shr_m shr_r shr_s] in *.
  unfold shifted. rewrite Z.pow_add_r by lia. change (2 ^ 1) with 2.
  exists (Z.b2z r * 2 ^ k + u).
  assert (Hpow : 0 < 2 ^ k) by (apply Z.pow_pos_nonneg; lia).
  destruct q as [|[q|q|]|q]; try lia;
    destruct r, s; cbn [shr_1 shr_m shr_r shr_s Z.b2z orb] in *;
    (split; [lia|split; [lia|split; [|lia]]]);
    split; intros; try lia; try reflexivity; try tauto;
    try (apply H3; lia).
Qed.

Lemma iter_pos_nat {A : Type} (f : A -> A) (p : positive) (x : A) :
  iter_pos f p x = Nat.iter (Pos.to_nat p) f x.
Proof.
  revert x. induction p as [p IH|p IH|]; intros x; cbn [iter_pos].
  - rewrite !IH, Pos2Nat.inj_xI.
    replace (S (2 * Pos.to_nat p))%nat
      with (Pos.to_nat p + (Pos.to_nat p + 1))%nat by lia.
    rewrite !Nat.iter_add. reflexivity.
  - rewrite !IH, Pos2Nat.inj_xO.
    replace (2 * Pos.to_nat p)%nat
      with (Pos.to_nat p + Pos.to_nat p)%nat by lia.
    now rewrite Nat.iter_add.
  - reflexivity.
Qed.

Lemma iter_shr_1_shifted (m : Z) (k : nat) :
  0 <= m ->
  shifted m (Z.of_nat k) (Nat.iter k shr_1 (Build_shr_record m false false)).
Proof.
  intros Hm. induction k as [|k IH].
  - exists 0. cbn. repeat split; lia || discriminate.
  - rewrite Nat2Z.inj_succ, <- Z.add_1_r. cbn [Nat.iter nat_rect].
    apply shr_1_shifted; [lia | exact IH].
Qed.

(** Rounding to nearest, ties to even, moves the mantissa by half a unit
    of the last kept digit at most. *)
Lemma round_nearest_even_half (m k : Z) (mrs : shr_record) :
  0 <= k -> shifted m k mrs ->
  let m' := round_nearest_even (shr_m mrs) (loc_of_shr_record mrs) in
  2 * m - 2 ^ k <= 2 * m' * 2 ^ k <= 2 * m + 2 ^ k
  /\ shr_m mrs <= m' <= shr_m mrs + 1.
Proof.
  intros Hk [u [H1 [H2 [H3 H4]]]].
  destruct mrs as [q r s]. cbn [shr_m shr_r shr_s] in *.
  assert (Hpow : 0 < 2 ^ k) by (apply Z.pow_pos_nonneg; lia).
  destruct r, s; cbn [loc_of_shr_record round_nearest_even Z.b2z] in *.
  - assert (0 < u) by now apply H3. split; nia.
  - assert (u = 0).
    { destruct (Z.eq_dec u 0); [assumption|].
      assert (true = false -> False) by discriminate.
      assert (0 < u) by lia. apply H3 in H0. discriminate. }
    subst u. destruct (Z.even q); split; nia.
  - split; nia.
  - split; nia.
Qed.

(** *** Rounding a mantissa of 53 digits or more *)

Lemma fexp_normal (e : Z) :
  -1074 <= e - 53 -> fexp prec emax e = e - 53.
Proof. unfold fexp, emin, prec, emax. lia. Qed.

Lemma binary_round_aux_spec (p : positive) (ex : Z) :
  let d := Z.pos (digits2_pos p) in
  53 <= d -> -1074 <= d + ex - 53 ->
  exists m',
    2 ^ 52 <= m' <= 2 ^ 53
    /\ 2 * Z.pos p - 2 ^ (d - 53) <= 2 * m' * 2 ^ (d - 53)
       <= 2 * Z.pos p + 2 ^ (d - 53)
    /\ binary_round_aux prec emax false (Z.pos p) ex loc_Exact
       = rounded m' (ex + (d - 53)).
Proof.
  intros d Hd Hex.
  pose proof (digits2_bounds p) as Hp. fold d in Hp.
  unfold binary_round_aux, shr_fexp.
  cbn [Zdigits2 shr_record_of_loc]. fold d.
  rewrite fexp_normal by lia.
  replace (d + ex - 53 - ex) with (d - 53) by lia.
  assert (Hd' : d = 53 \/ exists k, d - 53 = Z.pos k).
  { destruct (d - 53) as [|k|k] eqn:E; [left; lia | right; now exists k | lia]. }
  destruct Hd' as [Hd53|[k Hk]].
  - (* no digit to drop *)
    rewrite Hd53 in *. change (53 - 53) with 0. cbn [shr].
    cbn [shr_m shr_r shr_s loc_of_shr_record round_nearest_even Zdigits2
         shr_record_of_loc].
    fold d. rewrite Hd53. rewrite fexp_normal by lia.
    replace (53 + ex - 53 - ex) with 0 by lia. cbn [shr shr_m].
    exists (Z.pos p). change (2 ^ 0) with 1.
    change (53 - 1) with 52 in Hp.
    split; [lia|]. split; [lia|].
    unfold rounded. rewrite Z.add_0_r.
    destruct (Z.ltb_spec (Z.pos p) (2 ^ 53)) as [_|]; [|lia].
    now rewrite Pos2Z.id.
  - (* [k] digits to drop *)
    rewrite Hk. cbn [shr]. rewrite iter_pos_nat.
    pose proof (iter_shr_1_shifted (Z.pos p) (Pos.to_nat k) ltac:(lia)) as Hs.
    rewrite positive_nat_Z in Hs.
    set (mrs := Nat.iter (Pos.to_nat k) shr_1
                  (Build_shr_record (Z.pos p) false false)) in *.
    destruct (round_nearest_even_half (Z.pos p) (Z.pos k) mrs ltac:(lia) Hs)
      as [Hhalf Hq].
    set (m1 := round_nearest_even (shr_m mrs) (loc_of_shr_record mrs)) in *.
    destruct Hs as [u [H1 [H2 [H3 H4]]]].
    assert (Hpow : 0 < 2 ^ Z.pos k) by (apply Z.pow_pos_nonneg; lia).
    assert (Hdk : 2 ^ (d - 1) = 2 ^ 52 * 2 ^ Z.pos k).
    { rewrite <- Z.pow_add_r by lia. f_equal. lia. }
    assert (Hdk' : 2 ^ d = 2 ^ 53 * 2 ^ Z.pos k).
    { rewrite <- Z.pow_add_r by lia. f_equal. lia. }
    assert (Hqb : 2 ^ 52 <= shr_m mrs < 2 ^ 53).
    { rewrite Hdk, Hdk' in Hp. split.
      - apply Z.lt_succ_r.
        apply (Z.mul_lt_mono_pos_r (2 ^ Z.pos k)); [lia|].
        destruct (shr_r mrs); cbn [Z.b2z] in H1; lia.
      - apply (Z.mul_lt_mono_pos_r (2 ^ Z.pos k)); [lia|].
        destruct (shr_r mrs); cbn [Z.b2z] in H1; lia. }
    exists m1. split; [lia|]. split; [exact Hhalf|].
    assert (Hm1 : exists p1, m1 = Z.pos p1).
    { destruct m1 as [|p1|p1]; try lia. now exists p1. }
    destruct Hm1 as [p1 Hp1]. rewrite Hp1 in *.
    cbn [Zdigits2 shr_record_of_loc].
    unfold rounded.
    destruct (Z.ltb_spec (Z.pos p1) (2 ^ 53)) as [Hlt|Hge].
    + rewrite (digits2_unique p1 53) by (change (53 - 1) with 52; lia).
      rewrite fexp_normal by lia.
      replace (53 + (ex + Z.pos k) - 53 - (ex + Z.pos k)) with 0 by lia.
      cbn [shr shr_m]. unfold emax, prec.
      change (1024 - 53) with 971. now rewrite Pos2Z.id.
    + assert (Ep1 : Z.pos p1 = 2 ^ 53) by lia.
      rewrite (digits2_unique p1 54)
        by (rewrite Ep1; change (54 - 1) with 53; split; [lia|];
            apply Z.pow_lt_mono_r; lia).
      rewrite fexp_normal by lia.
      replace (54 + (ex + Z.pos k) - 53 - (ex + Z.pos k)) with 1 by lia.
      cbn [shr iter_pos]. rewrite Ep1.
      change (shr_1 (Build_shr_record (2 ^ 53) false false))
        with (Build_shr_record (2 ^ 52) false false).
      cbn [shr_m]. unfold emax, prec. change (1024 - 53) with 971.
      reflexivity.
Qed.

(** *** The conversion of an integer of 53 digits at most *)

Lemma iter_xO (p q : positive) :
  Z.pos (Pos.iter xO p q) = Z.pos p * 2 ^ Z.pos q.
Proof.
  induction q as [|q IH] using Pos.peano_ind.
  - cbn [Pos.iter]. lia.
  - rewrite Pos.iter_succ, Pos2Z.inj_xO, IH, Pos2Z.inj_succ.
    rewrite Z.pow_succ_r by lia. ring.
Qed.

Lemma of_int_exact (p : positive) :
  let d := Z.pos (digits2_pos p) in
  d <= 53 ->
  exists mz,
    Z.pos mz = Z.pos p * 2 ^ (53 - d)
    /\ 2 ^ 52 <= Z.pos mz < 2 ^ 53
    /\ of_int (Z.pos p) = Some (S754_finite false mz (d - 53)).
Proof.
  intros d Hd. pose proof (digits2_bounds p) as Hp. fold d in Hp.
  assert (Hd0 : 1 <= d) by (unfold d; lia).
  assert (Hmz : exists mz, Z.pos mz = Z.pos p * 2 ^ (53 - d)
                           /\ shl_align p 0 (d - 53) = (mz, d - 53)).
  { unfold shl_align.
    destruct (d - 53 - 0) as [|q|q] eqn:E; try lia.
    - exists p. replace (53 - d) with 0 by lia.
      replace (d - 53) with 0 by lia. split; [lia | reflexivity].
    - exists (Pos.iter xO p q). rewrite iter_xO.
      replace (53 - d) with (Z.pos q) by lia. split; reflexivity. }
  destruct Hmz as [mz [Hmz Hal]]. exists mz.
  assert (Hb : 2 ^ 52 <= Z.pos mz < 2 ^ 53).
  { rewrite Hmz.
    replace (2 ^ 52) with (2 ^ (d - 1) * 2 ^ (53 - d))
      by (rewrite <- Z.pow_add_r by lia; f_equal; lia).
    replace (2 ^ 53) with (2 ^ d * 2 ^ (53 - d))
      by (rewrite <- Z.pow_add_r by lia; f_equal; lia).
    assert (0 < 2 ^ (53 - d)) by (apply Z.pow_pos_nonneg; lia).
    split; [apply Z.mul_le_mono_nonneg_r | apply Z.mul_lt_mono_pos_r]; lia. }
  split; [exact Hmz|]. split; [exact Hb|].
  unfold of_int. cbn [binary_normalize]. unfold binary_round.
  fold d. rewrite Z.add_0_r, fexp_normal by lia. rewrite Hal.
  assert (Hdz : Z.pos (digits2_pos mz) = 53)
    by (apply digits2_unique; change (53 - 1) with 52; exact Hb).
  destruct (binary_round_aux_spec mz (d - 53)) as [m' [Hm' [Hhalf ->]]];
    rewrite ?Hdz; try lia.
  rewrite Hdz in Hhalf. change (2 ^ (53 - 53)) with 1 in Hhalf.
  assert (m' = Z.pos mz) by lia. subst m'.
  unfold rounded.
  destruct (Z.ltb_spec (Z.pos mz) (2 ^ 53)) as [_|]; [|lia].
  destruct (Z.leb_spec (d - 53 + (53 - 53)) 971) as [_|]; [|lia].
  rewrite Pos2Z.id. now replace (d - 53 + (53 - 53)) with (d - 53) by lia.
Qed.

(** *** Truncation of a rounded product *)

Lemma to_int_rounded (m' T : Z) :
  1 <= T -> 2 ^ 52 <= m' <= 2 ^ 53 ->
  to_int (rounded m' (- T)) = Some (m' / 2 ^ T).
Proof.
  intros HT Hm. unfold rounded.
  destruct (Z.ltb_spec m' (2 ^ 53)) as [Hlt|Hge].
  - destruct (Z.leb_spec (- T) 971) as [_|]; [|lia].
    cbn [to_int cond_Zopp]. rewrite Z2Pos.id by lia.
    destruct (- T) as [|t|t] eqn:E; try lia.
    now replace T with (Z.pos t) by lia.
  - assert (m' = 2 ^ 53) by lia. subst m'.
    destruct (Z.leb_spec (- T + 1) 971) as [_|]; [|lia].
    cbn [to_int cond_Zopp].
    replace (2 ^ T) with (2 * 2 ^ (T - 1))
      by (rewrite <- Z.pow_succ_r by lia; f_equal; lia).
    change (2 ^ 53) with (2 * 2 ^ 52).
    assert (0 < 2 ^ (T - 1)) by (apply Z.pow_pos_nonneg; lia).
    rewrite Z.div_mul_cancel_l by lia.
    destruct (- T + 1) as [|t|t] eqn:E; try lia.
    + replace (T - 1) with 0 by lia. reflexivity.
    + now replace (T - 1) with (Z.pos t) by lia.
Qed.

(** *** The product with [0.6] *)

(** The mantissa of the literal [0.6] is [(3 * 2^53 - 1) / 5]. *)
Lemma lit_0_6_mantissa : 5 * 5404319552844595 = 3 * 2 ^ 53 - 1.
Proof. reflexivity. Qed.

(** The arithmetic of the rounding: the product [n * 2^k * M] rounded to
    half a unit of its 53rd digit and truncated is the floor of
    [3 * n / 5]. *)
Lemma floor_of_rounded_product (n k dP m' : Z) :
  1 <= n -> 1 <= k ->
  2 ^ 52 <= n * 2 ^ k < 2 ^ 53 ->
  105 <= dP <= 106 ->
  2 ^ (dP - 1) <= n * 2 ^ k * 5404319552844595 < 2 ^ dP ->
  2 * (n * 2 ^ k * 5404319552844595) - 2 ^ (dP - 53)
    <= 2 * m' * 2 ^ (dP - 53)
    <= 2 * (n * 2 ^ k * 5404319552844595) + 2 ^ (dP - 53) ->
  m' / 2 ^ (k + (106 - dP)) = 3 * n / 5.
Proof.
  intros Hn Hk HN HdP HP Hhalf.
  pose proof (Z.div_mod (3 * n) 5 ltac:(lia)) as Hdiv.
  pose proof (Z.mod_pos_bound (3 * n) 5 ltac:(lia)) as Hrho.
  set (F := 3 * n / 5) in *. set (rho := (3 * n) mod 5) in *.
  assert (HK : 2 <= 2 ^ k).
  { change 2 with (2 ^ 1) at 1. apply Z.pow_le_mono_r; lia. }
  set (K := 2 ^ k) in *.
  assert (HV : 0 <= rho * K <= 4 * K) by nia.
  assert (HW : 3 * (n * K) = 5 * (F * K) + rho * K) by nia.
  set (V := rho * K) in *. set (W := F * K) in *. set (N := n * K) in *.
  symmetry.
  assert (Hcase : dP = 105 \/ dP = 106) by lia.
  destruct Hcase as [-> | ->].
  - change (105 - 53) with 52 in Hhalf. change (105 - 1) with 104 in HP.
    replace (k + (106 - 105)) with (k + 1) by lia.
    rewrite Z.pow_add_r by lia. fold K. change (2 ^ 1) with 2.
    apply (Z.div_unique _ _ _ (m' - 2 * W)); [left|unfold W; ring].
    lia.
  - change (106 - 53) with 53 in Hhalf. change (106 - 1) with 105 in HP.
    replace (k + (106 - 106)) with k by lia. fold K.
    apply (Z.div_unique _ _ _ (m' - W)); [left|unfold W; ring].
    lia.
Qed.

(** On [1 .. 2^52 - 1], [int(n * 0.6)] is the floor of [3 * n / 5]. *)
Lemma int_mul_0_6_floor (n : Z) :
  1 <= n < 2 ^ 52 -> int_mul_0_6 n = Some (3 * n / 5).
Proof.
  intros [Hn1 Hn2]. destruct n as [|p|p]; try lia.
  pose proof (digits2_bounds p) as Hp.
  set (d := Z.pos (digits2_pos p)) in *.
  assert (Hd : 1 <= d <= 52).
  { split; [unfold d; lia|].
    destruct (Z_le_gt_dec d 52) as [|Hgt]; [assumption|].
    assert (2 ^ 52 <= 2 ^ (d - 1)) by (apply Z.pow_le_mono_r; lia). lia. }
  destruct (of_int_exact p ltac:(fold d; lia)) as [mz [Hmz [Hb Hof]]].
  fold d in Hmz, Hof.
  unfold int_mul_0_6. rewrite Hof.
  unfold mul, lit_0_6. cbn [SFmul xorb].
  pose proof (digits2_bounds (mz * 5404319552844595)) as HP.
  set (dP := Z.pos (digits2_pos (mz * 5404319552844595))) in *.
  rewrite Pos2Z.inj_mul in HP.
  assert (HdP : 105 <= dP <= 106).
  { split.
    - destruct (Z_le_gt_dec 105 dP) as [|Hgt]; [assumption|].
      assert (2 ^ dP <= 2 ^ 104) by (apply Z.pow_le_mono_r; lia). lia.
    - destruct (Z_le_gt_dec dP 106) as [|Hgt]; [assumption|].
      assert (2 ^ 106 <= 2 ^ (dP - 1)) by (apply Z.pow_le_mono_r; lia).
      lia. }
  destruct (binary_round_aux_spec (mz * 5404319552844595) (d - 53 + -53))
    as [m' [Hm' [Hhalf ->]]]; fold dP; try lia.
  fold dP in Hhalf. rewrite Pos2Z.inj_mul in Hhalf.
  replace (d - 53 + -53 + (dP - 53)) with (- (53 - d + (106 - dP))) by lia.
  rewrite to_int_rounded by lia. f_equal.
  rewrite Hmz in *.
  apply floor_of_rounded_product; try lia.
Qed.

(** *** A bound on the product for the integers of 53 digits or more *)

Lemma of_int_rounded (p : positive) (x : spec_float) :
  let d := Z.pos (digits2_pos p) in
  53 <= d ->
  of_int (Z.pos p) = Some x ->
  exists mx e1,
    x = S754_finite false mx e1
    /\ 2 ^ 52 <= Z.pos mx < 2 ^ 53
    /\ 0 <= e1
    /\ 2 * (Z.pos mx * 2 ^ e1) <= 2 * Z.pos p + 2 ^ (d - 53)
    /\ 2 ^ e1 <= 2 * 2 ^ (d - 53).
Proof.
  intros d Hd. unfold of_int. cbn [binary_normalize]. unfold binary_round.
  fold d. rewrite Z.add_0_r, fexp_normal by lia.
  assert (Hal : shl_align p 0 (d - 53) = (p, 0)).
  { unfold shl_align. destruct (d - 53 - 0) eqn:E; try reflexivity. lia. }
  rewrite Hal.
  destruct (binary_round_aux_spec p 0) as [m1 [Hm1 [Hhalf ->]]];
    fold d; try lia.
  fold d in Hhalf. rewrite Z.add_0_l.
  assert (Hpow : 0 < 2 ^ (d - 53)) by (apply Z.pow_pos_nonneg; lia).
  unfold rounded.
  destruct (Z.ltb_spec m1 (2 ^ 53)) as [Hlt|Hge].
  - destruct (d - 53 <=? 971); [|discriminate].
    intros [= <-]. exists (Z.to_pos m1), (d - 53).
    rewrite Z2Pos.id by lia.
    split; [reflexivity|]. split; [lia|]. split; [lia|]. split; lia.
  - destruct (d - 53 + 1 <=? 971); [|discriminate].
    intros [= <-]. exists (Z.to_pos (2 ^ 52)), (d - 53 + 1).
    rewrite Z2Pos.id by lia.
    assert (m1 = 2 ^ 53) by lia. subst m1.
    rewrite Z.pow_add_r by lia. change (2 ^ 1) with 2.
    change (2 ^ 53) with (2 ^ 52 * 2) in Hhalf.
    split; [reflexivity|]. split; [lia|]. split; [lia|]. split; lia.
Qed.

Lemma to_int_finite_nonneg (m : positive) (e : Z) :
  0 <= e -> to_int (S754_finite false m e) = Some (Z.pos m * 2 ^ e).
Proof. intros He. destruct e; try lia; reflexivity. Qed.

Lemma to_int_rounded_le (m' e' c : Z) :
  2 ^ 52 <= m' <= 2 ^ 53 -> -1 <= e' ->
  to_int (rounded m' e') = Some c ->
  2 * c <= m' * 2 ^ (e' + 1).
Proof.
  intros Hm He.
  destruct (Z.eq_dec e' (-1)) as [->|Hne].
  - change (-1) with (- (1)). rewrite to_int_rounded by lia.
    intros [= <-]. change (2 ^ (- (1) + 1)) with 1. change (2 ^ 1) with 2.
    change (Z.pow_pos 2 1) with 2.
    pose proof (Z.mul_div_le m' 2 ltac:(lia)). lia.
  - assert (He0 : 0 <= e') by lia.
    assert (Hpow : 0 < 2 ^ e') by (apply Z.pow_pos_nonneg; lia).
    rewrite Z.pow_add_r by lia. change (2 ^ 1) with 2.
    unfold rounded.
    destruct (Z.ltb_spec m' (2 ^ 53)) as [Hlt|Hge].
    + destruct (e' <=? 971); [|discriminate].
      rewrite to_int_finite_nonneg by lia. rewrite Z2Pos.id by lia.
      intros Hc. assert (Ec : c = m' * 2 ^ e') by congruence. lia.
    + destruct (e' + 1 <=? 971); [|discriminate].
      rewrite to_int_finite_nonneg by lia.
      assert (Hq : Z.pos (Z.to_pos (2 ^ 52)) = 2 ^ 52) by reflexivity.
      rewrite Hq. intros Hc.
      assert (Ec : c = 2 ^ 52 * 2 ^ (e' + 1)) by congruence.
      rewrite Z.pow_add_r in Ec by lia. change (2 ^ 1) with 2 in Ec.
      assert (Em : m' = 2 * 2 ^ 52) by (change (2 * 2 ^ 52) with (2 ^ 53); lia).
      rewrite Em, Ec. lia.
Qed.

Lemma product_digits (mx : positive) :
  2 ^ 52 <= Z.pos mx < 2 ^ 53 ->
  105 <= Z.pos (digits2_pos (mx * 5404319552844595)) <= 106.
Proof.
  intros Hb.
  pose proof (digits2_bounds (mx * 5404319552844595)) as HP.
  set (dP := Z.pos (digits2_pos (mx * 5404319552844595))) in *.
  rewrite Pos2Z.inj_mul in HP. split.
  - destruct (Z_le_gt_dec 105 dP) as [|Hgt]; [assumption|].
    assert (2 ^ dP <= 2 ^ 104) by (apply Z.pow_le_mono_r; lia). lia.
  - destruct (Z_le_gt_dec dP 106) as [|Hgt]; [assumption|].
    assert (2 ^ 106 <= 2 ^ (dP - 1)) by (apply Z.pow_le_mono_r; lia).
    lia.
Qed.

(** [int(n * 0.6)] is below [n], for every positive [n] that converts to
    a [float]. *)
Lemma int_mul_0_6_lt (n c : Z) :
  1 <= n -> int_mul_0_6 n = Some c -> c < n.
Proof.
  intros Hn. destruct (Z_lt_le_dec n (2 ^ 52)) as [Hsmall|Hbig].
  - rewrite int_mul_0_6_floor by lia. intros Hc.
    assert (Ec : c = 3 * n / 5) by congruence. rewrite Ec.
    apply Z.div_lt_upper_bound; lia.
  - destruct n as [|p|p]; try lia.
    pose proof (digits2_bounds p) as Hp.
    set (d := Z.pos (digits2_pos p)) in *.
    assert (Hd : 53 <= d).
    { destruct (Z_le_gt_dec 53 d) as [|Hgt]; [assumption|].
      assert (2 ^ d <= 2 ^ 52) by (apply Z.pow_le_mono_r; lia). lia. }
    unfold int_mul_0_6.
    destruct (of_int (Z.pos p)) as [x|] eqn:Hof; [|discriminate].
    destruct (of_int_rounded p x Hd Hof)
      as [mx [e1 [-> [Hmx [He1 [Hx HE]]]]]].
    fold d in Hx, HE.
    unfold mul, lit_0_6. cbn [SFmul xorb].
    pose proof (product_digits mx Hmx) as HdP.
    destruct (binary_round_aux_spec (mx * 5404319552844595) (e1 + -53))
      as [m' [Hm' [Hhalf ->]]]; try lia.
    set (dP := Z.pos (digits2_pos (mx * 5404319552844595))) in *.
    rewrite Pos2Z.inj_mul in Hhalf.
    intros Hc. apply to_int_rounded_le in Hc; try lia.
    assert (HpowE : 0 < 2 ^ e1) by (apply Z.pow_pos_nonneg; lia).
    assert (HpowA : 0 < 2 ^ (d - 53)) by (apply Z.pow_pos_nonneg; lia).
    assert (Hdk : 2 ^ (d - 1) = 2 ^ 52 * 2 ^ (d - 53)).
    { rewrite <- Z.pow_add_r by lia. f_equal. lia. }
    rewrite Hdk in Hp.
    set (A1 := 2 ^ (d - 53)) in *. set (E := 2 ^ e1) in *.
    assert (Hcase : dP = 105 \/ dP = 106) by lia.
    destruct Hcase as [HdP' | HdP']; rewrite HdP' in *.
    + change (105 - 53) with 52 in *.
      replace (e1 + -53 + 52 + 1) with e1 in Hc by lia. fold E in Hc.
      assert (H1 : m' * E * 2 ^ 53 <= (2 * (Z.pos mx * E)) * 5404319552844595 + 2 ^ 52 * E) by nia.
      nia.
    + change (106 - 53) with 53 in *.
      replace (e1 + -53 + 53 + 1) with (e1 + 1) in Hc by lia.
      rewrite Z.pow_add_r in Hc by lia. fold E in Hc.
      change (2 ^ 1) with 2 in Hc.
      assert (H1 : 2 * (m' * E) * 2 ^ 53 <= (2 * (Z.pos mx * E)) * 5404319552844595 + 2 ^ 53 * E) by nia.
      nia.
Qed.

End PyFloatFacts.

(** ** Facts on the sorts and on [nlargest] *)

Lemma StronglySorted_impl {A : Type} (P Q : A -> A -> Prop) (l : list A) :
  (forall a b, P a b -> Q a b) -> StronglySorted P l -> StronglySorted Q l.
Proof.
  intros HPQ. induction 1 as [|x l Hs IH Hx]; constructor; auto.
  eapply Forall_impl; [|exact Hx]. auto.
Qed.

Lemma StronglySorted_firstn {A : Type} (P : A -> A -> Prop) (k : nat)
    (l : list A) :
  StronglySorted P l -> StronglySorted P (firstn k l).
Proof.
  intros H. revert k. induction H as [|x l Hs IH Hx]; intros [|k]; simpl;
    try constructor.
  - apply IH.
  - rewrite Forall_forall in *. intros y Hy. apply Hx.
    now apply (PySeqFacts.firstn_incl k l).
Qed.

Lemma StronglySorted_snoc {A : Type} (P : A -> A -> Prop) (l : list A)
    (x : A) :
  StronglySorted P l -> Forall (fun y => P y x) l ->
  StronglySorted P (l ++ [x]).
Proof.
  induction 1 as [|y l Hs IH Hy]; intros Hx; simpl.
  - constructor; constructor.
  - inversion Hx as [|? ? Hyx Hlx]; subst.
    constructor; [now apply IH|].
    apply Forall_app. split; [exact Hy | now constructor].
Qed.

Lemma StronglySorted_rev {A : Type} (P : A -> A -> Prop) (l : list A) :
  StronglySorted P l -> StronglySorted (fun a b => P b a) (rev l).
Proof.
  induction 1 as [|x l Hs IH Hx]; simpl; [constructor|].
  apply StronglySorted_snoc; [exact IH|].
  apply Forall_forall. intros y Hy. apply in_rev in Hy.
  rewrite Forall_forall in Hx. now apply Hx.
Qed.

Lemma NoDup_firstn {A : Type} (k : nat) (l : list A) :
  NoDup l -> NoDup (firstn k l).
Proof.
  intros H. rewrite <- (firstn_skipn k l) in H.
  now apply NoDup_app_remove_r in H.
Qed.

Section WeakOrder.
Context {A : Type}.
Variable before : A -> A -> bool.
Hypothesis before_asym : forall a b,
  before a b = true -> before b a = false.
Hypothesis before_negtrans : forall a b c,
  before a c = true -> before a b = true \/ before b c = true.

Lemma insert_not_after (x : A) (l : list A) :
  StronglySorted (fun a b => before b a = false) l ->
  StronglySorted (fun a b => before b a = false) (PySeq.insert before x l).
Proof.
  induction 1 as [|y l Hs IH Hy]; simpl.
  - constructor; constructor.
  - destruct (before y x) eqn:E.
    + constructor; [assumption|].
      rewrite Forall_forall in *. intros z Hz.
      apply (Permutation_in _ (PySeqFacts.insert_perm before x l)) in Hz.
      destruct Hz as [<-|Hz]; [|now apply Hy].
      now apply before_asym.
    + constructor; [now constructor|].
      constructor; [assumption|].
      rewrite Forall_forall in *. intros z Hz.
      destruct (before z x) eqn:E2; [|reflexivity].
      destruct (before_negtrans z y x E2) as [H|H]; [|congruence].
      specialize (Hy z Hz). congruence.
Qed.

Lemma stable_sort_not_after (l : list A) :
  StronglySorted (fun a b => before b a = false)
    (PySeq.stable_sort before l).
Proof.
  induction l as [|x l IH]; simpl; [constructor|].
  now apply insert_not_after.
Qed.

End WeakOrder.

Lemma stable_sort_descending (fr : DataFrame) :
  StronglySorted popularity_descending (PySeq.stable_sort by_popularity fr).
Proof.
  apply (StronglySorted_impl (fun a b => by_popularity b a = false)).
  - intros a b H. unfold by_popularity in H. apply Rltb_false in H.
    exact H.
  - apply stable_sort_not_after.
    + apply by_popularity_asym.
    + apply by_popularity_negtrans.
Qed.

(** The stable sort is one of the sorts the library may do. *)
Lemma stable_sort_sorts_by_popularity :
  sorts_by_popularity (PySeq.stable_sort by_popularity).
Proof.
  intros fr. split.
  - apply PySeqFacts.stable_sort_perm.
  - apply stable_sort_descending.
Qed.

(** So is the sort that reverses the ties. *)
Lemma reversed_ties_sort_sorts_by_popularity :
  sorts_by_popularity reversed_ties_sort.
Proof.
  intros fr. unfold reversed_ties_sort. split.
  - eapply Permutation_trans.
    + symmetry. apply Permutation_rev.
    + apply PySeqFacts.stable_sort_perm.
  - apply (StronglySorted_rev
             (fun a b : Row =>
                (popularity_score (snd a) <= popularity_score (snd b))%R)).
    apply (StronglySorted_impl
             (fun a b => by_popularity_ascending b a = false)).
    + intros a b H. unfold by_popularity_ascending in H.
      now apply Rltb_false in H.
    + apply stable_sort_not_after; unfold by_popularity_ascending.
      * intros a b. apply Rltb_asym.
      * intros a b c H.
        destruct (Rltb_negtrans _ (popularity_score (snd b)) _ H); tauto.
Qed.

Section NlargestFacts.

Variable sort_values : DataFrame -> DataFrame.
Hypothesis sort_values_ok : sorts_by_popularity sort_values.

(** [nlargest] is the beginning of a ranking of the frame by descending
    score. *)
Lemma nlargest_ranked (n : Z) (fr : DataFrame) :
  exists ranked : DataFrame,
    Permutation ranked fr
    /\ StronglySorted popularity_descending ranked
    /\ nlargest sort_values n fr = firstn (Z.to_nat n) ranked.
Proof.
  unfold nlargest. destruct (Z.leb_spec n 0) as [Hn|Hn].
  - exists (PySeq.stable_sort by_popularity fr).
    split; [apply PySeqFacts.stable_sort_perm|].
    split; [apply stable_sort_descending|].
    now replace (Z.to_nat n) with 0%nat by lia.
  - destruct (Z.of_nat (List.length fr) <=? n).
    + exists (sort_values fr). destruct (sort_values_ok fr) as [Hp Hs].
      now repeat split.
    + exists (PySeq.stable_sort by_popularity fr).
      split; [apply PySeqFacts.stable_sort_perm|].
      split; [apply stable_sort_descending | reflexivity].
Qed.

Lemma nlargest_incl (n : Z) (fr : DataFrame) :
  incl (nlargest sort_values n fr) fr.
Proof.
  destruct (nlargest_ranked n fr) as [ranked [Hp [_ ->]]].
  intros x Hx. apply PySeqFacts.firstn_incl in Hx.
  now apply (Permutation_in _ Hp).
Qed.

Lemma nlargest_NoDup {K : Type} (key : Row -> K) (n : Z) (fr : DataFrame) :
  NoDup (map key fr) -> NoDup (map key (nlargest sort_values n fr)).
Proof.
  intros H. destruct (nlargest_ranked n fr) as [ranked [Hp [_ ->]]].
  rewrite <- firstn_map. apply NoDup_firstn.
  eapply Permutation_NoDup; [|exact H].
  apply Permutation_map. now symmetry.
Qed.

Lemma nlargest_count (n : Z) (fr : DataFrame) :
  List.length (nlargest sort_values n fr)
  = Nat.min (Z.to_nat n) (List.length fr).
Proof.
  destruct (nlargest_ranked n fr) as [ranked [Hp [_ ->]]].
  rewrite length_firstn. now rewrite (Permutation_length Hp).
Qed.

Lemma nlargest_length (n : Z) (fr : DataFrame) :
  (List.length (nlargest sort_values n fr) <= List.length fr)%nat.
Proof. rewrite nlargest_count. lia. Qed.

Lemma nlargest_bound (n : Z) (fr : DataFrame) :
  (List.length (nlargest sort_values n fr) <= Z.to_nat n)%nat.
Proof. rewrite nlargest_count. lia. Qed.

Lemma nlargest_nonempty (n : Z) (fr : DataFrame) :
  1 <= n -> fr <> [] -> nlargest sort_values n fr <> [].
Proof.
  intros Hn Hfr E. apply (f_equal (@List.length Row)) in E.
  rewrite nlargest_count in E.
  destruct fr; [congruence | simpl in E; lia].
Qed.

Lemma nlargest_descending (n : Z) (fr : DataFrame) :
  StronglySorted popularity_descending (nlargest sort_values n fr).
Proof.
  destruct (nlargest_ranked n fr) as [ranked [_ [Hs ->]]].
  now apply StronglySorted_firstn.
Qed.

End NlargestFacts.

(** Without a positive bound [nlargest] is empty, whatever the sort. *)
Lemma nlargest_nonpositive (sort_values : DataFrame -> DataFrame) (n : Z)
    (fr : DataFrame) :
  n <= 0 -> nlargest sort_values n fr = [].
Proof.
  intros Hn. unfold nlargest.
  destruct (Z.leb_spec n 0); [reflexivity | lia].
Qed.

(** Below the number of rows [nlargest] does not use [sort_values]. *)
Lemma nlargest_stable (sort_values : DataFrame -> DataFrame) (n : Z)
    (fr : DataFrame) :
  n < Z.of_nat (List.length fr) ->
  nlargest sort_values n fr
  = firstn (Z.to_nat n) (PySeq.stable_sort by_popularity fr).
Proof.
  intros Hn. unfold nlargest.
  destruct (Z.leb_spec n 0) as [H0|H0].
  - now replace (Z.to_nat n) with 0%nat by lia.
  - destruct (Z.leb_spec (Z.of_nat (List.length fr)) n); [lia|reflexivity].
Qed.

(** ** The popularity ranker *)

Lemma by_popularity_order (a b : Row) :
  PySeq.stable_order by_popularity (@fst nat Place) a b ->
  popularity_order a b.
Proof.
  unfold PySeq.stable_order, by_popularity, popularity_order.
  rewrite Rltb_true, Rltb_false. intros [H|[H1 H2]].
  - now left.
  - destruct (Rle_lt_or_eq_dec _ _ H1) as [Hlt|Heq]; [now left|].
    right. split; [now symmetry | assumption].
Qed.

Lemma frame_size (df : list Place) :
  List.length (frame df) = List.length df.
Proof. apply PySeqFacts.enumerate_length. Qed.

(** The stable sort ranks the catalog with the ties in catalog order. *)
Lemma stable_sort_catalog_order (l : list Place) :
  StronglySorted popularity_order
    (PySeq.stable_sort by_popularity (frame l)).
Proof.
  apply (StronglySorted_impl _ _ _ by_popularity_order).
  apply PySeqFacts.stable_sort_sorted.
  - apply by_popularity_asym.
  - apply by_popularity_negtrans.
  - apply PySeqFacts.enumerate_sorted.
Qed.

(** Without ties there is one order by descending score. *)
Lemma descending_without_ties (l : DataFrame) :
  StronglySorted popularity_descending l ->
  NoDup (map (fun r : Row => popularity_score (snd r)) l) ->
  StronglySorted popularity_order l.
Proof.
  induction 1 as [|x l Hs IH Hx]; intros Hnd; [constructor|].
  simpl in Hnd. inversion Hnd as [|? ? Hin Hnd']; subst.
  constructor; [now apply IH|].
  rewrite Forall_forall in *. intros y Hy.
  specialize (Hx y Hy). unfold popularity_descending in Hx.
  destruct (Rle_lt_or_eq_dec _ _ Hx) as [Hlt|Heq]; [now left|].
  exfalso. apply Hin. rewrite <- Heq.
  apply in_map_iff. now exists y.
Qed.

Lemma no_ties_frame (df : list Place) (ranked : DataFrame) :
  no_ties df -> Permutation ranked (frame df) ->
  NoDup (map (fun r : Row => popularity_score (snd r)) ranked).
Proof.
  intros Hnt Hp.
  eapply Permutation_NoDup.
  - apply Permutation_map. symmetry. exact Hp.
  - replace (map (fun r : Row => popularity_score (snd r)) (frame df))
      with (map popularity_score df); [exact Hnt|].
    unfold frame.
    rewrite <- (PySeqFacts.enumerate_snd df) at 1. apply map_map.
Qed.

Lemma scenario_ranking :
  PySeq.stable_sort by_popularity (frame scenario)
  = [(0%nat, place_A); (2%nat, place_C); (1%nat, place_B)].
Proof.
  assert (HCB : by_popularity (2%nat, place_C) (1%nat, place_B) = true).
  { apply Rltb_true, popularity_B_lt_C. }
  assert (HCA : by_popularity (2%nat, place_C) (0%nat, place_A) = false).
  { apply Rltb_false. left. apply popularity_C_lt_A. }
  cbn -[by_popularity place_A place_B place_C].
  rewrite HCB. cbn -[by_popularity place_A place_B place_C].
  now rewrite HCA.
Qed.

Lemma popularity_low_le_high :
  (popularity_score place_low_1 <= popularity_score place_high_1)%R.
Proof.
  unfold popularity_score, place_low_1, place_high_1.
  cbn [Google_review_rating Number_of_google_review_in_lakhs].
  assert (0 < ln (1 + 10))%R by (rewrite <- ln_1; apply ln_increasing; lra).
  nra.
Qed.

Lemma tied_catalog_reversed :
  reversed_ties_sort (frame tied_catalog)
  = [(3%nat, place_high_2); (2%nat, place_high_1);
     (1%nat, place_low_2); (0%nat, place_low_1)].
Proof.
  assert (H32 : by_popularity_ascending (3%nat, place_high_2)
                  (2%nat, place_high_1) = false).
  { apply Rltb_false. apply Rle_refl. }
  assert (H21 : by_popularity_ascending (2%nat, place_high_1)
                  (1%nat, place_low_2) = false).
  { apply Rltb_false. apply popularity_low_le_high. }
  assert (H10 : by_popularity_ascending (1%nat, place_low_2)
                  (0%nat, place_low_1) = false).
  { apply Rltb_false. apply Rle_refl. }
  unfold reversed_ties_sort.
  cbn -[by_popularity_ascending place_low_1 place_low_2 place_high_1
        place_high_2].
  rewrite H32.
  cbn -[by_popularity_ascending place_low_1 place_low_2 place_high_1
        place_high_2].
  rewrite H21.
  cbn -[by_popularity_ascending place_low_1 place_low_2 place_high_1
        place_high_2].
  now rewrite H10.
Qed.

(** C7 (amended).  [top(n)] is the first [n] rows of the catalog ranked
    by non-increasing popularity score.  The rows of equal score are in
    ascending catalog order when [n] is below the number of rows, or when
    the catalog has no two rows of equal score; for [n] at or over the
    number of rows their order is the one of the library's sort, which
    the code does not fix.  On the three-row scenario catalog [top(2)] is
    [[A, C]]. *)
Theorem popularity_ranker_top (df : list Place)
    (sort_values : DataFrame -> DataFrame) (n : Z) :
  sorts_by_popularity sort_values ->
  (exists ranked : DataFrame,
      Permutation ranked (frame df)
      /\ StronglySorted popularity_descending ranked
      /\ (n < Z.of_nat (List.length df) \/ no_ties df ->
          StronglySorted popularity_order ranked)
      /\ collaborative_recommendations df sort_values n
         = firstn (Z.to_nat n) ranked)
  /\ collaborative_recommendations scenario sort_values 2
     = [(0%nat, place_A); (2%nat, place_C)].
Proof.
  intros Hsort. split.
  - unfold collaborative_recommendations.
    destruct (Z_lt_le_dec n (Z.of_nat (List.length df))) as [Hlt|Hge].
    + exists (PySeq.stable_sort by_popularity (frame df)).
      split; [apply PySeqFacts.stable_sort_perm|].
      split; [apply stable_sort_descending|].
      split; [intros _; apply stable_sort_catalog_order|].
      apply nlargest_stable. now rewrite frame_size.
    + destruct (nlargest_ranked sort_values Hsort n (frame df))
        as [ranked [Hp [Hs E]]].
      exists ranked. split; [exact Hp|]. split; [exact Hs|].
      split; [|exact E].
      intros [Hlt|Hnt]; [lia|].
      apply descending_without_ties; [exact Hs|].
      now apply (no_ties_frame df).
  - unfold collaborative_recommendations.
    rewrite nlargest_stable by (simpl; lia).
    rewrite scenario_ranking. reflexivity.
Qed.

Lemma popularity_ranker_top_witness :
  collaborative_recommendations scenario reversed_ties_sort 2
  = [(0%nat, place_A); (2%nat, place_C)].
Proof.
  exact (proj2 (popularity_ranker_top scenario reversed_ties_sort 2
                  reversed_ties_sort_sorts_by_popularity)).
Defined.

(** With a bound at the number of rows the ties need not be in catalog
    order: for the sort that reverses them, [top(4)] of the catalog with
    two pairs of equal scores is the rows 3, 2, 1, 0, which is the
    beginning of no ranking with the ties in catalog order. *)
Lemma popularity_ranker_ties_not_in_catalog_order :
  sorts_by_popularity reversed_ties_sort
  /\ collaborative_recommendations tied_catalog reversed_ties_sort 4
     = [(3%nat, place_high_2); (2%nat, place_high_1);
        (1%nat, place_low_2); (0%nat, place_low_1)]
  /\ ~ (exists ranked : DataFrame,
          Permutation ranked (frame tied_catalog)
          /\ StronglySorted popularity_order ranked
          /\ collaborative_recommendations tied_catalog reversed_ties_sort 4
             = firstn (Z.to_nat 4) ranked).
Proof.
  assert (E : collaborative_recommendations tied_catalog reversed_ties_sort 4
              = [(3%nat, place_high_2); (2%nat, place_high_1);
                 (1%nat, place_low_2); (0%nat, place_low_1)]).
  { unfold collaborative_recommendations, nlargest.
    change (4 <=? 0) with false.
    change (Z.of_nat (List.length (frame tied_catalog)) <=? 4) with true.
    cbv iota. rewrite tied_catalog_reversed. reflexivity. }
  split; [apply reversed_ties_sort_sorts_by_popularity|].
  split; [exact E|].
  intros [ranked [Hp [Hs Hr]]]. rewrite E in Hr.
  assert (L : List.length ranked = 4%nat)
    by (rewrite (Permutation_length Hp); reflexivity).
  rewrite firstn_all2 in Hr by (rewrite L; simpl; lia).
  rewrite <- Hr in Hs.
  inversion Hs as [|? ? _ Hall]; subst.
  inversion Hall as [|? ? H32 _]; subst.
  unfold popularity_order in H32. cbn [fst snd] in H32.
  destruct H32 as [Hlt|[_ Hpos]]; [|lia].
  unfold popularity_score, place_high_1, place_high_2 in Hlt.
  cbn [Google_review_rating Number_of_google_review_in_lakhs] in Hlt.
  lra.
Qed.

(** ** The search matcher *)







(** The relevance score the scenario of the specification gives row B
    for the query [delhi] is not the one the code computes. *)
Lemma search_delhi_relevance_not_11 :
  search_places scenario_season "delhi" 20 <> [((1%nat, place_B_season), 11)].
Proof.
  intros H.
  assert (E : map snd (search_places scenario_season "delhi" 20) = [11])
    by now rewrite H.
  discriminate E.
Qed.

(** C4 (amended).  On the scenario catalog, with a text in the column
    [Best Time to visit] of its rows, [search("delhi")] is the single
    row B, with relevance 19: the exact and the partial bonus of the
    city (8 and 3) and those of the state (6 and 2), which is [Delhi]
    too. *)
Theorem search_delhi_scenario :
  search_places scenario_season "delhi" 20 = [((1%nat, place_B_season), 19)]
  /\ relevance_score "delhi" place_B_season = 8 + 3 + 6 + 2.
Proof. split; reflexivity. Qed.

(** ** The autocomplete matcher *)

Lemma in_frame (df : list Place) (r : Row) :
  In r (frame df) -> In (snd r) df.
Proof.
  destruct r as [i p]. unfold frame, PySeq.enumerate. simpl.
  apply in_combine_r.
Qed.



(** ** The similarity index *)

Section SimilarityFacts.

Variable df : list Place.
Variable tfidf_cosine : list string -> option (nat -> nat -> R).

Lemma frame_length : List.length (frame df) = List.length df.
Proof. apply PySeqFacts.enumerate_length. Qed.

Lemma place_mask_any (q : string) :
  existsb (fun b : bool => b) (map (name_matches q) df) = true
  <-> resolves df q.
Proof.
  rewrite existsb_exists. unfold resolves. split.
  - intros [b [Hb ->]]. apply in_map_iff in Hb.
    destruct Hb as [p [Hp Hin]]. now exists p.
  - intros [p [Hin Hp]]. exists true. split; [|reflexivity].
    apply in_map_iff. now exists p.
Qed.

Lemma iloc_frame (positions : list nat) :
  Forall (fun i => (i < List.length df)%nat) positions ->
  exists rows, iloc (frame df) positions = Some rows
               /\ map fst rows = positions.
Proof.
  induction 1 as [|i rest Hi Hrest [rows [IH1 IH2]]]; cbn [iloc].
  - now exists [].
  - destruct (nth_error df i) as [x|] eqn:E.
    + apply PySeqFacts.enumerate_nth_error in E.
      change (PySeq.enumerate df) with (frame df) in E.
      unfold DataFrame, Row in *. rewrite E, IH1.
      exists ((i, x) :: rows). simpl. now rewrite IH2.
    + apply nth_error_None in E. lia.
Qed.

Lemma similarity_ranking_length (cosine_sim : nat -> nat -> R) (idx : nat) :
  List.length (similarity_ranking df cosine_sim idx) = List.length df.
Proof.
  unfold similarity_ranking.
  now rewrite PySeqFacts.stable_sort_length, PySeqFacts.enumerate_length,
    length_map, length_seq.
Qed.

Lemma similarity_ranking_positions (cosine_sim : nat -> nat -> R)
    (idx : nat) :
  Permutation (map fst (similarity_ranking df cosine_sim idx))
    (seq 0 (List.length df)).
Proof.
  unfold similarity_ranking.
  rewrite PySeqFacts.stable_sort_perm, PySeqFacts.enumerate_fst.
  now rewrite length_map, length_seq.
Qed.

(** What the function returns for a query that resolves when the
    similarity matrix could be computed. *)
Lemma content_based_resolved (q : string) (n : Z)
    (cosine_sim : nat -> nat -> R) :
  resolves df q ->
  tfidf_cosine (map combined_text df) = Some cosine_sim ->
  exists similar,
    content_based_recommendations df tfidf_cosine (Some q) n = similar
    /\ map fst similar
       = map fst (PySeq.slice 1 (n + 1)
                    (similarity_ranking df cosine_sim (resolved_index df q))).
Proof.
  intros Hres Hsim. unfold content_based_recommendations.
  fold (name_matches q).
  change (map (fun p : Place =>
                 str_contains (PyStr.lower q) (str_lower (Name p))) df)
    with (map (name_matches q) df).
  apply place_mask_any in Hres.
  unfold idxmax. rewrite Hres. simpl negb. cbv iota.
  rewrite Hsim. fold (resolved_index df q).
  fold (similarity_ranking df cosine_sim (resolved_index df q)).
  set (ranking := similarity_ranking df cosine_sim (resolved_index df q)).
  destruct (iloc_frame (map fst (PySeq.slice 1 (n + 1) ranking)))
    as [rows [Hrows Hfst]].
  { rewrite Forall_forall. intros i Hi.
    apply in_map_iff in Hi. destruct Hi as [[j s] [<- Hin]].
    apply PySeqFacts.slice_incl in Hin.
    apply (in_map fst) in Hin. simpl in Hin.
    eapply Permutation_in in Hin;
      [|apply similarity_ranking_positions].
    apply in_seq in Hin. simpl. lia. }
  rewrite Hrows. now exists rows.
Qed.

End SimilarityFacts.

(** *** The row ranked first *)

Lemma in_enumerate {A : Type} (l : list A) (j : nat) (x : A) :
  In (j, x) (PySeq.enumerate l) -> nth_error l j = Some x.
Proof.
  unfold PySeq.enumerate.
  assert (G : forall k, In (j, x) (combine (seq k (List.length l)) l) ->
                        (k <= j)%nat /\ nth_error l (j - k) = Some x).
  { induction l as [|y l IH]; intros k; simpl; [intros []|].
    intros [H|H].
    - inversion H; subst. rewrite Nat.sub_diag. split; [lia | reflexivity].
    - destruct (IH (S k) H) as [Hk Hn]. split; [lia|].
      replace (j - k)%nat with (S (j - S k)) by lia. exact Hn. }
  intros H. destruct (G 0%nat H) as [_ Hn].
  now rewrite Nat.sub_0_r in Hn.
Qed.

Lemma nth_error_map_seq {B : Type} (f : nat -> B) (len j : nat) (y : B) :
  nth_error (map f (seq 0 len)) j = Some y -> (j < len)%nat /\ y = f j.
Proof.
  intros H.
  assert (Hj : (j < len)%nat).
  { assert (Hne : nth_error (map f (seq 0 len)) j <> None) by congruence.
    apply nth_error_Some in Hne.
    now rewrite length_map, length_seq in Hne. }
  split; [assumption|].
  apply (nth_error_nth _ _ (f 0%nat)) in H.
  rewrite map_nth, seq_nth in H by assumption. now rewrite <- H.
Qed.

Lemma slice_from_1_incl {A : Type} (stop : Z) (x : A) (l : list A) :
  incl (PySeq.slice 1 stop (x :: l)) l.
Proof.
  intros y Hy. unfold PySeq.slice in Hy.
  apply PySeqFacts.firstn_incl in Hy.
  rewrite PySeqFacts.clip_nonneg in Hy by lia.
  replace (Nat.min (List.length (x :: l)) (Z.to_nat 1)) with 1%nat in Hy
    by (cbn [List.length]; lia).
  exact Hy.
Qed.

(** When the resolved row is ranked first it is left out: no earlier row
    is as similar to it as it is to itself, and no later row is more
    similar. *)
Lemma similar_to_excludes_row_ranked_first (df : list Place)
    (tfidf_cosine : list string -> option (nat -> nat -> R))
    (cosine_sim : nat -> nat -> R) (name_query : string) (n : Z) :
  resolves df name_query ->
  tfidf_cosine (map combined_text df) = Some cosine_sim ->
  let idx := resolved_index df name_query in
  (idx < List.length df)%nat ->
  (forall j, (j < idx)%nat -> (cosine_sim idx j < cosine_sim idx idx)%R) ->
  (forall j, (j < List.length df)%nat ->
             (cosine_sim idx j <= cosine_sim idx idx)%R) ->
  ~ In idx (map fst (content_based_recommendations df tfidf_cosine
                       (Some name_query) n)).
Proof.
  intros Hres Hsim idx Hidx Hbefore Hall.
  destruct (content_based_resolved df tfidf_cosine name_query n cosine_sim
              Hres Hsim) as [similar [-> ->]].
  fold idx. set (ranking := similarity_ranking df cosine_sim idx).
  assert (Hperm : Permutation ranking
            (PySeq.enumerate (map (cosine_sim idx) (seq 0 (List.length df)))))
    by apply PySeqFacts.stable_sort_perm.
  assert (Hscore : forall j s, In (j, s) ranking ->
            (j < List.length df)%nat /\ s = cosine_sim idx j).
  { intros j s Hin. eapply Permutation_in in Hin; [|exact Hperm].
    apply in_enumerate in Hin. now apply nth_error_map_seq in Hin. }
  assert (Hsorted : StronglySorted
            (PySeq.stable_order by_similarity (@fst nat R)) ranking).
  { apply PySeqFacts.stable_sort_sorted.
    - intros a b. apply Rltb_asym.
    - intros a b c H. unfold by_similarity in *.
      destruct (Rltb_negtrans _ (snd b) _ H); tauto.
    - apply PySeqFacts.enumerate_sorted. }
  assert (Hin : In (idx, cosine_sim idx idx) ranking).
  { eapply Permutation_in; [symmetry; exact Hperm|].
    apply nth_error_In with idx. apply PySeqFacts.enumerate_nth_error.
    rewrite nth_error_map.
    assert (E : nth_error (seq 0 (List.length df)) idx = Some idx).
    { rewrite (nth_error_nth' _ 0%nat) by (now rewrite length_seq).
      now rewrite seq_nth. }
    now rewrite E. }
  assert (Hnd : NoDup (map fst ranking)).
  { eapply Permutation_NoDup;
      [symmetry; apply similarity_ranking_positions | apply seq_NoDup]. }
  destruct ranking as [|[j s] rest] eqn:Er; [contradiction|].
  assert (Hj : j = idx).
  { destruct Hin as [Hin|Hin]; [congruence|].
    inversion Hsorted as [|? ? _ Hfirst]; subst.
    rewrite Forall_forall in Hfirst. specialize (Hfirst _ Hin).
    destruct (Hscore j s (or_introl eq_refl)) as [Hjl ->].
    unfold PySeq.stable_order, by_similarity in Hfirst. simpl in Hfirst.
    rewrite Rltb_true, Rltb_false in Hfirst.
    destruct Hfirst as [Hlt|[Hle Hpos]].
    - specialize (Hall j Hjl). lra.
    - specialize (Hbefore j Hpos). lra. }
  subst j. simpl in Hnd. inversion Hnd as [|? ? Hnotin _]; subst.
  intros Hsl. apply Hnotin.
  apply in_map_iff in Hsl. destruct Hsl as [[i t] [Hi Hsl]]. simpl in Hi.
  subst i. apply in_map_iff. exists (idx, t). split; [reflexivity|].
  now apply slice_from_1_incl in Hsl.
Qed.

(** C6.  A name query that no row's name holds (both in lower case) does
    not fail: [similar_to] returns [head(n)] of the catalog, the first [n]
    rows in catalog order. *)
Theorem similar_to_unresolved_fallback (df : list Place)
    (tfidf_cosine : list string -> option (nat -> nat -> R))
    (name_query : string) (n : Z) :
  (forall p, In p df -> name_matches name_query p = false) ->
  content_based_recommendations df tfidf_cosine (Some name_query) n
  = PySeq.head n (frame df)
  /\ (0 <= n ->
      content_based_recommendations df tfidf_cosine (Some name_query) n
      = firstn (Z.to_nat n) (frame df)).
Proof.
  intros H.
  assert (E : content_based_recommendations df tfidf_cosine
                (Some name_query) n = PySeq.head n (frame df)).
  { unfold content_based_recommendations.
    change (map (fun p : Place =>
                   str_contains (PyStr.lower name_query)
                     (str_lower (Name p))) df)
      with (map (name_matches name_query) df).
    destruct (existsb _ _) eqn:Hany; [|reflexivity].
    apply place_mask_any in Hany. destruct Hany as [p [Hin Hp]].
    rewrite (H p Hin) in Hp. discriminate. }
  split; [exact E|].
  intros Hn. rewrite E. now apply PySeqFacts.head_nonneg.
Qed.

Lemma similar_to_unresolved_fallback_witness :
  (forall p, In p baga_catalog -> name_matches "kerala" p = false)
  /\ content_based_recommendations baga_catalog same_text_cosine
       (Some "kerala") 1
     = [(0%nat, place_beach)].
Proof.
  assert (H : forall p, In p baga_catalog ->
                        name_matches "kerala" p = false).
  { intros p [<-|[<-|[]]]; reflexivity. }
  split; [exact H|].
  exact (proj1 (similar_to_unresolved_fallback baga_catalog
                  same_text_cosine "kerala" 1 H)).
Defined.

Lemma resolves_nonempty (df : list Place) (q : string) :
  resolves df q -> (1 <= List.length df)%nat.
Proof.
  intros [p [Hin _]]. destruct df; [contradiction | simpl; lia].
Qed.

(** C10 (amended).  For a name query that resolves and [n >= 1], when the
    TF-IDF similarity matrix is computed without an exception,
    [similar_to] returns exactly [min(n, N - 1)] rows. *)
Theorem similar_to_length (df : list Place)
    (tfidf_cosine : list string -> option (nat -> nat -> R))
    (cosine_sim : nat -> nat -> R) (name_query : string) (n : Z) :
  resolves df name_query ->
  tfidf_cosine (map combined_text df) = Some cosine_sim ->
  1 <= n ->
  List.length
    (content_based_recommendations df tfidf_cosine (Some name_query) n)
  = Nat.min (Z.to_nat n) (List.length df - 1).
Proof.
  intros Hres Hsim Hn.
  destruct (content_based_resolved df tfidf_cosine name_query n cosine_sim
              Hres Hsim) as [similar [-> Hfst]].
  transitivity (List.length (map fst similar));
    [symmetry; apply length_map|].
  rewrite Hfst, length_map.
  rewrite PySeqFacts.slice_length, similarity_ranking_length.
  apply resolves_nonempty in Hres.
  rewrite !PySeqFacts.clip_nonneg by lia. lia.
Qed.

Lemma similar_to_length_witness :
  resolves baga_catalog "baga"
  /\ List.length
       (content_based_recommendations baga_catalog same_text_cosine
          (Some "baga") 5)
     = Nat.min (Z.to_nat 5) (List.length baga_catalog - 1).
Proof.
  assert (H : resolves baga_catalog "baga").
  { exists place_baga_beach.
    split; [right; left; reflexivity | reflexivity]. }
  split; [exact H|].
  apply (similar_to_length baga_catalog same_text_cosine (fun _ _ => 1%R)
           "baga" 5 H eq_refl).
  lia.
Defined.

(** When the vectorizer raises, the handler returns [head(n)] of the
    catalog, a row more than [min(n, N - 1)] when [n >= N]. *)
Lemma similar_to_length_when_vectorizer_raises :
  resolves one_letter_catalog "x"
  /\ List.length
       (content_based_recommendations one_letter_catalog empty_vocabulary
          (Some "x") 1)
     <> Nat.min (Z.to_nat 1) (List.length one_letter_catalog - 1).
Proof.
  split.
  - exists place_x. split; [left; reflexivity | reflexivity].
  - cbv. discriminate.
Qed.

(** C1 (the code misses the case).  [sim_scores[1:n+1]] drops the first
    entry of the ranking, which is the resolved row only when no earlier
    row is as similar to it as it is to itself.  In [baga_catalog] both
    rows have the same text, hence the same TF-IDF vector: the query
    [baga] resolves to the second row, the first row ties with it and
    comes first, and the resolved row is returned as similar to itself. *)
Theorem similar_to_returns_resolved_row_on_tie
    (tfidf_cosine : list string -> option (nat -> nat -> R))
    (cosine_sim : nat -> nat -> R) (n : Z) :
  tfidf_cosine (map combined_text baga_catalog) = Some cosine_sim ->
  cosine_sim 1%nat 0%nat = cosine_sim 1%nat 1%nat ->
  1 <= n ->
  combined_text place_beach = combined_text place_baga_beach
  /\ resolved_index baga_catalog "baga" = 1%nat
  /\ content_based_recommendations baga_catalog tfidf_cosine
       (Some "baga") n
     = [(1%nat, place_baga_beach)].
Proof.
  intros Hsim Htie Hn.
  split; [reflexivity|]. split; [reflexivity|].
  unfold content_based_recommendations.
  change (map (fun p : Place =>
                 str_contains (PyStr.lower "baga") (str_lower (Name p)))
            baga_catalog) with [false; true].
  cbn [existsb negb idxmax first_true orb]. rewrite Hsim.
  cbn [List.length baga_catalog seq map PySeq.enumerate combine
       PySeq.stable_sort fold_right PySeq.insert].
  unfold by_similarity at 1. cbn [snd]. rewrite Htie.
  replace (Rltb (cosine_sim 1%nat 1%nat) (cosine_sim 1%nat 1%nat))
    with false by (symmetry; apply Rltb_false; lra).
  unfold PySeq.slice. cbn [List.length].
  rewrite !PySeqFacts.clip_nonneg by lia.
  replace (Nat.min 2 (Z.to_nat (n + 1))) with 2%nat by lia.
  reflexivity.
Qed.

Lemma similar_to_returns_resolved_row_on_tie_witness :
  content_based_recommendations baga_catalog same_text_cosine
    (Some "baga") 5
  = [(1%nat, place_baga_beach)].
Proof.
  apply (similar_to_returns_resolved_row_on_tie same_text_cosine
           (fun _ _ => 1%R) 5 eq_refl eq_refl).
  lia.
Defined.

(** ** The feed *)

(** C9 (amended).  For [page >= 1] and [limit >= 1] the feed computes
    [recommend(limit * page)], replaces it by [top(limit * page)] when it
    is empty, cuts the rows at the positions
    [(page - 1) * limit .. page * limit - 1] out of it, and reports
    [has_more] exactly when that page holds [limit] rows. *)
Theorem feed_page (df : list Place)
    (tfidf_cosine : list string -> option (nat -> nat -> R))
    (sort_values : DataFrame -> DataFrame) (page limit : Z) :
  1 <= page -> 1 <= limit ->
  let recommended :=
    hybrid_recommendations df tfidf_cosine sort_values (limit * page) in
  let recommendations :=
    match recommended with
    | [] => collaborative_recommendations df sort_values (limit * page)
    | _ => recommended
    end in
  let page_results :=
    PySeq.slice ((page - 1) * limit) (page * limit) recommendations in
  places (feed df tfidf_cosine sort_values page limit)
  = map place_json page_results
  /\ (has_more (feed df tfidf_cosine sort_values page limit) = true
      <-> Z.of_nat (List.length page_results) = limit)
  /\ page_number (feed df tfidf_cosine sort_values page limit) = page
  /\ success (feed df tfidf_cosine sort_values page limit) = true.
Proof.
  intros Hp Hl. cbv zeta.
  unfold feed, feed_page_results, feed_recommendations.
  cbn [places has_more page_number success].
  replace (limit + (page - 1) * limit) with (limit * page) by ring.
  replace ((page - 1) * limit + limit) with (page * limit) by ring.
  repeat split; try reflexivity.
  - rewrite length_map. apply Z.eqb_eq.
  - rewrite length_map. apply Z.eqb_eq.
Qed.

Lemma feed_page_witness :
  places (feed taj_catalog same_text_cosine reversed_ties_sort 1 1)
  = [place_json (0%nat, place_A)]
  /\ has_more (feed taj_catalog same_text_cosine reversed_ties_sort 1 1)
     = true.
Proof.
  destruct (feed_page taj_catalog same_text_cosine reversed_ties_sort 1 1
              ltac:(lia) ltac:(lia))
    as [Hplaces [Hmore _]].
  split.
  - rewrite Hplaces. reflexivity.
  - apply Hmore. reflexivity.
Defined.

(** On a catalog of one row [recommend(1)] is empty, and the first page of
    one row is not a slice of it: the feed serves [top(1)] instead, and
    reports [has_more]. *)
Lemma feed_not_slice_of_empty_recommend :
  hybrid_recommendations taj_catalog same_text_cosine reversed_ties_sort
    (1 * 1) = []
  /\ places (feed taj_catalog same_text_cosine reversed_ties_sort 1 1)
     <> map place_json
          (PySeq.slice ((1 - 1) * 1) (1 * 1)
             (hybrid_recommendations taj_catalog same_text_cosine
                reversed_ties_sort (1 * 1)))
  /\ has_more (feed taj_catalog same_text_cosine reversed_ties_sort 1 1)
     = true
  /\ Z.of_nat (List.length
       (PySeq.slice ((1 - 1) * 1) (1 * 1)
          (hybrid_recommendations taj_catalog same_text_cosine
             reversed_ties_sort (1 * 1))))
     <> 1.
Proof.
  assert (E : hybrid_recommendations taj_catalog same_text_cosine
                reversed_ties_sort (1 * 1)
              = []) by reflexivity.
  split; [exact E|]. rewrite E.
  split; [|split].
  - discriminate.
  - reflexivity.
  - discriminate.
Qed.

(** ** The hybrid recommender *)

(** C5 (amended).  For [1 <= n < 2^52], [recommend(n)] splits its budget
    as [collab_count = floor(0.6 * n)] and
    [content_count = n - collab_count], and asks the popularity ranker
    for [collab_count] rows. *)
Theorem hybrid_budget_split (df : list Place)
    (tfidf_cosine : list string -> option (nat -> nat -> R))
    (sort_values : DataFrame -> DataFrame) (n : Z) :
  1 <= n < 2 ^ 52 ->
  let collab_count := 6 * n / 10 in
  let content_count := n - collab_count in
  PyFloat.int_mul_0_6 n = Some collab_count
  /\ hybrid_recommendations df tfidf_cosine sort_values n
     = nlargest sort_values n
         (hybrid_combined
            (collaborative_recommendations df sort_values collab_count)
            (hybrid_content_recs df tfidf_cosine sort_values
               content_count)).
Proof.
  intros Hn. cbv zeta.
  replace (6 * n / 10) with (3 * n / 5)
    by (replace (6 * n) with (2 * (3 * n)) by ring;
        change 10 with (2 * 5); now rewrite Z.div_mul_cancel_l by lia).
  pose proof (PyFloatFacts.int_mul_0_6_floor n Hn) as H.
  split; [exact H|].
  unfold hybrid_recommendations. rewrite H. reflexivity.
Qed.

Lemma hybrid_budget_split_witness :
  PyFloat.int_mul_0_6 20 = Some 12
  /\ hybrid_recommendations baga_catalog same_text_cosine
       reversed_ties_sort 20
     = nlargest reversed_ties_sort 20
         (hybrid_combined
            (collaborative_recommendations baga_catalog reversed_ties_sort
               12)
            (hybrid_content_recs baga_catalog same_text_cosine
               reversed_ties_sort 8)).
Proof.
  exact (hybrid_budget_split baga_catalog same_text_cosine
           reversed_ties_sort 20 ltac:(split; [lia | reflexivity])).
Defined.

(** The double nearest to [7505999378950828 * 0.6] is an integer, one
    more than the floor of six tenths. *)
Lemma hybrid_budget_split_rounds_up :
  PyFloat.int_mul_0_6 7505999378950828 = Some 4503599627370497
  /\ 6 * 7505999378950828 / 10 = 4503599627370496
  /\ PyFloat.int_mul_0_6 7505999378950828
     <> Some (6 * 7505999378950828 / 10).
Proof. split; [reflexivity|]. split; [reflexivity|]. discriminate. Qed.

(** *** One row a name *)

Lemma cell_eqb_eq (a b : option string) : cell_eqb a b = true <-> a = b.
Proof.
  destruct a as [x|], b as [y|]; simpl; try (split; congruence).
  rewrite String.eqb_eq. split; congruence.
Qed.

Section DedupFacts.
Context {A K : Type}.
Variable key : A -> K.
Variable key_eqb : K -> K -> bool.
Hypothesis key_eqb_eq : forall a b, key_eqb a b = true <-> a = b.

Lemma existsb_key_eqb (k : K) (seen : list K) :
  existsb (key_eqb k) seen = true <-> In k seen.
Proof.
  rewrite existsb_exists. split.
  - intros [x [Hin Hx]]. apply key_eqb_eq in Hx. now subst.
  - intros Hin. exists k. split; [assumption | now apply key_eqb_eq].
Qed.

Lemma dedup_seen_NoDup (seen : list K) (l : list A) :
  NoDup (map key (PySeq.dedup_seen key key_eqb seen l))
  /\ forall k, In k (map key (PySeq.dedup_seen key key_eqb seen l)) ->
               ~ In k seen.
Proof.
  revert seen. induction l as [|x l IH]; intros seen; simpl.
  - split; [constructor | intros k []].
  - destruct (existsb (key_eqb (key x)) seen) eqn:E.
    + apply IH.
    + destruct (IH (key x :: seen)) as [IH1 IH2]. simpl. split.
      * constructor; [|assumption].
        intros Hin. apply (IH2 _ Hin). now left.
      * intros k [<-|Hin].
        -- intros Hs. apply existsb_key_eqb in Hs. congruence.
        -- intros Hs. apply (IH2 _ Hin). now right.
Qed.

Lemma drop_duplicates_NoDup (l : list A) :
  NoDup (map key (PySeq.drop_duplicates key key_eqb l)).
Proof. apply dedup_seen_NoDup. Qed.

Lemma drop_duplicates_nonempty (l : list A) :
  l <> [] -> PySeq.drop_duplicates key key_eqb l <> [].
Proof. destruct l; [congruence | discriminate]. Qed.

End DedupFacts.

Lemma NoDup_short {A : Type} (l : list A) :
  (List.length l <= 1)%nat -> NoDup l.
Proof.
  destruct l as [|x [|y l]]; simpl; intros H.
  - constructor.
  - constructor; [intros [] | constructor].
  - lia.
Qed.

Lemma head_length {A : Type} (n : Z) (l : list A) :
  List.length (PySeq.head n l) = PySeq.clip (List.length l) n.
Proof.
  unfold PySeq.head. rewrite length_firstn.
  pose proof (PySeqFacts.clip_le (List.length l) n). lia.
Qed.

Lemma head_nonempty {A : Type} (n : Z) (l : list A) :
  1 <= n -> l <> [] -> PySeq.head n l <> [].
Proof.
  intros Hn Hl E. apply (f_equal (@List.length A)) in E.
  rewrite head_length, PySeqFacts.clip_nonneg in E by lia.
  destruct l; [congruence | cbn [List.length] in E; lia].
Qed.

Lemma frame_nonempty (df : list Place) :
  (1 <= List.length df)%nat -> frame df <> [].
Proof.
  intros H E. apply (f_equal (@List.length Row)) in E.
  rewrite frame_length in E. simpl in E. lia.
Qed.

(** In a catalog of two rows or more every place has a similar place. *)
Lemma content_based_nonempty (df : list Place)
    (tfidf_cosine : list string -> option (nat -> nat -> R))
    (place_name : option string) :
  (2 <= List.length df)%nat ->
  content_based_recommendations df tfidf_cosine place_name 2 <> [].
Proof.
  intros HN.
  assert (Hhead : PySeq.head 2 (frame df) <> []).
  { apply head_nonempty; [lia | apply frame_nonempty; lia]. }
  destruct place_name as [q|]; [|exact Hhead].
  destruct (existsb (fun b : bool => b) (map (name_matches q) df)) eqn:E.
  - destruct (tfidf_cosine (map combined_text df)) as [sim|] eqn:Hs.
    + apply place_mask_any in E.
      destruct (content_based_resolved df tfidf_cosine q 2 sim E Hs)
        as [similar [-> Hfst]].
      intros ->. apply (f_equal (@List.length nat)) in Hfst.
      rewrite !length_map, PySeqFacts.slice_length,
        similarity_ranking_length in Hfst.
      rewrite !PySeqFacts.clip_nonneg in Hfst by lia.
      simpl in Hfst. lia.
    + unfold content_based_recommendations.
      change (map (fun p : Place =>
                     str_contains (PyStr.lower q) (str_lower (Name p))) df)
        with (map (name_matches q) df).
      rewrite E, Hs. exact Hhead.
  - unfold content_based_recommendations.
    change (map (fun p : Place =>
                   str_contains (PyStr.lower q) (str_lower (Name p))) df)
      with (map (name_matches q) df).
    rewrite E. exact Hhead.
Qed.

Lemma hybrid_content_recs_nonempty (df : list Place)
    (tfidf_cosine : list string -> option (nat -> nat -> R))
    (sort_values : DataFrame -> DataFrame) (content_count : Z) :
  sorts_by_popularity sort_values ->
  (2 <= List.length df)%nat -> 1 <= content_count ->
  hybrid_content_recs df tfidf_cosine sort_values content_count <> [].
Proof.
  intros Hsort HN Hc. unfold hybrid_content_recs.
  destruct (nlargest sort_values 10 (frame df)) as [|place rest] eqn:Htop.
  { exfalso. revert Htop. apply nlargest_nonempty; [exact Hsort|lia|].
    apply frame_nonempty. lia. }
  cbn [map filter].
  pose proof (content_based_nonempty df tfidf_cosine (Name (snd place)) HN)
    as Hsim.
  destruct (content_based_recommendations df tfidf_cosine
              (Name (snd place)) 2) as [|r similar] eqn:E; [congruence|].
  cbn [List.length Nat.eqb negb].
  apply head_nonempty; [assumption|].
  apply drop_duplicates_nonempty. discriminate.
Qed.

(** C2 (amended).  For every [n] whose product [n * 0.6] is computed (no
    [OverflowError]) and every catalog, [recommend(n)] holds no two rows
    of the same name, whatever the order the library's sort gives to
    rows of equal score. *)
Theorem hybrid_no_duplicate_names (df : list Place)
    (tfidf_cosine : list string -> option (nat -> nat -> R))
    (sort_values : DataFrame -> DataFrame) (n : Z) :
  sorts_by_popularity sort_values ->
  PyFloat.int_mul_0_6 n <> None ->
  NoDup (map (fun r : Row => Name (snd r))
           (hybrid_recommendations df tfidf_cosine sort_values n)).
Proof.
  intros Hsort Hof. unfold hybrid_recommendations.
  destruct (PyFloat.int_mul_0_6 n) as [c|] eqn:E; [|congruence].
  unfold hybrid_blend.
  destruct (Z_le_gt_dec n 0) as [Hle|Hgt].
  { rewrite nlargest_nonpositive by exact Hle. constructor. }
  assert (Hc : c < n) by (apply (PyFloatFacts.int_mul_0_6_lt n c); [lia|exact E]).
  apply nlargest_NoDup; [exact Hsort|]. unfold hybrid_combined.
  destruct (hybrid_content_recs df tfidf_cosine sort_values (n - c))
    as [|r rs] eqn:Hcont.
  - destruct (Nat.le_gt_cases (List.length df) 1) as [Hshort|Hlong].
    + apply NoDup_short. rewrite length_map.
      pose proof (nlargest_length sort_values Hsort c (frame df)) as Hl.
      unfold collaborative_recommendations.
      rewrite frame_length in Hl. lia.
    + exfalso. revert Hcont.
      apply hybrid_content_recs_nonempty; [exact Hsort|lia|lia].
  - apply drop_duplicates_NoDup. apply cell_eqb_eq.
Qed.

Lemma hybrid_no_duplicate_names_witness :
  NoDup (map (fun r : Row => Name (snd r))
           (hybrid_recommendations twice_listed_catalog same_text_cosine
              reversed_ties_sort 20)).
Proof.
  apply hybrid_no_duplicate_names.
  - apply reversed_ties_sort_sorts_by_popularity.
  - discriminate.
Defined.

(** [2^1024 * 0.6] raises [OverflowError]: the handler returns
    [top(2^1024)], the whole catalog, with both rows of the place listed
    twice. *)
Lemma hybrid_fallback_keeps_duplicate_names :
  PyFloat.int_mul_0_6 (2 ^ 1024) = None
  /\ ~ NoDup (map (fun r : Row => Name (snd r))
             (hybrid_recommendations twice_listed_catalog same_text_cosine
                reversed_ties_sort (2 ^ 1024))).
Proof.
  assert (E : PyFloat.int_mul_0_6 (2 ^ 1024) = None) by reflexivity.
  split; [exact E|].
  unfold hybrid_recommendations. rewrite E.
  unfold collaborative_recommendations.
  destruct (nlargest_ranked reversed_ties_sort
              reversed_ties_sort_sorts_by_popularity (2 ^ 1024)
              (frame twice_listed_catalog)) as [ranked [Hp [_ ->]]].
  assert (H2 : 2 <= 2 ^ 1024).
  { assert (2 ^ 1 <= 2 ^ 1024) by (apply Z.pow_le_mono_r; lia).
    now change (2 ^ 1) with 2 in H. }
  rewrite firstn_all2.
  2:{ rewrite (Permutation_length Hp), frame_length.
      cbn [twice_listed_catalog List.length]. lia. }
  intros Hnd.
  eapply Permutation_NoDup in Hnd; [|apply Permutation_map, Hp].
  cbn in Hnd. inversion Hnd as [|x l Hin _]; subst.
  apply Hin. now left.
Qed.

(** ** Facts on the string operations *)

Module PyStrFacts.
Import PyStr.

Lemma lower_ascii_idem (c : ascii) : lower_ascii (lower_ascii c) = lower_ascii c.
Proof.
  destruct c as [[] [] [] [] [] [] [] []]; reflexivity.
Qed.

Lemma lower_idem (s : string) : lower (lower s) = lower s.
Proof.
  induction s as [|c s IH]; simpl; [reflexivity|].
  now rewrite lower_ascii_idem, IH.
Qed.

Lemma startswith_spec (p s : string) :
  startswith p s = true <-> exists t, s = (p ++ t)%string.
Proof.
  revert s. induction p as [|a p IH]; intros s; simpl.
  - split; [intros _; now exists s | reflexivity].
  - destruct s as [|b s].
    + split; [discriminate | intros [t Ht]; discriminate].
    + rewrite andb_true_iff, Ascii.eqb_eq, IH. split.
      * intros [-> [t ->]]. now exists t.
      * intros [t Ht]. injection Ht as -> ->. split; [reflexivity|now exists t].
Qed.

Lemma contains_spec (sub s : string) :
  contains sub s = true
  <-> exists pre post, s = (pre ++ sub ++ post)%string.
Proof.
  induction s as [|c s IH].
  - simpl. rewrite orb_false_r, startswith_spec. split.
    + intros [t Ht]. now exists EmptyString, t.
    + intros [pre [post H]]. destruct pre; [now exists post|discriminate].
  - cbn [contains]. rewrite orb_true_iff, startswith_spec, IH. split.
    + intros [[t Ht]|[pre [post H]]].
      * now exists EmptyString, t.
      * exists (String c pre), post. simpl. now rewrite H.
    + intros [pre [post H]]. destruct pre as [|a pre].
      * left. now exists post.
      * right. simpl in H. injection H as _ ->. now exists pre, post.
Qed.

Lemma append_assoc (a b c : string) :
  ((a ++ b) ++ c = a ++ (b ++ c))%string.
Proof. induction a as [|x a IH]; simpl; [reflexivity | now rewrite IH]. Qed.

Lemma append_empty_r (a : string) : (a ++ EmptyString)%string = a.
Proof. induction a as [|x a IH]; simpl; [reflexivity | now rewrite IH]. Qed.

Lemma contains_refl (s : string) : contains s s = true.
Proof.
  apply contains_spec. exists EmptyString, EmptyString.
  simpl. now rewrite append_empty_r.
Qed.

Lemma contains_trans (a b c : string) :
  contains a b = true -> contains b c = true -> contains a c = true.
Proof.
  rewrite !contains_spec. intros [p1 [q1 ->]] [p2 [q2 ->]].
  exists (p2 ++ p1)%string, (q1 ++ q2)%string.
  now rewrite !append_assoc.
Qed.

Lemma contains_empty (s : string) : contains EmptyString s = true.
Proof. destruct s; reflexivity. Qed.

Lemma rstrip_cons (c : ascii) (s : string) :
  rstrip (String c s)
  = match rstrip s with
    | EmptyString => if is_space c then EmptyString else String c EmptyString
    | r => String c r
    end.
Proof. reflexivity. Qed.

Lemma rstrip_idem (s : string) : rstrip (rstrip s) = rstrip s.
Proof.
  induction s as [|c s IH]; [reflexivity|].
  rewrite rstrip_cons. destruct (rstrip s) as [|d r] eqn:E.
  - destruct (is_space c) eqn:Ec; [reflexivity|].
    rewrite rstrip_cons. simpl. now rewrite Ec.
  - rewrite rstrip_cons, IH. reflexivity.
Qed.

Lemma lstrip_idem (s : string) : lstrip (lstrip s) = lstrip s.
Proof.
  induction s as [|c s IH]; simpl; [reflexivity|].
  destruct (is_space c) eqn:E; [assumption|]. simpl. now rewrite E.
Qed.

Lemma lstrip_length (s : string) :
  (String.length (lstrip s) <= String.length s)%nat.
Proof.
  induction s as [|c s IH]; simpl; [lia|].
  destruct (is_space c); simpl; lia.
Qed.

Lemma lstrip_rstrip (s : string) :
  lstrip s = s -> lstrip (rstrip s) = rstrip s.
Proof.
  destruct s as [|c s]; [reflexivity|]. intros H.
  assert (Hc : is_space c = false).
  { simpl in H. destruct (is_space c); [|reflexivity].
    pose proof (lstrip_length s) as L. rewrite H in L. simpl in L. lia. }
  rewrite rstrip_cons.
  destruct (rstrip s); rewrite ?Hc; simpl; now rewrite Hc.
Qed.

Lemma strip_idem (s : string) : strip (strip s) = strip s.
Proof.
  unfold strip.
  rewrite (lstrip_rstrip (lstrip s)) by apply lstrip_idem.
  apply rstrip_idem.
Qed.

End PyStrFacts.

(** ** Facts on frames cut out of the catalog *)

Lemma frame_rows (df : list Place) (r : Row) :
  In r (frame df) -> is_row_of df r.
Proof.
  destruct r as [i p]. intros H. now apply in_enumerate.
Qed.

Lemma frame_NoDup (df : list Place) : NoDup (map fst (frame df)).
Proof.
  unfold frame. rewrite PySeqFacts.enumerate_fst. apply seq_NoDup.
Qed.

Lemma head_incl {A : Type} (n : Z) (l : list A) : incl (PySeq.head n l) l.
Proof. apply PySeqFacts.firstn_incl. Qed.

Lemma NoDup_map_filter {A B : Type} (f : A -> B) (g : A -> bool)
    (l : list A) :
  NoDup (map f l) -> NoDup (map f (filter g l)).
Proof.
  induction l as [|x l IH]; simpl; [trivial|].
  intros H. inversion H as [|? ? Hx Hl]; subst.
  destruct (g x); simpl; [|now apply IH].
  constructor; [|now apply IH].
  intros Hin. apply Hx. apply in_map_iff in Hin.
  destruct Hin as [y [Ey Hy]]. apply filter_In in Hy.
  apply in_map_iff. exists y. tauto.
Qed.

Lemma NoDup_map_head {A B : Type} (f : A -> B) (n : Z) (l : list A) :
  NoDup (map f l) -> NoDup (map f (PySeq.head n l)).
Proof.
  intros H. unfold PySeq.head. rewrite <- firstn_map. now apply NoDup_firstn.
Qed.

Lemma NoDup_map_slice {A B : Type} (f : A -> B) (a b : Z) (l : list A) :
  NoDup (map f l) -> NoDup (map f (PySeq.slice a b l)).
Proof.
  intros H. unfold PySeq.slice. rewrite <- firstn_map. apply NoDup_firstn.
  rewrite <- skipn_map.
  rewrite <- (firstn_skipn (PySeq.clip (List.length l) a) (map f l)) in H.
  now apply NoDup_app_remove_l in H.
Qed.

Lemma NoDup_map_stable_sort {A B : Type} (before : A -> A -> bool)
    (f : A -> B) (l : list A) :
  NoDup (map f l) -> NoDup (map f (PySeq.stable_sort before l)).
Proof.
  intros H. eapply Permutation_NoDup; [|exact H].
  apply Permutation_map. symmetry. apply PySeqFacts.stable_sort_perm.
Qed.

(** Rows of the catalog with the same label are the same row. *)
Lemma is_row_of_inj (df : list Place) (a b : Row) :
  is_row_of df a -> is_row_of df b -> fst a = fst b -> a = b.
Proof.
  unfold is_row_of. destruct a as [i p], b as [j q]. simpl.
  intros Ha Hb ->. congruence.
Qed.

(** Rows of the catalog with different keys have different labels. *)
Lemma NoDup_labels_of_keys {K : Type} (df : list Place) (key : Row -> K)
    (l : DataFrame) :
  Forall (is_row_of df) l -> NoDup (map key l) -> NoDup (map fst l).
Proof.
  induction l as [|x l IH]; simpl; intros Hr Hk; [constructor|].
  inversion Hr as [|? ? Hx Hl]; subst.
  inversion Hk as [|? ? Hn Hk']; subst.
  constructor; [|now apply IH].
  intros Hin. apply Hn. apply in_map_iff in Hin.
  destruct Hin as [y [Ey Hy]]. apply in_map_iff. exists y.
  split; [|assumption].
  rewrite Forall_forall in Hl.
  now rewrite (is_row_of_inj df y x (Hl y Hy) Hx Ey).
Qed.

(** ** More on the search matcher *)

Lemma str_equals_contains (q : string) (c : option string) :
  str_equals q c = true -> str_contains q c = true.
Proof.
  destruct c as [s|]; simpl; [|discriminate].
  intros H. apply String.eqb_eq in H. subst. apply PyStrFacts.contains_refl.
Qed.

Lemma filter_none {A : Type} (f : A -> bool) (l : list A) :
  (forall x, In x l -> f x = false) -> filter f l = [].
Proof.
  induction l as [|x l IH]; simpl; intros H; [reflexivity|].
  rewrite (H x) by now left. apply IH. intros y Hy. apply H. now right.
Qed.

Lemma search_places_in_sorted (df : list Place) (query : string) (n : Z) :
  search_places df query n
  = PySeq.head n
      (PySeq.stable_sort by_relevance_popularity
         (map (fun r : Row =>
                 (r, relevance_score (PyStr.lower query) (snd r)))
            (search_matches df query))).
Proof.
  unfold search_places, search_matches.
  destruct (filter _ (frame df)) as [|r rs]; [|reflexivity].
  simpl. now rewrite PySeqFacts.head_nil.
Qed.

Lemma search_places_length (df : list Place) (query : string) (n : Z) :
  List.length (search_places df query n)
  = PySeq.clip (List.length (search_matches df query)) n.
Proof.
  rewrite search_places_in_sorted, head_length.
  now rewrite PySeqFacts.stable_sort_length, length_map.
Qed.

(** X1.  The search ignores the case of the query: the query in lower
    case gives the same rows, in the same order, with the same relevance
    scores. *)
Theorem search_ignores_query_case (df : list Place) (query : string)
    (n : Z) :
  search_places df (PyStr.lower query) n = search_places df query n.
Proof.
  unfold search_places. now rewrite PyStrFacts.lower_idem.
Qed.

(** X2.  Every row the search returns is a row of the catalog that holds
    the query (in lower case) in its name, city, state or best time, it
    carries the relevance score of that row, and no row of the catalog
    is returned twice. *)
Theorem search_results_qualify (df : list Place) (query : string) (n : Z) :
  Forall (fun result : Row * Z =>
            is_row_of df (fst result)
            /\ search_mask (PyStr.lower query) (snd (fst result)) = true
            /\ snd result
               = relevance_score (PyStr.lower query) (snd (fst result)))
    (search_places df query n)
  /\ NoDup (map (fun result : Row * Z => fst (fst result))
             (search_places df query n)).
Proof.
  rewrite search_places_in_sorted. split.
  - apply Forall_forall. intros x Hx.
    apply head_incl in Hx.
    apply (Permutation_in _
             (PySeqFacts.stable_sort_perm by_relevance_popularity _)) in Hx.
    apply in_map_iff in Hx. destruct Hx as [r [<- Hr]].
    unfold search_matches in Hr. apply filter_In in Hr.
    destruct Hr as [Hin Hm]. simpl.
    split; [now apply frame_rows | now split].
  - apply NoDup_map_head, NoDup_map_stable_sort.
    rewrite map_map. simpl.
    apply NoDup_map_filter, frame_NoDup.
Qed.

(** X3.  For a bound [n] that is not negative the search returns
    [min(n, m)] rows, [m] being the number of rows that hold the
    query. *)
Theorem search_result_count (df : list Place) (query : string) (n : Z) :
  0 <= n ->
  List.length (search_places df query n)
  = Nat.min (Z.to_nat n) (List.length (search_matches df query)).
Proof.
  intros Hn. rewrite search_places_length, PySeqFacts.clip_nonneg by exact Hn.
  apply Nat.min_comm.
Qed.

Lemma search_result_count_witness :
  List.length (search_places scenario_season "delhi" 20)
  = Nat.min (Z.to_nat 20)
      (List.length (search_matches scenario_season "delhi")).
Proof. apply (search_result_count scenario_season "delhi" 20). lia. Defined.

(** X4.  The relevance score lies between 0 and 34, an exact match of a
    field brings the partial bonus of the field with it (15 for the
    name, 11 for the city, 8 for the state), and the score is 0 exactly
    for the rows that hold the query in none of name, city and state: a
    row found through its best time only is ranked by popularity
    alone. *)
Theorem relevance_score_range (query : string) (p : Place) :
  0 <= relevance_score query p <= 34
  /\ (if str_equals query (str_lower (Name p)) then 15 else 0)
     + (if str_equals query (str_lower (City p)) then 11 else 0)
     + (if str_equals query (str_lower (State p)) then 8 else 0)
     <= relevance_score query p
  /\ (relevance_score query p = 0
      <-> str_contains query (str_lower (Name p)) = false
          /\ str_contains query (str_lower (City p)) = false
          /\ str_contains query (str_lower (State p)) = false).
Proof.
  unfold relevance_score.
  pose proof (str_equals_contains query (str_lower (Name p))) as Hn.
  pose proof (str_equals_contains query (str_lower (City p))) as Hc.
  pose proof (str_equals_contains query (str_lower (State p))) as Hs.
  destruct (str_equals query (str_lower (Name p)));
    destruct (str_equals query (str_lower (City p)));
    destruct (str_equals query (str_lower (State p)));
    try (rewrite (Hn eq_refl)); try (rewrite (Hc eq_refl));
    try (rewrite (Hs eq_refl));
    destruct (str_contains query (str_lower (Name p)));
    destruct (str_contains query (str_lower (City p)));
    destruct (str_contains query (str_lower (State p)));
    repeat split; intros; try lia; try discriminate;
    try (exfalso; intuition discriminate).
Qed.

(** X5.  With a bound of at least one, the search returns nothing
    exactly when no row of the catalog holds the query (in lower case)
    in its name, city, state or best time. *)
Theorem search_empty_iff_no_match (df : list Place) (query : string)
    (n : Z) :
  1 <= n ->
  (search_places df query n = []
   <-> forall p, In p df -> search_mask (PyStr.lower query) p = false).
Proof.
  intros Hn. split.
  - intros H p Hp.
    assert (L : List.length (search_places df query n) = 0%nat)
      by now rewrite H.
    rewrite search_places_length, PySeqFacts.clip_nonneg in L by lia.
    assert (L0 : List.length (search_matches df query) = 0%nat) by lia.
    apply length_zero_iff_nil in L0.
    destruct (search_mask (PyStr.lower query) p) eqn:E; [|reflexivity].
    exfalso.
    apply In_nth_error in Hp. destruct Hp as [i Hi].
    apply PySeqFacts.enumerate_nth_error in Hi.
    apply nth_error_In in Hi.
    assert (Hin : In (i, p) (search_matches df query)).
    { unfold search_matches. apply filter_In. split; [exact Hi | exact E]. }
    rewrite L0 in Hin. exact Hin.
  - intros H. unfold search_places.
    rewrite filter_none; [reflexivity|].
    intros r Hr. apply H. now apply in_frame.
Qed.

Lemma search_empty_iff_no_match_witness :
  search_places scenario_season "kerala" 20 = []
  <-> forall p, In p scenario_season ->
                search_mask (PyStr.lower "kerala") p = false.
Proof.
  apply (search_empty_iff_no_match scenario_season "kerala" 20). lia.
Defined.

(** ** More on the autocomplete *)

Lemma dedup_seen_incl {A K : Type} (key : A -> K) (key_eqb : K -> K -> bool)
    (seen : list K) (l : list A) :
  incl (PySeq.dedup_seen key key_eqb seen l) l.
Proof.
  revert seen. induction l as [|x l IH]; intros seen; simpl.
  - intros y [].
  - destruct (existsb (key_eqb (key x)) seen).
    + intros y Hy. right. now apply (IH seen).
    + intros y [<-|Hy]; [now left | right; now apply (IH (key x :: seen))].
Qed.

(** The suggestions come out of the candidates the three loops collect. *)
Lemma autocomplete_incl (df : list Place) (query : string) (k : Z) :
  incl (get_autocomplete_suggestions df query k)
    (name_suggestions df (PyStr.strip query)
       ++ city_suggestions df (PyStr.strip query)
       ++ state_suggestions df (PyStr.strip query))%list.
Proof.
  unfold get_autocomplete_suggestions.
  destruct (_ || _); [intros x []|].
  intros x Hx. apply head_incl in Hx.
  apply (Permutation_in _
           (PySeqFacts.stable_sort_perm by_suggestion_relevance _)) in Hx.
  now apply dedup_seen_incl in Hx.
Qed.

Lemma candidate_suggests (df : list Place) (query : string)
    (s : Suggestion) :
  In s (name_suggestions df query ++ city_suggestions df query
          ++ state_suggestions df query)%list ->
  PyStr.contains query (text s) = true
  /\ exists p, In p df /\ suggests s p.
Proof.
  intros H. apply in_app_or in H. destruct H as [H|H];
    [|apply in_app_or in H; destruct H as [H|H]];
    apply in_flat_map in H; destruct H as [place [Hp Hs]];
    apply in_frame in Hp.
  - destruct (Name (snd place)) as [name|] eqn:E; [|destruct Hs].
    destruct (PyStr.contains query name) eqn:C; [|destruct Hs].
    destruct Hs as [<-|[]]. simpl. split; [exact C|].
    exists (snd place). split; [exact Hp|].
    split; [reflexivity|]. left. now rewrite E.
  - destruct (City (snd place)) as [city|] eqn:E; [|destruct Hs].
    destruct (PyStr.contains query city) eqn:C; [|destruct Hs].
    destruct Hs as [<-|[]]. simpl. split; [exact C|].
    exists (snd place). split; [exact Hp|].
    split; [reflexivity|]. right; left. now rewrite E.
  - destruct (State (snd place)) as [state|] eqn:E; [|destruct Hs].
    destruct (PyStr.contains query state) eqn:C; [|destruct Hs].
    destruct Hs as [<-|[]]. simpl. split; [exact C|].
    exists (snd place). split; [exact Hp|].
    split; [reflexivity|]. right; right. now rewrite E.
Qed.

(** X6.  For a bound that is not negative the autocomplete returns at
    most that many suggestions. *)
Theorem autocomplete_at_most (df : list Place) (query : string)
    (max_suggestions : Z) :
  0 <= max_suggestions ->
  Z.of_nat (List.length
              (get_autocomplete_suggestions df query max_suggestions))
  <= max_suggestions.
Proof.
  intros Hk. unfold get_autocomplete_suggestions.
  destruct (_ || _); [simpl; lia|].
  rewrite head_length, PySeqFacts.clip_nonneg by exact Hk. lia.
Qed.

Lemma autocomplete_at_most_witness :
  Z.of_nat (List.length (get_autocomplete_suggestions scenario "Go" 1)) <= 1.
Proof. apply (autocomplete_at_most scenario "Go" 1). lia. Defined.

(** X7.  No two suggestions of an answer have the same type and the same
    text. *)
Theorem autocomplete_distinct (df : list Place) (query : string)
    (max_suggestions : Z) :
  NoDup (map (fun s => (type s, text s))
           (get_autocomplete_suggestions df query max_suggestions)).
Proof.
  apply (NoDup_map_inv (fun k : string * string => fst k ++ "_" ++ snd k)).
  rewrite map_map. simpl.
  change (NoDup (map suggestion_key
                   (get_autocomplete_suggestions df query max_suggestions))).
  unfold get_autocomplete_suggestions.
  destruct (_ || _); [constructor|].
  apply NoDup_map_head, NoDup_map_stable_sort.
  apply drop_duplicates_NoDup. apply String.eqb_eq.
Qed.

(** X8.  The suggestions are in the order of their priority: the
    relevance scores never increase along the answer. *)
Theorem autocomplete_by_priority (df : list Place) (query : string)
    (max_suggestions : Z) :
  StronglySorted
    (fun a b => suggestion_relevance_score b <= suggestion_relevance_score a)
    (get_autocomplete_suggestions df query max_suggestions).
Proof.
  unfold get_autocomplete_suggestions.
  destruct (_ || _); [constructor|].
  apply StronglySorted_firstn.
  apply (StronglySorted_impl
           (fun a b => by_suggestion_relevance b a = false)).
  - intros a b H. unfold by_suggestion_relevance in H.
    now apply Z.ltb_ge in H.
  - apply stable_sort_not_after; unfold by_suggestion_relevance.
    + intros a b H. apply Z.ltb_lt in H. apply Z.ltb_ge. lia.
    + intros a b c H. apply Z.ltb_lt in H. rewrite !Z.ltb_lt. lia.
Qed.

(** X9.  Every suggestion comes from a row of the catalog: its text is
    the name, city or state of the row, as its type says, it holds the
    stripped query in the case the query is written in, and its
    relevance score is 100 for a name, 50 for a city and 25 for a
    state. *)
Theorem autocomplete_sound (df : list Place) (query : string)
    (max_suggestions : Z) :
  Forall (fun s =>
            PyStr.contains (PyStr.strip query) (text s) = true
            /\ exists p, In p df /\ suggests s p)
    (get_autocomplete_suggestions df query max_suggestions).
Proof.
  apply Forall_forall. intros s Hs.
  apply autocomplete_incl in Hs. now apply candidate_suggests.
Qed.

(** ** More on the similarity ranker *)

Lemma iloc_rows (df : list Place) (positions : list nat)
    (rows : DataFrame) :
  iloc (frame df) positions = Some rows ->
  Forall (is_row_of df) rows /\ map fst rows = positions.
Proof.
  revert rows. induction positions as [|i rest IH]; intros rows; simpl.
  - intros [= <-]. split; [constructor | reflexivity].
  - destruct (nth_error (frame df) i) as [r|] eqn:E; [|discriminate].
    destruct (iloc (frame df) rest) as [rs|]; [|discriminate].
    intros [= <-]. destruct (IH rs eq_refl) as [Hr Hp].
    assert (Hi : is_row_of df r /\ fst r = i).
    { pose proof (nth_error_In _ _ E) as Hin.
      split; [now apply frame_rows|].
      assert (F : nth_error (map fst (frame df)) i = Some (fst r))
        by (now apply map_nth_error).
      unfold frame in F. rewrite PySeqFacts.enumerate_fst in F.
      assert (Hlt : (i < List.length (seq 0 (List.length df)))%nat)
        by (apply nth_error_Some; congruence).
      rewrite length_seq in Hlt.
      rewrite (nth_error_nth' _ 0%nat) in F by (now rewrite length_seq).
      rewrite seq_nth in F by exact Hlt. simpl in F. congruence. }
    destruct Hi as [Hi1 Hi2]. split.
    + now constructor.
    + simpl. now rewrite Hi2, Hp.
Qed.

Lemma similarity_ranking_NoDup (df : list Place)
    (cosine_sim : nat -> nat -> R) (idx : nat) :
  NoDup (map fst (similarity_ranking df cosine_sim idx)).
Proof.
  eapply Permutation_NoDup.
  - symmetry. apply similarity_ranking_positions.
  - apply seq_NoDup.
Qed.

Lemma head_rows (df : list Place) (n : Z) :
  Forall (is_row_of df) (PySeq.head n (frame df))
  /\ NoDup (map fst (PySeq.head n (frame df))).
Proof.
  split.
  - apply Forall_forall. intros r Hr. apply head_incl in Hr.
    now apply frame_rows.
  - apply NoDup_map_head, frame_NoDup.
Qed.

Lemma content_based_rows (df : list Place)
    (tfidf_cosine : list string -> option (nat -> nat -> R))
    (place_name : option string) (n : Z) :
  Forall (is_row_of df)
    (content_based_recommendations df tfidf_cosine place_name n)
  /\ NoDup (map fst
              (content_based_recommendations df tfidf_cosine place_name n)).
Proof.
  unfold content_based_recommendations.
  destruct place_name as [q|]; [|apply head_rows].
  destruct (negb _); [apply head_rows|].
  destruct (tfidf_cosine _) as [cosine_sim|]; [|apply head_rows].
  destruct (iloc _ _) as [similar|] eqn:E; [|apply head_rows].
  apply iloc_rows in E. destruct E as [Hr Hp]. split; [exact Hr|].
  rewrite Hp. apply NoDup_map_slice.
  apply (similarity_ranking_NoDup df cosine_sim).
Qed.

Lemma slice_from_1_length {A : Type} (n : Z) (l : list A) :
  0 <= n -> (List.length (PySeq.slice 1 (n + 1) l) <= Z.to_nat n)%nat.
Proof.
  intros Hn. rewrite PySeqFacts.slice_length.
  rewrite !PySeqFacts.clip_nonneg by lia. lia.
Qed.

Lemma content_based_bound (df : list Place)
    (tfidf_cosine : list string -> option (nat -> nat -> R))
    (place_name : option string) (n : Z) :
  0 <= n ->
  (List.length (content_based_recommendations df tfidf_cosine place_name n)
   <= Z.to_nat n)%nat.
Proof.
  intros Hn.
  assert (Hh : (List.length (PySeq.head n (frame df)) <= Z.to_nat n)%nat).
  { rewrite head_length, PySeqFacts.clip_nonneg by exact Hn. lia. }
  unfold content_based_recommendations.
  destruct place_name as [q|]; [|exact Hh].
  destruct (negb _); [exact Hh|].
  destruct (tfidf_cosine _) as [cosine_sim|]; [|exact Hh].
  destruct (iloc _ _) as [similar|] eqn:E; [|exact Hh].
  apply iloc_rows in E. destruct E as [_ Hp].
  apply (f_equal (@List.length nat)) in Hp. rewrite !length_map in Hp.
  unfold DataFrame, Row in *. rewrite Hp.
  now apply slice_from_1_length.
Qed.

(** X10.  Whatever the name and the bound, and whether the ranking or
    the fallback answers, every row of [similar_to] is a row of the
    catalog and no row of the catalog comes twice. *)
Theorem similar_to_rows_of_catalog (df : list Place)
    (tfidf_cosine : list string -> option (nat -> nat -> R))
    (place_name : option string) (n : Z) :
  Forall (is_row_of df)
    (content_based_recommendations df tfidf_cosine place_name n)
  /\ NoDup (map fst
              (content_based_recommendations df tfidf_cosine place_name n)).
Proof. apply content_based_rows. Qed.

(** X11.  For a bound that is not negative [similar_to] returns at most
    that many rows, in the ranking and in every fallback. *)
Theorem similar_to_at_most (df : list Place)
    (tfidf_cosine : list string -> option (nat -> nat -> R))
    (place_name : option string) (n : Z) :
  0 <= n ->
  Z.of_nat
    (List.length (content_based_recommendations df tfidf_cosine place_name n))
  <= n.
Proof.
  intros Hn. pose proof (content_based_bound df tfidf_cosine place_name n Hn).
  lia.
Qed.

Lemma similar_to_at_most_witness :
  Z.of_nat
    (List.length
       (content_based_recommendations baga_catalog same_text_cosine
          (Some "baga") 1))
  <= 1.
Proof.
  apply (similar_to_at_most baga_catalog same_text_cosine (Some "baga") 1).
  lia.
Defined.

(** ** More on the popularity ranker, the blend and the feed *)

Lemma ln_1_plus_nonneg (x : R) : (0 <= x -> 0 <= ln (1 + x))%R.
Proof.
  intros Hx. destruct (Req_dec x 0) as [->|Hne].
  - rewrite Rplus_0_r, ln_1. lra.
  - left. rewrite <- ln_1. apply ln_increasing; lra.
Qed.

Lemma ln_1_plus_zero (x : R) : (0 <= x -> ln (1 + x) = 0 -> x = 0)%R.
Proof.
  intros Hx H. destruct (Req_dec x 0) as [E|Hne]; [exact E|].
  assert (0 < ln (1 + x))%R by (rewrite <- ln_1; apply ln_increasing; lra).
  lra.
Qed.

(** X12.  A row with a rating and a number of reviews that are not
    negative has a popularity score that is not negative; the score is
    0 when the rating or the number of reviews is 0 (a place without
    reviews has popularity 0 whatever its rating) and is positive
    otherwise. *)
Theorem popularity_score_sign (p : Place) :
  (0 <= Google_review_rating p)%R ->
  (0 <= Number_of_google_review_in_lakhs p)%R ->
  (0 <= popularity_score p)%R
  /\ ((popularity_score p = 0%R
       /\ (Google_review_rating p = 0%R
           \/ Number_of_google_review_in_lakhs p = 0%R))
      \/ ((0 < popularity_score p)%R
          /\ (0 < Google_review_rating p)%R
          /\ (0 < Number_of_google_review_in_lakhs p)%R)).
Proof.
  intros Hr Hv. unfold popularity_score.
  pose proof (ln_1_plus_nonneg _ Hv) as Hl.
  split; [now apply Rmult_le_pos|].
  destruct (Req_dec (Google_review_rating p) 0) as [E|E].
  { left. split; [rewrite E; apply Rmult_0_l | now left]. }
  destruct (Req_dec (Number_of_google_review_in_lakhs p) 0) as [E'|E'].
  { left. split; [|now right].
    rewrite E', Rplus_0_r, ln_1. apply Rmult_0_r. }
  right.
  assert (0 < ln (1 + Number_of_google_review_in_lakhs p))%R.
  { destruct Hl as [Hl|Hl]; [exact Hl|].
    exfalso. apply E'. now apply ln_1_plus_zero. }
  split; [|split]; try lra.
  apply Rmult_lt_0_compat; lra.
Qed.

Lemma popularity_score_sign_witness :
  (0 <= popularity_score place_A)%R
  /\ ((popularity_score place_A = 0%R
       /\ (Google_review_rating place_A = 0%R
           \/ Number_of_google_review_in_lakhs place_A = 0%R))
      \/ ((0 < popularity_score place_A)%R
          /\ (0 < Google_review_rating place_A)%R
          /\ (0 < Number_of_google_review_in_lakhs place_A)%R)).
Proof. apply (popularity_score_sign place_A); simpl; lra. Defined.

(** X13.  Below the number of rows the popularity ranking of a smaller
    bound is the beginning of the ranking of a larger one: for
    [n <= m < N], [top(n)] is the first [n] rows of [top(m)]. *)
Theorem popularity_ranker_prefix (df : list Place)
    (sort_values : DataFrame -> DataFrame) (n m : Z) :
  n <= m -> m < Z.of_nat (List.length df) ->
  collaborative_recommendations df sort_values n
  = firstn (Z.to_nat n) (collaborative_recommendations df sort_values m).
Proof.
  intros Hnm Hm. unfold collaborative_recommendations.
  rewrite !nlargest_stable by (rewrite frame_length; lia).
  rewrite firstn_firstn. f_equal. lia.
Qed.

Lemma popularity_ranker_prefix_witness :
  collaborative_recommendations scenario reversed_ties_sort 1
  = firstn (Z.to_nat 1)
      (collaborative_recommendations scenario reversed_ties_sort 2).
Proof.
  apply (popularity_ranker_prefix scenario reversed_ties_sort 1 2).
  - lia.
  - simpl. lia.
Defined.

Lemma collaborative_rows (df : list Place)
    (sort_values : DataFrame -> DataFrame) (n : Z) :
  sorts_by_popularity sort_values ->
  Forall (is_row_of df) (collaborative_recommendations df sort_values n)
  /\ NoDup (map fst (collaborative_recommendations df sort_values n)).
Proof.
  intros Hsort. unfold collaborative_recommendations. split.
  - apply Forall_forall. intros r Hr.
    apply (nlargest_incl sort_values Hsort) in Hr.
    now apply frame_rows.
  - apply nlargest_NoDup; [exact Hsort | apply frame_NoDup].
Qed.

(** X14.  The popularity ranker returns [min(n, N)] rows of a catalog of
    [N] rows, none for a bound that is not positive; they are rows of
    the catalog and none comes twice. *)
Theorem popularity_ranker_count (df : list Place)
    (sort_values : DataFrame -> DataFrame) (n : Z) :
  sorts_by_popularity sort_values ->
  List.length (collaborative_recommendations df sort_values n)
  = Nat.min (Z.to_nat n) (List.length df)
  /\ Forall (is_row_of df) (collaborative_recommendations df sort_values n)
  /\ NoDup (map fst (collaborative_recommendations df sort_values n)).
Proof.
  intros Hsort. split; [|now apply collaborative_rows].
  unfold collaborative_recommendations.
  rewrite nlargest_count by exact Hsort. now rewrite frame_length.
Qed.

Lemma popularity_ranker_count_witness :
  List.length (collaborative_recommendations tied_catalog reversed_ties_sort 9)
  = Nat.min (Z.to_nat 9) (List.length tied_catalog)
  /\ Forall (is_row_of tied_catalog)
       (collaborative_recommendations tied_catalog reversed_ties_sort 9)
  /\ NoDup (map fst
              (collaborative_recommendations tied_catalog reversed_ties_sort
                 9)).
Proof.
  apply (popularity_ranker_count tied_catalog reversed_ties_sort 9).
  apply reversed_ties_sort_sorts_by_popularity.
Defined.

Lemma hybrid_content_recs_rows (df : list Place)
    (tfidf_cosine : list string -> option (nat -> nat -> R))
    (sort_values : DataFrame -> DataFrame) (content_count : Z) :
  Forall (is_row_of df)
    (hybrid_content_recs df tfidf_cosine sort_values content_count).
Proof.
  unfold hybrid_content_recs.
  destruct (filter _ _) as [|x xs] eqn:E; [constructor|].
  rewrite <- E. clear E x xs.
  apply Forall_forall. intros r Hr.
  apply head_incl in Hr. apply dedup_seen_incl in Hr.
  apply in_concat in Hr. destruct Hr as [similar [Hs Hr]].
  apply filter_In in Hs. destruct Hs as [Hs _].
  apply in_map_iff in Hs. destruct Hs as [place [<- _]].
  pose proof (content_based_rows df tfidf_cosine (Name (snd place)) 2)
    as [Hrows _].
  rewrite Forall_forall in Hrows. now apply Hrows.
Qed.

Lemma hybrid_combined_rows (df : list Place)
    (collab_recs content_recs : DataFrame) :
  Forall (is_row_of df) collab_recs ->
  NoDup (map fst collab_recs) ->
  Forall (is_row_of df) content_recs ->
  Forall (is_row_of df) (hybrid_combined collab_recs content_recs)
  /\ NoDup (map fst (hybrid_combined collab_recs content_recs)).
Proof.
  intros Hc Hn Hk. unfold hybrid_combined.
  destruct content_recs as [|x xs] eqn:E; [now split|].
  rewrite <- E in *. clear E x xs.
  assert (Hall : Forall (is_row_of df)
                   (PySeq.drop_duplicates (fun r : Row => Name (snd r))
                      cell_eqb (collab_recs ++ content_recs)%list)).
  { apply Forall_forall. intros r Hr. apply dedup_seen_incl in Hr.
    apply in_app_or in Hr. rewrite Forall_forall in Hc, Hk.
    destruct Hr as [Hr|Hr]; [now apply Hc | now apply Hk]. }
  split; [exact Hall|].
  apply (NoDup_labels_of_keys df (fun r : Row => Name (snd r)) _ Hall).
  apply drop_duplicates_NoDup. apply cell_eqb_eq.
Qed.

Lemma hybrid_blend_rows (df : list Place)
    (tfidf_cosine : list string -> option (nat -> nat -> R))
    (sort_values : DataFrame -> DataFrame) (n collab_count : Z) :
  sorts_by_popularity sort_values ->
  Forall (is_row_of df)
    (hybrid_blend df tfidf_cosine sort_values n collab_count)
  /\ NoDup (map fst
              (hybrid_blend df tfidf_cosine sort_values n collab_count)).
Proof.
  intros Hsort. unfold hybrid_blend.
  destruct (collaborative_rows df sort_values collab_count Hsort)
    as [Hc Hn].
  destruct (hybrid_combined_rows df _ _ Hc Hn
              (hybrid_content_recs_rows df tfidf_cosine sort_values
                 (n - collab_count)))
    as [Hr Hd].
  split.
  - apply Forall_forall. intros r Hin.
    apply (nlargest_incl sort_values Hsort) in Hin.
    rewrite Forall_forall in Hr. now apply Hr.
  - now apply nlargest_NoDup.
Qed.

(** X15.  Whatever the bound, and in the blend as in the fallback, every
    row [recommend] returns is a row of the catalog and no row of the
    catalog is returned twice. *)
Theorem recommend_rows_of_catalog (df : list Place)
    (tfidf_cosine : list string -> option (nat -> nat -> R))
    (sort_values : DataFrame -> DataFrame) (n : Z) :
  sorts_by_popularity sort_values ->
  Forall (is_row_of df)
    (hybrid_recommendations df tfidf_cosine sort_values n)
  /\ NoDup (map fst
              (hybrid_recommendations df tfidf_cosine sort_values n)).
Proof.
  intros Hsort. unfold hybrid_recommendations.
  destruct (PyFloat.int_mul_0_6 n) as [c|].
  - now apply hybrid_blend_rows.
  - now apply collaborative_rows.
Qed.

Lemma recommend_rows_of_catalog_witness :
  Forall (is_row_of baga_catalog)
    (hybrid_recommendations baga_catalog same_text_cosine
       reversed_ties_sort 20)
  /\ NoDup (map fst
              (hybrid_recommendations baga_catalog same_text_cosine
                 reversed_ties_sort 20)).
Proof.
  apply (recommend_rows_of_catalog baga_catalog same_text_cosine
           reversed_ties_sort 20).
  apply reversed_ties_sort_sorts_by_popularity.
Defined.

(** X16.  [recommend(n)] is in the order of descending popularity and
    has at most [n] rows, none for a bound that is not positive. *)
Theorem recommend_descending_at_most (df : list Place)
    (tfidf_cosine : list string -> option (nat -> nat -> R))
    (sort_values : DataFrame -> DataFrame) (n : Z) :
  sorts_by_popularity sort_values ->
  StronglySorted popularity_descending
    (hybrid_recommendations df tfidf_cosine sort_values n)
  /\ (List.length (hybrid_recommendations df tfidf_cosine sort_values n)
      <= Z.to_nat n)%nat.
Proof.
  intros Hsort.
  unfold hybrid_recommendations, hybrid_blend, collaborative_recommendations.
  destruct (PyFloat.int_mul_0_6 n) as [c|]; split;
    (now apply nlargest_descending) || (now apply nlargest_bound).
Qed.

Lemma recommend_descending_at_most_witness :
  StronglySorted popularity_descending
    (hybrid_recommendations baga_catalog same_text_cosine
       reversed_ties_sort 20)
  /\ (List.length
        (hybrid_recommendations baga_catalog same_text_cosine
           reversed_ties_sort 20)
      <= Z.to_nat 20)%nat.
Proof.
  apply (recommend_descending_at_most baga_catalog same_text_cosine
           reversed_ties_sort 20).
  apply reversed_ties_sort_sorts_by_popularity.
Defined.

Lemma hybrid_nonempty (df : list Place)
    (tfidf_cosine : list string -> option (nat -> nat -> R))
    (sort_values : DataFrame -> DataFrame) (n : Z) :
  sorts_by_popularity sort_values ->
  1 <= n -> (2 <= List.length df)%nat ->
  hybrid_recommendations df tfidf_cosine sort_values n <> [].
Proof.
  intros Hsort Hn Hdf. unfold hybrid_recommendations.
  destruct (PyFloat.int_mul_0_6 n) as [c|] eqn:E.
  - pose proof (PyFloatFacts.int_mul_0_6_lt n c Hn E) as Hc.
    unfold hybrid_blend. apply nlargest_nonempty; [exact Hsort|exact Hn|].
    pose proof (hybrid_content_recs_nonempty df tfidf_cosine sort_values
                  (n - c) Hsort Hdf ltac:(lia)) as Hk.
    unfold hybrid_combined.
    destruct (hybrid_content_recs df tfidf_cosine sort_values (n - c))
      as [|x xs] eqn:Ek; [congruence|].
    apply drop_duplicates_nonempty.
    destruct (collaborative_recommendations df sort_values c); discriminate.
  - unfold collaborative_recommendations.
    apply nlargest_nonempty; [exact Hsort|exact Hn|].
    apply frame_nonempty. lia.
Qed.

(** X17.  On a catalog of at least two rows [recommend(n)] with a bound
    of at least one returns at least one row. *)
Theorem recommend_nonempty (df : list Place)
    (tfidf_cosine : list string -> option (nat -> nat -> R))
    (sort_values : DataFrame -> DataFrame) (n : Z) :
  sorts_by_popularity sort_values ->
  1 <= n -> (2 <= List.length df)%nat ->
  (1 <= List.length (hybrid_recommendations df tfidf_cosine sort_values n))%nat.
Proof.
  intros Hsort Hn Hdf.
  pose proof (hybrid_nonempty df tfidf_cosine sort_values n Hsort Hn Hdf).
  destruct (hybrid_recommendations df tfidf_cosine sort_values n);
    [congruence|].
  simpl. lia.
Qed.

Lemma recommend_nonempty_witness :
  (1 <= List.length
          (hybrid_recommendations baga_catalog same_text_cosine
             reversed_ties_sort 1))%nat.
Proof.
  apply (recommend_nonempty baga_catalog same_text_cosine
           reversed_ties_sort 1);
    [apply reversed_ties_sort_sorts_by_popularity | lia |].
  simpl. lia.
Defined.

(** X18.  On a catalog of at least two rows the popularity fallback of
    the feed never replaces the blend: for every page and limit the
    places of the page are the slice
    [(page-1)*limit : (page-1)*limit + limit] of
    [recommend(limit + (page-1)*limit)]. *)
Theorem feed_page_of_recommend (df : list Place)
    (tfidf_cosine : list string -> option (nat -> nat -> R))
    (sort_values : DataFrame -> DataFrame) (page limit : Z) :
  sorts_by_popularity sort_values ->
  (2 <= List.length df)%nat ->
  let offset := (page - 1) * limit in
  places (feed df tfidf_cosine sort_values page limit)
  = map place_json
      (PySeq.slice offset (offset + limit)
         (hybrid_recommendations df tfidf_cosine sort_values
            (limit + offset))).
Proof.
  intros Hsort Hdf offset.
  unfold feed, feed_page_results, feed_recommendations.
  cbn [places]. fold offset.
  destruct (hybrid_recommendations df tfidf_cosine sort_values
              (limit + offset))
    as [|x xs] eqn:E; [|reflexivity].
  destruct (Z_le_gt_dec (limit + offset) 0) as [Hle|Hgt].
  - unfold collaborative_recommendations.
    now rewrite nlargest_nonpositive by exact Hle.
  - exfalso.
    now apply (hybrid_nonempty df tfidf_cosine sort_values (limit + offset)
                 Hsort ltac:(lia) Hdf).
Qed.

Lemma feed_page_of_recommend_witness :
  places (feed baga_catalog same_text_cosine reversed_ties_sort 1 1)
  = map place_json
      (PySeq.slice ((1 - 1) * 1) ((1 - 1) * 1 + 1)
         (hybrid_recommendations baga_catalog same_text_cosine
            reversed_ties_sort (1 + (1 - 1) * 1))).
Proof.
  apply (feed_page_of_recommend baga_catalog same_text_cosine
           reversed_ties_sort 1 1).
  - apply reversed_ties_sort_sorts_by_popularity.
  - simpl. lia.
Defined.

(** X19.  For a limit that is not negative a page of the feed holds at
    most [limit] places, whatever the page number. *)
Theorem feed_at_most_limit (df : list Place)
    (tfidf_cosine : list string -> option (nat -> nat -> R))
    (sort_values : DataFrame -> DataFrame) (page limit : Z) :
  0 <= limit ->
  Z.of_nat
    (List.length (places (feed df tfidf_cosine sort_values page limit)))
  <= limit.
Proof.
  intros Hl. unfold feed, feed_page_results. cbn [places].
  rewrite length_map, PySeqFacts.slice_length.
  set (len := List.length
                (feed_recommendations df tfidf_cosine sort_values page
                   limit)).
  unfold PySeq.clip.
  destruct (Z.ltb_spec ((page - 1) * limit) 0);
    destruct (Z.ltb_spec ((page - 1) * limit + limit) 0); lia.
Qed.

Lemma feed_at_most_limit_witness :
  Z.of_nat
    (List.length
       (places (feed baga_catalog same_text_cosine reversed_ties_sort 1 1)))
  <= 1.
Proof.
  apply (feed_at_most_limit baga_catalog same_text_cosine
           reversed_ties_sort 1 1).
  lia.
Defined.

(** ** The loading of the catalog *)

Lemma present_length_le (column : list (option R)) :
  (List.length (present column) <= List.length column)%nat.
Proof.
  induction column as [|[x|] column IH]; simpl; lia.
Qed.

Lemma present_In (column : list (option R)) (x : R) :
  In x (present column) <-> In (Some x) column.
Proof.
  unfold present. rewrite in_flat_map. split.
  - intros [[y|] [Hc Hx]]; [|destruct Hx].
    destruct Hx as [<-|[]]. exact Hc.
  - intros H. exists (Some x). split; [exact H | now left].
Qed.

Lemma Rsum_cons (x : R) (xs : list R) : Rsum (x :: xs) = (x + Rsum xs)%R.
Proof. reflexivity. Qed.

Lemma present_some (x : R) (column : list (option R)) :
  present (Some x :: column) = x :: present column.
Proof. reflexivity. Qed.

Lemma present_missing (column : list (option R)) :
  present (None :: column) = present column.
Proof. reflexivity. Qed.

(** The numbers of a column whose missing cells have been set to [mu]. *)
Lemma present_filled (mu : R) (column : list (option R)) :
  let filled :=
    map (fun c : option R =>
           match c with Some x => Some x | None => Some mu end) column in
  List.length (present filled) = List.length column
  /\ Rsum (present filled)
     = (Rsum (present column)
        + (INR (List.length column) - INR (List.length (present column)))
          * mu)%R.
Proof.
  cbv zeta. induction column as [|[x|] column [IHl IHs]].
  - simpl. split; [reflexivity | lra].
  - rewrite map_cons, !present_some, !Rsum_cons.
    cbn [List.length]. rewrite IHl, IHs, !S_INR. split; [reflexivity | lra].
  - rewrite map_cons, present_some, present_missing, Rsum_cons.
    cbn [List.length]. rewrite IHl, IHs, !S_INR. split; [reflexivity | lra].
Qed.

Lemma fill_missing_none (column : list (option R)) :
  column_mean column = None -> fill_missing column = column.
Proof.
  intros H. unfold fill_missing. rewrite H.
  rewrite <- (map_id column) at 2. apply map_ext. now intros [x|].
Qed.

Lemma column_mean_some (column : list (option R)) (mu : R) :
  column_mean column = Some mu ->
  (0 < INR (List.length (present column)))%R
  /\ mu = (Rsum (present column) / INR (List.length (present column)))%R.
Proof.
  unfold column_mean. destruct (present column) as [|x xs] eqn:E;
    [discriminate|].
  intros [= <-]. split; [|reflexivity].
  apply lt_0_INR. simpl. lia.
Qed.

Lemma column_mean_fill (column : list (option R)) :
  column_mean (fill_missing column) = column_mean column.
Proof.
  destruct (column_mean column) as [mu|] eqn:E.
  - destruct (column_mean_some _ _ E) as [Hm Hmu].
    unfold fill_missing. rewrite E.
    destruct (present_filled mu column) as [Hl Hs]. cbv zeta in Hl, Hs.
    pose proof (present_length_le column) as Hle.
    assert (Hc : (0 < INR (List.length column))%R).
    { apply lt_0_INR.
      destruct (present column); [simpl in Hm; lra | simpl in Hle; lia]. }
    unfold column_mean.
    destruct (present (map _ column)) as [|y ys] eqn:Ep.
    + simpl in Hl. rewrite <- Hl in Hc. simpl in Hc. lra.
    + rewrite Hl, Hs. f_equal. rewrite Hmu. field.
      split; lra.
  - now rewrite fill_missing_none.
Qed.

Lemma Rsum_lower (lo : R) (xs : list R) :
  (forall x, In x xs -> (lo <= x)%R) ->
  (INR (List.length xs) * lo <= Rsum xs)%R.
Proof.
  induction xs as [|x xs IH]; intros H.
  - simpl. lra.
  - cbn [List.length]. rewrite Rsum_cons, S_INR.
    pose proof (H x (or_introl eq_refl)).
    pose proof (IH (fun y Hy => H y (or_intror Hy))). lra.
Qed.

Lemma column_mean_lower (lo : R) (column : list (option R)) (mu : R) :
  (forall x, In (Some x) column -> (lo <= x)%R) ->
  column_mean column = Some mu -> (lo <= mu)%R.
Proof.
  intros H E. destruct (column_mean_some _ _ E) as [Hm ->].
  pose proof (Rsum_lower lo (present column)
                (fun x Hx => H x (proj1 (present_In column x) Hx))) as Hs.
  apply (Rmult_le_reg_r (INR (List.length (present column)))); [exact Hm|].
  unfold Rdiv. rewrite Rmult_assoc, Rinv_l by lra. lra.
Qed.

(** X20.  Filling is idempotent, and it leaves no cell missing as soon
    as the column holds one number: a column stays missing only when it
    has no number at all. *)
Theorem fill_missing_complete (column : list (option R)) :
  fill_missing (fill_missing column) = fill_missing column
  /\ (In None (fill_missing column)
      <-> In None column /\ present column = []).
Proof.
  split.
  - unfold fill_missing at 1. rewrite column_mean_fill.
    unfold fill_missing. rewrite map_map. apply map_ext.
    intros [x|]; [reflexivity|].
    now destruct (column_mean column).
  - unfold fill_missing. rewrite in_map_iff. split.
    + intros [[x|] [E Hc]]; [discriminate|].
      split; [exact Hc|].
      unfold column_mean in E. now destruct (present column).
    + intros [Hc Hp]. exists None. split; [|exact Hc].
      unfold column_mean. now rewrite Hp.
Qed.

Lemma load_rows_spec (rating_mean review_mean : option R)
    (raw : list RawPlace) (df : list Place) :
  load_rows raw
    (map (fun r =>
            match raw_rating r with Some x => Some x | None => rating_mean end)
       raw)
    (map (fun r =>
            match raw_reviews r with Some x => Some x | None => review_mean end)
       raw)
  = Some df ->
  Forall2 (loaded_from rating_mean review_mean) raw df.
Proof.
  revert df. induction raw as [|r raw IH]; intros df; simpl.
  - intros [= <-]. constructor.
  - destruct (match raw_rating r with Some x => Some x | None => rating_mean end)
      as [a|] eqn:Ea; [|discriminate].
    destruct (match raw_reviews r with Some x => Some x | None => review_mean end)
      as [b|] eqn:Eb; [|discriminate].
    destruct (load_rows raw _ _) as [rows|]; [|discriminate].
    intros [= <-]. constructor; [|now apply IH].
    unfold loaded_from. simpl. rewrite Ea, Eb. tauto.
Qed.

Lemma load_data_unfold (raw : list RawPlace) :
  load_data raw
  = load_rows raw
      (map (fun r =>
              match raw_rating r with
              | Some x => Some x
              | None => column_mean (map raw_rating raw)
              end) raw)
      (map (fun r =>
              match raw_reviews r with
              | Some x => Some x
              | None => column_mean (map raw_reviews raw)
              end) raw).
Proof.
  unfold load_data, fill_missing. now rewrite !map_map.
Qed.

Lemma load_data_rows (raw : list RawPlace) (df : list Place) :
  load_data raw = Some df ->
  Forall2 (loaded_from (column_mean (map raw_rating raw))
             (column_mean (map raw_reviews raw))) raw df.
Proof.
  rewrite load_data_unfold. apply load_rows_spec.
Qed.

(** X21.  The catalog [load_data] makes of a file has one row for each
    row of the file, in the order of the file; a row keeps its text
    cells and its numbers, and a numeric cell that held no number holds
    the mean of the numbers of its column. *)
Theorem load_data_keeps_rows (raw : list RawPlace) (df : list Place) :
  load_data raw = Some df ->
  List.length df = List.length raw
  /\ Forall2 (loaded_from (column_mean (map raw_rating raw))
                (column_mean (map raw_reviews raw))) raw df.
Proof.
  intros H. apply load_data_rows in H. split; [|exact H].
  symmetry. apply (Forall2_length H).
Qed.

Lemma load_data_keeps_rows_witness :
  List.length [place_A; place_unrated] = List.length raw_file
  /\ Forall2 (loaded_from (column_mean (map raw_rating raw_file))
                (column_mean (map raw_reviews raw_file)))
       raw_file [place_A; place_unrated].
Proof.
  apply (load_data_keeps_rows raw_file [place_A; place_unrated]).
  reflexivity.
Defined.

(** X22.  When no number of the file is negative, no popularity score
    of the catalog is negative, the filled cells included. *)
Theorem load_data_popularity_nonneg (raw : list RawPlace)
    (df : list Place) :
  load_data raw = Some df ->
  (forall r x, In r raw -> raw_rating r = Some x -> (0 <= x)%R) ->
  (forall r x, In r raw -> raw_reviews r = Some x -> (0 <= x)%R) ->
  Forall (fun p => (0 <= popularity_score p)%R) df.
Proof.
  intros H Hr Hv. apply load_data_rows in H.
  assert (Mr : forall mu, column_mean (map raw_rating raw) = Some mu ->
                          (0 <= mu)%R).
  { intros mu. apply column_mean_lower. intros x Hx.
    apply in_map_iff in Hx. destruct Hx as [r [E Hin]]. now apply (Hr r). }
  assert (Mv : forall mu, column_mean (map raw_reviews raw) = Some mu ->
                          (0 <= mu)%R).
  { intros mu. apply column_mean_lower. intros x Hx.
    apply in_map_iff in Hx. destruct Hx as [r [E Hin]]. now apply (Hv r). }
  set (rm := column_mean (map raw_rating raw)) in *.
  set (vm := column_mean (map raw_reviews raw)) in *.
  clearbody rm vm.
  induction H as [|r p raw' df' Hp Hrest IH]; [constructor|].
  constructor.
  - destruct Hp as (_ & _ & _ & _ & _ & Ea & Eb).
    unfold popularity_score. apply Rmult_le_pos.
    + destruct (raw_rating r) as [x|] eqn:E.
      * injection Ea as ->. apply (Hr r x); [now left | exact E].
      * apply Mr. now symmetry.
    + apply ln_1_plus_nonneg.
      destruct (raw_reviews r) as [x|] eqn:E.
      * injection Eb as ->. apply (Hv r x); [now left | exact E].
      * apply Mv. now symmetry.
  - apply IH.
    + intros r0 x Hin. apply Hr. now right.
    + intros r0 x Hin. apply Hv. now right.
Qed.

Lemma load_data_popularity_nonneg_witness :
  Forall (fun p => (0 <= popularity_score p)%R) [place_A; place_unrated].
Proof.
  apply (load_data_popularity_nonneg raw_file [place_A; place_unrated]).
  - reflexivity.
  - simpl. intros r x [<-|[<-|[]]]; simpl; intros H; [|discriminate].
    injection H as <-. lra.
  - simpl. intros r x [<-|[<-|[]]]; simpl; intros H;
      injection H as <-; lra.
Defined.

(** ** The routes *)

Lemma strip_empty_length (s : string) :
  String.length (PyStr.strip s) = 0%nat <-> PyStr.strip s = "".
Proof.
  destruct (PyStr.strip s); simpl; split; intros H;
    reflexivity || discriminate.
Qed.

(** X23.  [/search] answers 400 exactly when the query is missing or
    blank; otherwise it searches for the stripped query with the bound
    20, and [total_results] counts the places of the answer:
    [min(20, m)] for [m] rows that hold the query. *)
Theorem search_route_answer (df : list Place) (query_arg : option string) :
  let query := PyStr.strip (fillna query_arg) in
  match search df query_arg with
  | Error status _ => status = 400 /\ query = ""
  | Ok body =>
      query <> ""
      /\ search_result_query body = query
      /\ search_result_places body
         = map (fun r : Row * Z => search_place_json (fst r))
             (search_places df query 20)
      /\ total_results body = List.length (search_result_places body)
      /\ total_results body
         = Nat.min 20 (List.length (search_matches df query))
  end.
Proof.
  intros query. unfold search. fold query.
  destruct (Nat.eqb_spec (String.length query) 0) as [E|E].
  - split; [reflexivity|]. now apply strip_empty_length.
  - cbn [search_result_query search_result_places total_results].
    split; [|split; [|split; [|split]]]; try reflexivity.
    + intros H. apply E. now rewrite H.
    + rewrite length_map, search_places_length.
      rewrite PySeqFacts.clip_nonneg by lia.
      change (Z.to_nat 20) with 20%nat. apply Nat.min_comm.
Qed.

Lemma autocomplete_strips (df : list Place) (query : string) (k : Z) :
  get_autocomplete_suggestions df (PyStr.strip query) k
  = get_autocomplete_suggestions df query k.
Proof.
  unfold get_autocomplete_suggestions.
  rewrite PyStrFacts.strip_idem.
  destruct (Nat.ltb_spec (String.length (PyStr.strip query)) 2) as [H|H].
  - now rewrite !orb_true_r.
  - rewrite !orb_false_r.
    assert (H1 : (String.length (PyStr.strip query) =? 0)%nat = false)
      by (apply Nat.eqb_neq; lia).
    assert (H2 : (String.length query =? 0)%nat = false).
    { apply Nat.eqb_neq. intros H0.
      destruct query; [simpl in H; lia | discriminate]. }
    now rewrite H1, H2.
Qed.

(** X24.  The suggestions of [/autocomplete] are those of the
    autocomplete for the query as it came, with the bound 8: the blanks
    around the query do not count, a query of less than two characters
    once stripped has no suggestion, and there are at most eight. *)
Theorem autocomplete_route_answer (df : list Place)
    (query_arg : option string) :
  suggestions (autocomplete df query_arg)
  = get_autocomplete_suggestions df (fillna query_arg) 8
  /\ (List.length (suggestions (autocomplete df query_arg)) <= 8)%nat.
Proof.
  assert (E : suggestions (autocomplete df query_arg)
              = get_autocomplete_suggestions df (fillna query_arg) 8).
  { rewrite <- autocomplete_strips. unfold autocomplete.
    set (query := PyStr.strip (fillna query_arg)).
    destruct ((String.length query =? 0)%nat
              || (String.length query <? 2)%nat) eqn:B;
      cbn [suggestions]; [|reflexivity].
    unfold get_autocomplete_suggestions.
    unfold query at 2. rewrite PyStrFacts.strip_idem. fold query.
    now rewrite B. }
  split; [exact E|]. rewrite E.
  unfold get_autocomplete_suggestions.
  destruct (_ || _); [simpl; lia|].
  rewrite head_length, PySeqFacts.clip_nonneg by lia.
  change (Z.to_nat 8) with 8%nat. lia.
Qed.

Lemma first_true_least (mask : list bool) (i : nat) :
  nth_error mask i = Some true ->
  (forall j, (j < i)%nat -> nth_error mask j = Some false) ->
  first_true mask = i.
Proof.
  revert i. induction mask as [|b mask IH]; intros i Hi Hlt.
  - destruct i; discriminate.
  - destruct i as [|i].
    + simpl in Hi. injection Hi as ->. reflexivity.
    + pose proof (Hlt 0%nat ltac:(lia)) as H0. simpl in H0.
      injection H0 as ->. simpl. f_equal. apply IH; [exact Hi|].
      intros j Hj. apply (Hlt (S j)). lia.
Qed.

Lemma first_true_found (mask : list bool) :
  existsb (fun b => b) mask = true ->
  nth_error mask (first_true mask) = Some true
  /\ forall j, (j < first_true mask)%nat -> nth_error mask j = Some false.
Proof.
  induction mask as [|b mask IH]; simpl; [discriminate|].
  destruct b; simpl.
  - intros _. split; [reflexivity | intros j Hj; lia].
  - intros H. destruct (IH H) as [H1 H2]. split; [exact H1|].
    intros [|j] Hj; [reflexivity|]. apply H2. lia.
Qed.

(** The first row of the frame a mask selects. *)
Lemma filter_frame_first (f : Place -> bool) (l : list Place) (s : nat) :
  match filter (fun r : Row => f (snd r))
          (combine (seq s (List.length l)) l) with
  | [] => existsb (fun b => b) (map f l) = false
  | r :: _ =>
      existsb (fun b => b) (map f l) = true
      /\ fst r = (s + first_true (map f l))%nat
      /\ nth_error l (first_true (map f l)) = Some (snd r)
  end.
Proof.
  revert s. induction l as [|p l IH]; intros s; [reflexivity|].
  cbn [List.length seq combine filter snd map existsb first_true].
  destruct (f p) eqn:E.
  - simpl. repeat split. lia.
  - specialize (IH (S s)).
    destruct (filter (fun r : Row => f (snd r))
                (combine (seq (S s) (List.length l)) l)) as [|r rs].
    + exact IH.
    + destruct IH as (H1 & H2 & H3). simpl. repeat split; try assumption.
      lia.
Qed.

Lemma name_matches_own_name (p : Place) (name : string) :
  Name p = Some name -> name_matches name p = true.
Proof.
  intros E. unfold name_matches. rewrite E. simpl.
  apply PyStrFacts.contains_refl.
Qed.

Lemma name_matches_trans (q name : string) (p p' : Place) :
  Name p = Some name ->
  name_matches q p = true -> name_matches name p' = true ->
  name_matches q p' = true.
Proof.
  unfold name_matches. intros E. rewrite E.
  destruct (Name p') as [name'|]; simpl; [|discriminate].
  apply PyStrFacts.contains_trans.
Qed.

(** The name of the row a query resolves to resolves to that row. *)
Lemma resolved_index_of_own_name (df : list Place) (q name : string)
    (p : Place) :
  existsb (fun b => b) (map (name_matches q) df) = true ->
  nth_error df (resolved_index df q) = Some p ->
  Name p = Some name ->
  existsb (fun b => b) (map (name_matches name) df) = true
  /\ resolved_index df name = resolved_index df q.
Proof.
  intros Hex Hp En.
  destruct (first_true_found _ Hex) as [Hq Hlt].
  fold (resolved_index df q) in Hq, Hlt.
  assert (Hqp : name_matches q p = true).
  { rewrite nth_error_map, Hp in Hq. simpl in Hq. congruence. }
  split.
  - apply existsb_exists. exists true. split; [|reflexivity].
    apply in_map_iff. exists p. split.
    + now apply name_matches_own_name.
    + now apply (nth_error_In _ _ Hp).
  - unfold resolved_index at 1. apply first_true_least.
    + rewrite nth_error_map, Hp. simpl.
      now rewrite (name_matches_own_name p name En).
    + intros j Hj. specialize (Hlt j Hj).
      rewrite nth_error_map in Hlt |- *.
      destruct (nth_error df j) as [p'|]; [|discriminate].
      simpl in Hlt |- *. f_equal.
      destruct (name_matches name p') eqn:E; [|reflexivity].
      rewrite (name_matches_trans q name p p' En Hqp E) in Hlt.
      discriminate.
Qed.

Lemma content_based_of_index (df : list Place)
    (tfidf_cosine : list string -> option (nat -> nat -> R))
    (q1 q2 : string) (n : Z) :
  existsb (fun b => b) (map (name_matches q1) df)
  = existsb (fun b => b) (map (name_matches q2) df) ->
  idxmax (map (name_matches q1) df) = idxmax (map (name_matches q2) df) ->
  content_based_recommendations df tfidf_cosine (Some q1) n
  = content_based_recommendations df tfidf_cosine (Some q2) n.
Proof.
  intros H1 H2. unfold content_based_recommendations.
  change (fun p : Place => str_contains (PyStr.lower q1) (str_lower (Name p)))
    with (name_matches q1).
  change (fun p : Place => str_contains (PyStr.lower q2) (str_lower (Name p)))
    with (name_matches q2).
  now rewrite H1, H2.
Qed.

(** X25.  [/place/<name>] answers 404 exactly when no name of the
    catalog holds the given name (both in lower case).  Otherwise it
    shows the first such row of the catalog, and the similar places it
    lists are those of [similar_to] for the given name with the bound
    5: the full name of the row shown resolves to that same row. *)
Theorem place_details_answer (df : list Place)
    (tfidf_cosine : list string -> option (nat -> nat -> R))
    (place_name : string) :
  match get_place_details df tfidf_cosine place_name with
  | Error status _ =>
      status = 404
      /\ forall p, In p df -> name_matches place_name p = false
  | Ok body =>
      exists p,
        nth_error df (resolved_index df place_name) = Some p
        /\ name_matches place_name p = true
        /\ place_data body = place_json (resolved_index df place_name, p)
        /\ similar_places body
           = map similar_json
               (content_based_recommendations df tfidf_cosine
                  (Some place_name) 5)
  end.
Proof.
  unfold get_place_details.
  pose proof (filter_frame_first (name_matches place_name) df 0) as H.
  change (fun r : Row => name_matches place_name (snd r))
    with (fun r : Row =>
            str_contains (PyStr.lower place_name) (str_lower (Name (snd r))))
    in H.
  fold (PySeq.enumerate df) in H. fold (frame df) in H.
  destruct (filter _ (frame df)) as [|[i p] rs].
  - split; [reflexivity|]. intros p Hp.
    destruct (name_matches place_name p) eqn:E; [|reflexivity].
    assert (X : existsb (fun b => b) (map (name_matches place_name) df)
                = true).
    { apply existsb_exists. exists true. split; [|reflexivity].
      apply in_map_iff. now exists p. }
    congruence.
  - destruct H as (Hex & Hi & Hp). simpl in Hi, Hp.
    fold (resolved_index df place_name) in Hi, Hp. subst i.
    destruct (first_true_found _ Hex) as [Hq _].
    fold (resolved_index df place_name) in Hq.
    assert (Hqp : name_matches place_name p = true).
    { rewrite nth_error_map, Hp in Hq. simpl in Hq. congruence. }
    exists p. cbn [place_data similar_places snd].
    split; [exact Hp|]. split; [exact Hqp|]. split; [reflexivity|].
    f_equal.
    destruct (Name p) as [name|] eqn:En.
    + destruct (resolved_index_of_own_name df place_name name p Hex Hp En)
        as [Hex' Hidx].
      apply content_based_of_index.
      * now rewrite Hex, Hex'.
      * unfold idxmax. rewrite Hex, Hex'. exact Hidx.
    + unfold name_matches in Hqp. rewrite En in Hqp. discriminate.
Qed.

(** ** The integers the product with 0.6 is computed for *)

Module PyFloatRange.
Import PyFloat PyFloatRounding PyFloatFacts.

Lemma to_int_finite_some (s : bool) (m : positive) (e : Z) :
  exists c, to_int (S754_finite s m e) = Some c.
Proof. simpl. eexists. reflexivity. Qed.

Lemma to_int_positive_nonneg (m : positive) (e c : Z) :
  to_int (S754_finite false m e) = Some c -> 0 <= c.
Proof.
  destruct (Z_lt_le_dec e 0) as [Hneg|Hpos].
  - destruct e as [|k|k]; try lia.
    cbn [to_int cond_Zopp]. intros H.
    assert (E : c = Z.pos m / 2 ^ Z.pos k) by congruence.
    rewrite E. apply Z.div_pos; [lia|]. apply Z.pow_pos_nonneg; lia.
  - rewrite to_int_finite_nonneg by exact Hpos. intros H.
    assert (E : c = Z.pos m * 2 ^ e) by congruence.
    rewrite E. apply Z.mul_nonneg_nonneg; [lia|]. now apply Z.pow_nonneg.
Qed.

Lemma rounded_finite (m' e' : Z) :
  (m' < 2 ^ 53 -> e' <= 971) -> (2 ^ 53 <= m' -> e' + 1 <= 971) ->
  exists m e, rounded m' e' = S754_finite false m e.
Proof.
  intros H1 H2. unfold rounded.
  destruct (Z.ltb_spec m' (2 ^ 53)) as [Hlt|Hge].
  - destruct (Z.leb_spec e' 971) as [_|]; [|specialize (H1 Hlt); lia].
    eexists _, _. reflexivity.
  - destruct (Z.leb_spec (e' + 1) 971) as [_|]; [|specialize (H2 Hge); lia].
    eexists _, _. reflexivity.
Qed.

Lemma digits2_below (p : positive) (k : Z) :
  0 <= k -> Z.pos p < 2 ^ k -> Z.pos (digits2_pos p) <= k.
Proof.
  intros Hk Hp. pose proof (digits2_bounds p) as Hb.
  destruct (Z_le_gt_dec (Z.pos (digits2_pos p)) k) as [|Hgt]; [assumption|].
  assert (2 ^ k <= 2 ^ (Z.pos (digits2_pos p) - 1))
    by (apply Z.pow_le_mono_r; lia).
  lia.
Qed.

Lemma of_int_finite (p : positive) :
  2 ^ 52 <= Z.pos p < 2 ^ 1023 ->
  exists mx e1,
    of_int (Z.pos p) = Some (S754_finite false mx e1)
    /\ 2 ^ 52 <= Z.pos mx < 2 ^ 53 /\ 0 <= e1 <= 971.
Proof.
  intros [Hlo Hhi].
  pose proof (digits2_bounds p) as Hp.
  pose proof (digits2_below p 1023 ltac:(lia) Hhi) as Hd2.
  set (d := Z.pos (digits2_pos p)) in *.
  assert (Hd : 53 <= d).
  { destruct (Z_le_gt_dec 53 d) as [|Hgt]; [assumption|].
    assert (2 ^ d <= 2 ^ 52) by (apply Z.pow_le_mono_r; lia). lia. }
  assert (Hsome : exists x, of_int (Z.pos p) = Some x).
  { unfold of_int. cbn [binary_normalize]. unfold binary_round.
    fold d. rewrite Z.add_0_r, fexp_normal by lia.
    assert (Hal : shl_align p 0 (d - 53) = (p, 0)).
    { unfold shl_align. destruct (d - 53 - 0) eqn:E; try reflexivity. lia. }
    rewrite Hal.
    destruct (binary_round_aux_spec p 0) as [m1 [Hm1 [_ ->]]];
      fold d; try lia.
    rewrite Z.add_0_l.
    destruct (rounded_finite m1 (d - 53)) as [m [e ->]]; try lia.
    eexists. reflexivity. }
  destruct Hsome as [x Hx].
  destruct (of_int_rounded p x Hd Hx) as [mx [e1 [-> [Hmx [He1 [_ HE]]]]]].
  fold d in HE. exists mx, e1.
  split; [exact Hx|]. split; [exact Hmx|]. split; [exact He1|].
  destruct (Z_le_gt_dec e1 971) as [|Hgt]; [assumption|].
  assert (2 ^ (d - 51) <= 2 ^ e1) by (apply Z.pow_le_mono_r; lia).
  assert (E : 2 ^ (d - 51) = 4 * 2 ^ (d - 53)).
  { replace (d - 51) with (2 + (d - 53)) by lia.
    rewrite Z.pow_add_r by lia. reflexivity. }
  assert (0 < 2 ^ (d - 53)) by (apply Z.pow_pos_nonneg; lia).
  lia.
Qed.

Lemma product_finite (mx : positive) (e1 : Z) :
  2 ^ 52 <= Z.pos mx < 2 ^ 53 -> 0 <= e1 <= 971 ->
  exists m e, mul (S754_finite false mx e1) lit_0_6 = S754_finite false m e.
Proof.
  intros Hmx He1. unfold mul, lit_0_6. cbn [SFmul xorb].
  pose proof (product_digits mx Hmx) as HdP.
  destruct (binary_round_aux_spec (mx * 5404319552844595) (e1 + -53))
    as [m' [Hm' [Hhalf ->]]]; try lia.
  set (dP := Z.pos (digits2_pos (mx * 5404319552844595))) in *.
  rewrite Pos2Z.inj_mul in Hhalf.
  apply rounded_finite; [lia|].
  intros Hge. assert (Em : m' = 2 ^ 53) by lia.
  assert (Hcase : dP = 105 \/ dP = 106) by lia.
  destruct Hcase as [HdP' | HdP']; [lia|].
  exfalso. rewrite HdP', Em in Hhalf.
  change (106 - 53) with 53 in Hhalf. lia.
Qed.

Lemma int_mul_0_6_total (n : Z) :
  1 <= n < 2 ^ 1023 -> exists c, int_mul_0_6 n = Some c /\ 0 <= c < n.
Proof.
  intros [Hn1 Hn2].
  assert (Hsome : exists c, int_mul_0_6 n = Some c /\ 0 <= c).
  { destruct (Z_lt_le_dec n (2 ^ 52)) as [Hsmall|Hbig].
    - exists (3 * n / 5). split; [apply int_mul_0_6_floor; lia|].
      apply Z.div_pos; lia.
    - destruct n as [|p|p]; try lia.
      destruct (of_int_finite p ltac:(lia)) as [mx [e1 [Hof [Hmx He1]]]].
      unfold int_mul_0_6. rewrite Hof.
      destruct (product_finite mx e1 Hmx He1) as [m [e ->]].
      destruct (to_int_finite_some false m e) as [c Hc].
      exists c. split; [exact Hc|].
      now apply (to_int_positive_nonneg m e). }
  destruct Hsome as [c [Hc H0]]. exists c. split; [exact Hc|].
  split; [exact H0|]. now apply (int_mul_0_6_lt n c).
Qed.

End PyFloatRange.

(** X26.  For every bound from 1 up to, and not including, [2^1023] the
    conversion to [float] and the product with 0.6 raise nothing:
    [recommend(n)] is the blend, not the popularity fallback, with a
    popularity share [collab_count] from 0 to [n - 1], so that the
    budget of the content part is at least one. *)
Theorem recommend_blend_range (df : list Place)
    (tfidf_cosine : list string -> option (nat -> nat -> R))
    (sort_values : DataFrame -> DataFrame) (n : Z) :
  1 <= n < 2 ^ 1023 ->
  exists collab_count,
    0 <= collab_count < n
    /\ PyFloat.int_mul_0_6 n = Some collab_count
    /\ hybrid_recommendations df tfidf_cosine sort_values n
       = hybrid_blend df tfidf_cosine sort_values n collab_count.
Proof.
  intros Hn. destruct (PyFloatRange.int_mul_0_6_total n Hn) as [c [Hc Hb]].
  exists c. split; [exact Hb|]. split; [exact Hc|].
  unfold hybrid_recommendations. now rewrite Hc.
Qed.

Lemma recommend_blend_range_witness :
  exists collab_count,
    0 <= collab_count < 20
    /\ PyFloat.int_mul_0_6 20 = Some collab_count
    /\ hybrid_recommendations baga_catalog same_text_cosine
         reversed_ties_sort 20
       = hybrid_blend baga_catalog same_text_cosine reversed_ties_sort 20
           collab_count.
Proof.
  apply (recommend_blend_range baga_catalog same_text_cosine
           reversed_ties_sort 20).
  split; [lia|]. reflexivity.
Defined.

(** ** The query row and its own similarity *)

Lemma resolved_index_bound (df : list Place) (q : string) :
  resolves df q -> (resolved_index df q < List.length df)%nat.
Proof.
  intros H. apply place_mask_any in H.
  destruct (first_true_found _ H) as [Hq _].
  fold (resolved_index df q) in Hq.
  rewrite <- (length_map (name_matches q)).
  apply nth_error_Some. congruence.
Qed.

(** X27.  When the resolved row is more similar to itself than to every
    other row, [similar_to] does not return it, whatever the bound. *)
Theorem similar_to_excludes_query_row (df : list Place)
    (tfidf_cosine : list string -> option (nat -> nat -> R))
    (cosine_sim : nat -> nat -> R) (name_query : string) (n : Z) :
  resolves df name_query ->
  tfidf_cosine (map combined_text df) = Some cosine_sim ->
  (forall j, (j < List.length df)%nat -> j <> resolved_index df name_query ->
             (cosine_sim (resolved_index df name_query) j
              < cosine_sim (resolved_index df name_query)
                  (resolved_index df name_query))%R) ->
  Forall (fun r : Row => fst r <> resolved_index df name_query)
    (content_based_recommendations df tfidf_cosine (Some name_query) n).
Proof.
  intros Hres Htf Hself.
  pose proof (resolved_index_bound df name_query Hres) as Hidx.
  pose proof (similar_to_excludes_row_ranked_first df tfidf_cosine cosine_sim
                name_query n Hres Htf) as H.
  cbv zeta in H.
  assert (Hnot : ~ In (resolved_index df name_query)
                   (map fst (content_based_recommendations df tfidf_cosine
                               (Some name_query) n))).
  { apply H; [exact Hidx | |].
    - intros j Hj. apply Hself; lia.
    - intros j Hj.
      destruct (Nat.eq_dec j (resolved_index df name_query)) as [->|Hne].
      + apply Rle_refl.
      + left. now apply Hself. }
  apply Forall_forall. intros r Hr E. apply Hnot.
  apply in_map_iff. now exists r.
Qed.

Lemma similar_to_excludes_query_row_witness :
  Forall (fun r : Row => fst r <> resolved_index scenario "red fort")
    (content_based_recommendations scenario distinct_text_cosine
       (Some "red fort") 2).
Proof.
  apply (similar_to_excludes_query_row scenario distinct_text_cosine
           (fun i j => if (i =? j)%nat then 1%R else 0%R) "red fort" 2).
  - exists place_B. split; [simpl; tauto | reflexivity].
  - reflexivity.
  - change (resolved_index scenario "red fort") with 1%nat.
    intros j Hj Hne. simpl in Hj.
    destruct j as [|[|[|j]]]; simpl; try lra; lia.
Defined.

(** ** The most popular place *)

Lemma row_in_frame (df : list Place) (r : Row) :
  is_row_of df r -> In r (frame df).
Proof.
  destruct r as [i p]. unfold is_row_of. simpl. intros H.
  apply PySeqFacts.enumerate_nth_error in H.
  now apply nth_error_In in H.
Qed.

(** The first row of a ranking by descending score has the highest
    score. *)
Lemma descending_first_highest (x : Row) (l : DataFrame) (y : Row) :
  StronglySorted popularity_descending (x :: l) -> In y (x :: l) ->
  (popularity_score (snd y) <= popularity_score (snd x))%R.
Proof.
  intros Hs [<-|Hy]; [apply Rle_refl|].
  inversion Hs as [|? ? _ Hall]; subst.
  rewrite Forall_forall in Hall. now apply Hall.
Qed.

Section MostPopular.

Variable sort_values : DataFrame -> DataFrame.
Hypothesis sort_values_ok : sorts_by_popularity sort_values.

(** The first row of [nlargest] has the highest score of the frame. *)
Lemma nlargest_first_highest (n : Z) (fr : DataFrame) (x : Row)
    (rest : DataFrame) (y : Row) :
  nlargest sort_values n fr = x :: rest -> In y fr ->
  (popularity_score (snd y) <= popularity_score (snd x))%R.
Proof.
  intros E Hy.
  destruct (nlargest_ranked sort_values sort_values_ok n fr)
    as [ranked [Hp [Hs Hr]]].
  rewrite E in Hr.
  destruct ranked as [|z ranked'];
    [destruct (Z.to_nat n); discriminate|].
  destruct (Z.to_nat n) as [|k]; [discriminate|].
  simpl in Hr. injection Hr as -> _.
  apply (descending_first_highest z ranked' y Hs).
  apply (Permutation_in _ (Permutation_sym Hp)). exact Hy.
Qed.

End MostPopular.

(** X28.  For a bound from 2 up to, and not including, [2^52] and a
    catalog that is not empty, the first row of [recommend] has the
    highest popularity score of the catalog. *)
Theorem recommend_led_by_highest_score (df : list Place)
    (tfidf_cosine : list string -> option (nat -> nat -> R))
    (sort_values : DataFrame -> DataFrame) (n : Z) :
  sorts_by_popularity sort_values ->
  2 <= n < 2 ^ 52 -> df <> [] ->
  exists top rest,
    hybrid_recommendations df tfidf_cosine sort_values n = top :: rest
    /\ Forall (fun p => (popularity_score p
                         <= popularity_score (snd top))%R) df.
Proof.
  intros Hsort Hn Hdf.
  unfold hybrid_recommendations.
  rewrite PyFloatFacts.int_mul_0_6_floor by lia.
  assert (Hc : 1 <= 3 * n / 5) by (apply Z.div_le_lower_bound; lia).
  unfold hybrid_blend.
  set (c := 3 * n / 5) in *.
  assert (Hframe : frame df <> []).
  { apply frame_nonempty. destruct df; [congruence | simpl; lia]. }
  destruct (collaborative_recommendations df sort_values c)
    as [|lead collab] eqn:Ecollab.
  { exfalso. revert Ecollab. unfold collaborative_recommendations.
    now apply nlargest_nonempty. }
  assert (Hlead : forall r, In r (frame df) ->
            (popularity_score (snd r) <= popularity_score (snd lead))%R).
  { intros r Hr.
    apply (nlargest_first_highest sort_values Hsort c (frame df) lead
             collab r Ecollab Hr). }
  assert (Ecomb : exists rest',
             hybrid_combined (lead :: collab)
               (hybrid_content_recs df tfidf_cosine sort_values (n - c))
             = lead :: rest').
  { unfold hybrid_combined.
    destruct (hybrid_content_recs df tfidf_cosine sort_values (n - c));
      [now exists collab|].
    simpl. eexists. reflexivity. }
  destruct Ecomb as [rest' Ecomb]. rewrite Ecomb.
  destruct (nlargest sort_values n (lead :: rest')) as [|top rest] eqn:Etop.
  { exfalso. revert Etop. apply nlargest_nonempty; [exact Hsort|lia|].
    discriminate. }
  exists top, rest. split; [reflexivity|].
  apply Forall_forall. intros p Hp.
  apply In_nth_error in Hp. destruct Hp as [i Hi].
  assert (Hrow : In (i, p) (frame df)).
  { apply row_in_frame. exact Hi. }
  apply Rle_trans with (popularity_score (snd lead)).
  - apply (Hlead (i, p) Hrow).
  - apply (nlargest_first_highest sort_values Hsort n (lead :: rest') top
             rest lead Etop). now left.
Qed.

Lemma recommend_led_by_highest_score_witness :
  exists top rest,
    hybrid_recommendations baga_catalog same_text_cosine reversed_ties_sort 2
    = top :: rest
    /\ Forall (fun p => (popularity_score p
                         <= popularity_score (snd top))%R) baga_catalog.
Proof.
  apply (recommend_led_by_highest_score baga_catalog same_text_cosine
           reversed_ties_sort 2).
  - apply reversed_ties_sort_sorts_by_popularity.
  - split; [lia | reflexivity].
  - discriminate.
Defined.

(** ** What the autocomplete does not leave out *)

Section KeptKeys.
Context {A K : Type}.
Variable key : A -> K.
Variable key_eqb : K -> K -> bool.
Hypothesis key_eqb_eq : forall a b, key_eqb a b = true <-> a = b.

(** Dropping the duplicates keeps a row of every key. *)
Lemma dedup_seen_keeps (seen : list K) (l : list A) (x : A) :
  In x l ->
  In (key x) seen
  \/ exists y, In y (PySeq.dedup_seen key key_eqb seen l) /\ key y = key x.
Proof.
  revert seen. induction l as [|a l IH]; intros seen; [intros []|].
  intros [->|Hx]; simpl.
  - destruct (existsb (key_eqb (key x)) seen) eqn:E.
    + left. now apply (existsb_key_eqb key_eqb key_eqb_eq).
    + right. exists x. split; [now left | reflexivity].
  - destruct (existsb (key_eqb (key a)) seen) eqn:E.
    + apply (IH seen Hx).
    + destruct (IH (key a :: seen) Hx) as [[Hk|Hk]|[y [Hy Ey]]].
      * right. exists a. split; [now left | exact Hk].
      * now left.
      * right. exists y. split; [now right | exact Ey].
Qed.

Lemma drop_duplicates_keeps (l : list A) (x : A) :
  In x l ->
  exists y, In y (PySeq.drop_duplicates key key_eqb l) /\ key y = key x.
Proof.
  intros Hx. destruct (dedup_seen_keeps [] l x Hx) as [[]|H]. exact H.
Qed.

End KeptKeys.

Lemma candidate_of_cell (df : list Place) (query ty t : string)
    (p : Place) :
  In p df -> suggested_cell ty p = Some t ->
  PyStr.contains query t = true ->
  exists s,
    In s (name_suggestions df query ++ city_suggestions df query
            ++ state_suggestions df query)%list
    /\ type s = ty /\ text s = t.
Proof.
  intros Hp Hc Hq.
  apply In_nth_error in Hp. destruct Hp as [i Hi].
  apply PySeqFacts.enumerate_nth_error in Hi. apply nth_error_In in Hi.
  fold (frame df) in Hi.
  unfold suggested_cell in Hc.
  destruct (String.eqb_spec ty "name") as [->|_];
    [|destruct (String.eqb_spec ty "city") as [->|_];
      [|destruct (String.eqb_spec ty "state") as [->|_]; [|discriminate]]].
  - eexists. split.
    + apply in_or_app. left. unfold name_suggestions.
      apply in_flat_map. exists (i, p). split; [exact Hi|].
      cbn [snd]. rewrite Hc, Hq. left. reflexivity.
    + split; reflexivity.
  - eexists. split.
    + apply in_or_app. right. apply in_or_app. left.
      unfold city_suggestions.
      apply in_flat_map. exists (i, p). split; [exact Hi|].
      cbn [snd]. rewrite Hc, Hq. left. reflexivity.
    + split; reflexivity.
  - eexists. split.
    + apply in_or_app. right. apply in_or_app. right.
      unfold state_suggestions.
      apply in_flat_map. exists (i, p). split; [exact Hi|].
      cbn [snd]. rewrite Hc, Hq. left. reflexivity.
    + split; reflexivity.
Qed.

Lemma candidate_type (df : list Place) (query : string) (s : Suggestion) :
  In s (name_suggestions df query ++ city_suggestions df query
          ++ state_suggestions df query)%list ->
  (type s = "name" /\ suggestion_relevance_score s = 100)
  \/ (type s = "city" /\ suggestion_relevance_score s = 50)
  \/ (type s = "state" /\ suggestion_relevance_score s = 25).
Proof.
  intros H. destruct (candidate_suggests df query s H) as [_ [p [_ Hs]]].
  destruct Hs as [_ [H1|[H1|H1]]]; tauto.
Qed.

(** Candidates with the same key have the same type and text. *)
Lemma candidate_key_inj (df : list Place) (query : string)
    (a b : Suggestion) :
  In a (name_suggestions df query ++ city_suggestions df query
          ++ state_suggestions df query)%list ->
  In b (name_suggestions df query ++ city_suggestions df query
          ++ state_suggestions df query)%list ->
  suggestion_key a = suggestion_key b ->
  type a = type b /\ text a = text b.
Proof.
  intros Ha Hb. unfold suggestion_key.
  destruct (candidate_type df query a Ha) as [[-> _]|[[-> _]|[-> _]]];
    destruct (candidate_type df query b Hb) as [[-> _]|[[-> _]|[-> _]]];
    simpl; intros E; try discriminate; injection E as E; now split.
Qed.

Lemma flat_map_length_le {A B : Type} (f : A -> list B) (l : list A) :
  (forall x, (List.length (f x) <= 1)%nat) ->
  (List.length (flat_map f l) <= List.length l)%nat.
Proof.
  intros H. induction l as [|x l IH]; simpl; [lia|].
  rewrite length_app. specialize (H x). lia.
Qed.

Lemma candidates_length (df : list Place) (query : string) :
  (List.length (name_suggestions df query ++ city_suggestions df query
                  ++ state_suggestions df query)%list
   <= 3 * List.length df)%nat.
Proof.
  rewrite !length_app.
  pose proof (frame_length df) as L.
  assert (Hn : (List.length (name_suggestions df query)
                <= List.length (frame df))%nat).
  { apply flat_map_length_le. intros x.
    destruct (Name (snd x)); [|simpl; lia].
    destruct (PyStr.contains query s); simpl; lia. }
  assert (Hc : (List.length (city_suggestions df query)
                <= List.length (frame df))%nat).
  { apply flat_map_length_le. intros x.
    destruct (City (snd x)); [|simpl; lia].
    destruct (PyStr.contains query s); simpl; lia. }
  assert (Hs : (List.length (state_suggestions df query)
                <= List.length (frame df))%nat).
  { apply flat_map_length_le. intros x.
    destruct (State (snd x)); [|simpl; lia].
    destruct (PyStr.contains query s); simpl; lia. }
  lia.
Qed.

Lemma dedup_seen_length {A K : Type} (key : A -> K)
    (key_eqb : K -> K -> bool) (seen : list K) (l : list A) :
  (List.length (PySeq.dedup_seen key key_eqb seen l) <= List.length l)%nat.
Proof.
  revert seen. induction l as [|x l IH]; intros seen; simpl; [lia|].
  destruct (existsb (key_eqb (key x)) seen).
  - specialize (IH seen). lia.
  - simpl. specialize (IH (key x :: seen)). lia.
Qed.

(** The suggestions before the cut, and what they hold. *)
Lemma autocomplete_unfold (df : list Place) (query : string) (k : Z) :
  (2 <= String.length (PyStr.strip query))%nat ->
  get_autocomplete_suggestions df query k
  = PySeq.head k
      (PySeq.stable_sort by_suggestion_relevance
         (PySeq.drop_duplicates suggestion_key String.eqb
            (name_suggestions df (PyStr.strip query)
               ++ city_suggestions df (PyStr.strip query)
               ++ state_suggestions df (PyStr.strip query))%list)).
Proof.
  intros H. unfold get_autocomplete_suggestions.
  assert (H1 : (String.length (PyStr.strip query) <? 2)%nat = false)
    by (apply Nat.ltb_ge; lia).
  assert (H2 : (String.length query =? 0)%nat = false).
  { apply Nat.eqb_neq. intros H0.
    destruct query; [simpl in H; lia | discriminate]. }
  now rewrite H1, H2.
Qed.

Lemma ranked_suggestion_of_cell (df : list Place) (query ty t : string)
    (p : Place) :
  In p df -> suggested_cell ty p = Some t ->
  PyStr.contains query t = true ->
  exists s,
    In s (PySeq.stable_sort by_suggestion_relevance
            (PySeq.drop_duplicates suggestion_key String.eqb
               (name_suggestions df query ++ city_suggestions df query
                  ++ state_suggestions df query)%list))
    /\ type s = ty /\ text s = t.
Proof.
  intros Hp Hc Hq.
  destruct (candidate_of_cell df query ty t p Hp Hc Hq) as [c [Hin [Hty Ht]]].
  destruct (drop_duplicates_keeps suggestion_key String.eqb String.eqb_eq
              _ c Hin) as [y [Hy Ek]].
  exists y. split.
  - apply (Permutation_in _
             (Permutation_sym
                (PySeqFacts.stable_sort_perm by_suggestion_relevance _))).
    exact Hy.
  - pose proof (dedup_seen_incl suggestion_key String.eqb [] _ y Hy) as Hy'.
    destruct (candidate_key_inj df query y c Hy' Hin Ek) as [E1 E2].
    now rewrite E1, E2.
Qed.

(** X29.  With a bound of three times the number of rows or more,
    nothing is cut: for a stripped query of two characters or more,
    every name, city and state of the catalog that holds the query (in
    the case it is written in) is the text of a suggestion of its
    type. *)
Theorem autocomplete_complete (df : list Place) (query ty t : string)
    (max_suggestions : Z) (p : Place) :
  (2 <= String.length (PyStr.strip query))%nat ->
  Z.of_nat (3 * List.length df) <= max_suggestions ->
  In p df -> suggested_cell ty p = Some t ->
  PyStr.contains (PyStr.strip query) t = true ->
  exists s,
    In s (get_autocomplete_suggestions df query max_suggestions)
    /\ type s = ty /\ text s = t.
Proof.
  intros Hq Hk Hp Hc Ht.
  rewrite autocomplete_unfold by exact Hq.
  destruct (ranked_suggestion_of_cell df (PyStr.strip query) ty t p Hp Hc Ht)
    as [s [Hs Hst]].
  exists s. split; [|exact Hst].
  rewrite PySeqFacts.head_nonneg by lia.
  rewrite firstn_all2; [exact Hs|].
  rewrite PySeqFacts.stable_sort_length.
  pose proof (dedup_seen_length suggestion_key String.eqb []
                (name_suggestions df (PyStr.strip query)
                   ++ city_suggestions df (PyStr.strip query)
                   ++ state_suggestions df (PyStr.strip query))%list) as L1.
  pose proof (candidates_length df (PyStr.strip query)) as L2.
  unfold PySeq.drop_duplicates. lia.
Qed.

Lemma autocomplete_complete_witness :
  exists s,
    In s (get_autocomplete_suggestions scenario "Go" 9)
    /\ type s = "state" /\ text s = "Goa".
Proof.
  apply (autocomplete_complete scenario "Go" "state" "Goa" 9 place_C).
  - simpl. lia.
  - simpl. lia.
  - simpl. tauto.
  - reflexivity.
  - reflexivity.
Defined.

(** X30.  Names come first: when a name of the catalog holds the
    stripped query (of two characters or more) and the bound is at
    least one, the first suggestion is a name. *)
Theorem autocomplete_name_first (df : list Place) (query t : string)
    (max_suggestions : Z) (p : Place) :
  (2 <= String.length (PyStr.strip query))%nat ->
  1 <= max_suggestions ->
  In p df -> Name p = Some t ->
  PyStr.contains (PyStr.strip query) t = true ->
  exists s rest,
    get_autocomplete_suggestions df query max_suggestions = s :: rest
    /\ type s = "name" /\ suggestion_relevance_score s = 100.
Proof.
  intros Hq Hk Hp Hc Ht.
  rewrite autocomplete_unfold by exact Hq.
  destruct (ranked_suggestion_of_cell df (PyStr.strip query) "name" t p Hp
              Hc Ht) as [y [Hy [Hty _]]].
  set (cands := (name_suggestions df (PyStr.strip query)
                   ++ city_suggestions df (PyStr.strip query)
                   ++ state_suggestions df (PyStr.strip query))%list) in *.
  assert (Hcand : forall s,
             In s (PySeq.stable_sort by_suggestion_relevance
                     (PySeq.drop_duplicates suggestion_key String.eqb cands))
             -> In s cands).
  { intros s Hs.
    apply (Permutation_in _
             (PySeqFacts.stable_sort_perm by_suggestion_relevance _)) in Hs.
    now apply dedup_seen_incl in Hs. }
  assert (Hsorted : StronglySorted
            (fun a b => by_suggestion_relevance b a = false)
            (PySeq.stable_sort by_suggestion_relevance
               (PySeq.drop_duplicates suggestion_key String.eqb cands))).
  { apply stable_sort_not_after; unfold by_suggestion_relevance.
    - intros a b H. apply Z.ltb_lt in H. apply Z.ltb_ge. lia.
    - intros a b c H. apply Z.ltb_lt in H. rewrite !Z.ltb_lt. lia. }
  assert (Hy100 : suggestion_relevance_score y = 100).
  { destruct (candidate_type df _ y (Hcand y Hy)) as [[_ H]|[[H _]|[H _]]];
      [exact H | |]; rewrite Hty in H; discriminate. }
  destruct (PySeq.stable_sort by_suggestion_relevance
              (PySeq.drop_duplicates suggestion_key String.eqb cands))
    as [|s rest] eqn:E; [destruct Hy|].
  assert (Hs100 : 100 <= suggestion_relevance_score s).
  { destruct Hy as [<-|Hy]; [lia|].
    inversion Hsorted as [|? ? _ Hall]; subst.
    rewrite Forall_forall in Hall. specialize (Hall y Hy).
    unfold by_suggestion_relevance in Hall. apply Z.ltb_ge in Hall. lia. }
  rewrite PySeqFacts.head_nonneg by lia.
  destruct (Z.to_nat max_suggestions) as [|k] eqn:Ek; [lia|].
  exists s, (firstn k rest). split; [reflexivity|].
  destruct (candidate_type df _ s (Hcand s (or_introl eq_refl)))
    as [[H1 H2]|[[_ H]|[_ H]]]; [now split | lia | lia].
Qed.

Lemma autocomplete_name_first_witness :
  exists s rest,
    get_autocomplete_suggestions scenario "Go" 1 = s :: rest
    /\ type s = "name" /\ suggestion_relevance_score s = 100.
Proof.
  apply (autocomplete_name_first scenario "Go" "Goa Beach" 1 place_C).
  - simpl. lia.
  - lia.
  - simpl. tauto.
  - reflexivity.
  - reflexivity.
Defined.

(** ** The case of the query *)


